(** * Verification of the riptide process supervisor (src/src/hooks.ts)

    A shallow embedding of the hooks module: the circular log buffer, the
    uptime extractor and its regular expressions, the restart backoff, the
    health evaluator with its cache, the stream handlers, the [stop] hook and
    the event-driven supervisor built from them.

    Conventions of the embedding.
    - A JavaScript string is the sequence of its code units; the model keeps
      the code units 0..255 (Rocq's [ascii]), which contains every character
      the program's patterns and keywords name.
    - Integers of the program (timestamps in milliseconds, counters, the
      values read with [parseInt]) are [Z]; [NaN] is not modelled for them.
    - The arithmetic of [calculateBackoff] is that of IEEE-754 binary64
      (module [Double]): every operation rounds to the nearest double, ties
      to even, with overflow to [Infinity] and with [NaN].
    - The uptime read by [parseFloat] is the exact rational its decimal text
      denotes; the program only compares it with zero and with an earlier
      reading.
    - Everything the program reads from its environment ([Date.now()],
      [Math.random()], the liveness probe, the outcome of a spawn) is an
      explicit argument, and everything it does to the environment (signals,
      spawns, log records, timers) is returned as a list of effects. *)

From stdpp Require Import base list strings.
From Stdlib Require Import Ascii ZArith QArith Qround Qminmax Qpower Lia Lqa.
From Stdlib Require SpecFloat.

#[local] Open Scope nat_scope.

(** ** JavaScript array helpers *)

Module JS.

(** [arr[i] = x] on an array with holes: in range the slot is overwritten,
    out of range the array is extended with holes up to [i]. *)
Definition array_set {A : Type} (i : nat) (x : A) (arr : list (option A))
  : list (option A) :=
  if decide (i < length arr) then <[ i := Some x ]> arr
  else arr ++ replicate (i - length arr) None ++ [Some x].

(** [arr[i]], which is [undefined] ([None]) on a hole and out of range. *)
Definition array_get {A : Type} (i : nat) (arr : list (option A)) : option A :=
  mjoin (arr !! i).

(** [arr.slice(-n)] for a natural [n]: the last [n] elements, the whole
    array when [n] exceeds its length, and, because [-0] is [0], the whole
    array when [n] is zero. *)
Definition slice_neg {A : Type} (n : nat) (arr : list A) : list A :=
  match n with
  | O => arr
  | S _ => drop (length arr - n) arr
  end.

End JS.

(** ** CircularBuffer (hooks.ts, lines 60-99) *)

Module CircularBuffer.

Record t (T : Type) := Make {
  buffer : list (option T);
  head : nat;
  size : nat;
  capacity : nat
}.

Arguments Make {T} _ _ _ _.
Arguments buffer {T} _.
Arguments head {T} _.
Arguments size {T} _.
Arguments capacity {T} _.

(** [constructor(capacity)]: [new Array(capacity)] is [capacity] holes. *)
Definition new {T : Type} (cap : nat) : t T :=
  Make (replicate cap None) 0 0 cap.

(** [push(item)]. With capacity zero JavaScript's [head] becomes [NaN] and
    [size] stays zero, so that the buffer is never read; the model keeps a
    number in [head] there. *)
Definition push {T : Type} (item : T) (b : t T) : t T :=
  Make (JS.array_set (head b) item (buffer b))
       ((head b + 1) mod capacity b)
       (min (size b + 1) (capacity b))
       (capacity b).

(** [getAll()]: the loop over [i = 0 .. count-1], skipping undefined slots. *)
Definition getAll {T : Type} (b : t T) : list T :=
  let start := if decide (size b = capacity b) then head b else 0 in
  let count := size b in
  flat_map
    (fun i => match JS.array_get ((start + i) mod capacity b) (buffer b) with
              | Some x => [x]
              | None => []
              end)
    (seq 0 count).

(** [getRecent(n)] *)
Definition getRecent {T : Type} (n : nat) (b : t T) : list T :=
  JS.slice_neg n (getAll b).

(** [clear()] *)
Definition clear {T : Type} (b : t T) : t T :=
  Make (replicate (capacity b) None) 0 0 (capacity b).

(** The buffer reached from an empty one of capacity [cap] by pushing the
    lines of [xs], oldest first. *)
Definition push_all {T : Type} (xs : list T) (b : t T) : t T :=
  foldl (fun acc x => push x acc) b xs.

End CircularBuffer.

(** ** JavaScript strings and numbers *)

Module JSString.

Definition code (c : ascii) : N := N_of_ascii c.

(** [String.prototype.toLowerCase] on the code units 0..255: the letters
    A-Z and the upper-case letters of Latin-1 (all of U+00C0..U+00DE but the
    multiplication sign) move up by 32. *)
Definition lower_char (c : ascii) : ascii :=
  let n := code c in
  if ((65 <=? n) && (n <=? 90) || (192 <=? n) && (n <=? 222) && negb (n =? 215))%N
  then ascii_of_N (n + 32) else c.

Fixpoint toLowerCase (s : string) : string :=
  match s with
  | EmptyString => EmptyString
  | String c s' => String (lower_char c) (toLowerCase s')
  end.

(** [s.indexOf(needle)]; [None] stands for [-1]. *)
Definition indexOf (needle s : string) : option nat := String.index 0 needle s.

(** [s.indexOf(needle) !== -1] *)
Definition includes (needle s : string) : bool :=
  match indexOf needle s with Some _ => true | None => false end.

End JSString.

(** A JavaScript number as the program uses it: [NaN] or a rational. *)
Inductive number := NaN | Num (q : Q).

Module Number.

(** [a > b]: false as soon as one side is [NaN]. *)
Definition gtb (a b : number) : bool :=
  match a, b with
  | Num x, Num y => negb (Qle_bool x y)
  | _, _ => false
  end.

Definition zero : number := Num 0.

Definition digit (c : ascii) : option Z :=
  let n := JSString.code c in
  if ((48 <=? n) && (n <=? 57))%N then Some (Z.of_N n - 48)%Z else None.

(** Reads the longest run of digits in front of [s]: the digits read so far
    are worth [acc], [k] counts them, and the rest of the text is returned. *)
Fixpoint read_digits (acc : Z) (k : nat) (s : list ascii) : Z * nat * list ascii :=
  match s with
  | c :: s' =>
      match digit c with
      | Some d => read_digits (10 * acc + d)%Z (S k) s'
      | None => (acc, k, s)
      end
  | [] => (acc, k, s)
  end.

(** [parseFloat] on the prefix [digits], [digits.digits] or [.digits] of the
    text (the shapes the capture group of the uptime patterns can take; a
    sign, an exponent, leading blanks and [Infinity] are not modelled):
    the number read, [NaN] when the text starts with none. *)
Definition parseFloat (s : list ascii) : number :=
  let '(ip, ik, rest) := read_digits 0 0 s in
  match rest with
  | "."%char :: rest' =>
      let '(fp, fk, _) := read_digits 0 0 rest' in
      match ik, fk with
      | O, O => NaN
      | _, _ => Num (inject_Z ip + inject_Z fp / inject_Z (10 ^ Z.of_nat fk))
      end
  | _ => match ik with O => NaN | S _ => Num (inject_Z ip) end
  end.

End Number.

(** ** IEEE-754 binary64

    The doubles of JavaScript, as far as [calculateBackoff] needs them: a
    finite double is the rational it denotes (one zero: the program does
    not divide), and every operation is the exact operation followed by
    [round], rounding to the nearest double, ties to even. *)

Module Double.

Inductive t := NaN | Inf (negative : bool) | Fin (q : Q).

(** The exponent [e] with [2^e <= q < 2^(e+1)], for [q > 0]. *)
Definition binade (q : Q) : Z :=
  let e := (Z.log2 (Qnum q) - Z.log2 (Zpos (Qden q)))%Z in
  if Qle_bool (2 ^ e) q then e else (e - 1)%Z.

(** The integer nearest to [z], the even one of two that are as near. *)
Definition round_half_even (z : Q) : Z :=
  let f := Qfloor z in
  match (z - inject_Z f ?= 1 # 2)%Q with
  | Lt => f
  | Gt => (f + 1)%Z
  | Eq => if Z.even f then f else (f + 1)%Z
  end.

(** Rounding of [q > 0]: 53 significant bits, the least exponent -1074
    (subnormal numbers), [Infinity] from [2^1024] on. *)
Definition round_pos (q : Q) : t :=
  let c := Z.max (binade q - 52) (-1074) in
  let r := (inject_Z (round_half_even (q / 2 ^ c)) * 2 ^ c)%Q in
  if Qle_bool (2 ^ 1024) r then Inf false else Fin (Qred r).

Definition round (q : Q) : t :=
  match (q ?= 0)%Q with
  | Eq => Fin 0
  | Gt => round_pos q
  | Lt => match round_pos (- q) with Fin r => Fin (- r) | _ => Inf true end
  end.

Definition mul (x y : t) : t :=
  match x, y with
  | NaN, _ | _, NaN => NaN
  | Inf s, Inf s' => Inf (xorb s s')
  | Inf s, Fin q | Fin q, Inf s =>
      match (q ?= 0)%Q with Eq => NaN | Gt => Inf s | Lt => Inf (negb s) end
  | Fin a, Fin b => round (a * b)
  end.

Definition add (x y : t) : t :=
  match x, y with
  | NaN, _ | _, NaN => NaN
  | Inf s, Inf s' => if Bool.eqb s s' then Inf s else NaN
  | Inf s, Fin _ | Fin _, Inf s => Inf s
  | Fin a, Fin b => round (a + b)
  end.

Definition min (x y : t) : t :=
  match x, y with
  | NaN, _ | _, NaN => NaN
  | Inf true, _ | _, Inf true => Inf true
  | Inf false, z | z, Inf false => z
  | Fin a, Fin b => if Qle_bool a b then Fin a else Fin b
  end.

Definition floor (x : t) : t :=
  match x with Fin q => Fin (inject_Z (Qfloor q)) | _ => x end.

(** [Math.pow(2, k)] for an integer [k]. *)
Definition pow2 (k : Z) : t := round (2 ^ k).

(** The value of a float of the Standard Library's specification of
    IEEE-754 arithmetic ([SpecFloat]). *)
Definition of_spec (x : SpecFloat.spec_float) : t :=
  match x with
  | SpecFloat.S754_zero _ => Fin 0
  | SpecFloat.S754_infinity s => Inf s
  | SpecFloat.S754_nan => NaN
  | SpecFloat.S754_finite s m e =>
      Fin (Qred ((if s then -1 else 1) * inject_Z (Zpos m) * 2 ^ e))
  end.

(** The non-negative rationals that are doubles. *)
Definition representable (f : Q) : Prop :=
  exists m e : Z,
    (0 <= m < 2 ^ 53)%Z /\ (-1074 <= e)%Z /\
    (f == inject_Z m * 2 ^ e)%Q /\ (f < 2 ^ 1024)%Q.

(** [x] is [Infinity] or a finite double that is at least [f]. *)
Definition above (f : Q) (x : t) : Prop :=
  match x with
  | Fin r => (f <= r)%Q
  | Inf false => True
  | _ => False
  end.

(** The double nearest to 0.3. *)
Definition three_tenths : Q := 5404319552844595 # 18014398509481984.


End Double.

(** ** Regular expressions (the fragment used by UPTIME_PATTERNS)

    A backtracking matcher in continuation-passing style, with the priorities
    of ECMAScript: the left alternative first, greedy repetition, one
    capturing group. All the patterns of the program carry the flag [i]. *)

Module Regex.

Inductive regex :=
| Eps
| Chr (c : ascii)              (* one character, compared ignoring case *)
| Class (p : ascii -> bool)    (* a character class *)
| Seq (r1 r2 : regex)
| Alt (r1 r2 : regex)
| Star (r : regex)
| Group (r : regex).           (* capturing group 1 *)

Definition Plus (r : regex) : regex := Seq r (Star r).
Definition Opt (r : regex) : regex := Alt r Eps.

Fixpoint lit_chars (cs : list ascii) : regex :=
  match cs with
  | [] => Eps
  | c :: cs' => Seq (Chr c) (lit_chars cs')
  end.

Definition lit (s : string) : regex := lit_chars (String.list_ascii_of_string s).

(** Canonicalize of the flag [i]: on the code units of the model two
    characters are identified exactly when their lower-case forms agree (no
    character above 127 is identified with an ASCII one). *)
Definition same_char_i (x c : ascii) : bool :=
  bool_decide (JSString.lower_char x = JSString.lower_char c).

(** [\d] *)
Definition is_digit (c : ascii) : bool :=
  match Number.digit c with Some _ => true | None => false end.

(** [\s] on the code units of the model: TAB, LF, VT, FF, CR, space, NBSP. *)
Definition is_space (c : ascii) : bool :=
  let n := JSString.code c in
  ((9 <=? n) && (n <=? 13) || (n =? 32) || (n =? 160))%N.

(** [[:\s]] *)
Definition is_colon_or_space (c : ascii) : bool :=
  bool_decide (c = ":"%char) || is_space c.

(** The result of a match: the text captured by group 1, if it took part. *)
Definition captures := option (list ascii).

Fixpoint run (r : regex) (s : list ascii) (cap : captures)
    (k : list ascii -> captures -> option captures) {struct r} : option captures :=
  match r with
  | Eps => k s cap
  | Chr c =>
      match s with
      | x :: s' => if same_char_i x c then k s' cap else None
      | [] => None
      end
  | Class p =>
      match s with
      | x :: s' => if p x then k s' cap else None
      | [] => None
      end
  | Seq r1 r2 => run r1 s cap (fun s' cap' => run r2 s' cap' k)
  | Alt r1 r2 =>
      match run r1 s cap k with
      | Some res => Some res
      | None => run r2 s cap k
      end
  | Star r1 =>
      (fix loop (fuel : nat) (s : list ascii) (cap : captures) : option captures :=
         match fuel with
         | O => k s cap
         | S fuel' =>
             match run r1 s cap
                     (fun s' cap' =>
                        if decide (length s' < length s) then loop fuel' s' cap'
                        else None) with
             | Some res => Some res
             | None => k s cap
             end
         end) (length s) s cap
  | Group r1 =>
      run r1 s cap (fun s' _ => k s' (Some (take (length s - length s') s)))
  end.

(** A match starting at the front of [s]. *)
Definition match_here (r : regex) (s : list ascii) : option captures :=
  run r s None (fun _ cap => Some cap).

(** The leftmost match in [s], as [RegExp.prototype.exec] finds it. *)
Fixpoint exec_chars (r : regex) (s : list ascii) : option captures :=
  match match_here r s with
  | Some cap => Some cap
  | None =>
      match s with
      | [] => None
      | _ :: s' => exec_chars r s'
      end
  end.

(** [str.match(pattern)] for a pattern without the flag [g]: [None] is
    [null], [Some cap] a match whose element 1 is [cap]. *)
Definition exec (r : regex) (s : string) : option captures :=
  exec_chars r (String.list_ascii_of_string s).

End Regex.

(** ** Configuration, patterns and types (hooks.ts, lines 10-143) *)

(** The fields of [CONFIG] the hooks read. *)
Record Config := {
  BINARY_PATH : string;
  SECRET_KEY : string;
  STARTUP_GRACE_PERIOD : Z;
  MAX_RESTART_ATTEMPTS : Z;
  RESTART_DELAY : Z;
  AUTO_KEY_INJECTION : bool;
  MAX_LOG_LINES : nat;
  SHUTDOWN_TIMEOUT : Z;
  HEALTH_CACHE_TTL : Z
}.

(** [CONFIG] when no environment variable is set. *)
Definition default_config : Config := {|
  BINARY_PATH := "/app/binary";
  SECRET_KEY := "DEEEP_NETWORK";
  STARTUP_GRACE_PERIOD := 5000;
  MAX_RESTART_ATTEMPTS := 3;
  RESTART_DELAY := 2000;
  AUTO_KEY_INJECTION := false;
  MAX_LOG_LINES := 1000;
  SHUTDOWN_TIMEOUT := 10000;
  HEALTH_CACHE_TTL := 500
|}.

Import Regex.

(** [(\d+(?:\.\d+)?)] *)
Definition number_group : regex :=
  Group (Seq (Plus (Class is_digit))
             (Opt (Seq (Chr ".") (Plus (Class is_digit))))).

(** [\s*(?:seconds?|s)] *)
Definition seconds_unit : regex :=
  Seq (Star (Class is_space))
      (Alt (Seq (lit "second") (Opt (Chr "s"))) (Chr "s")).

Definition UPTIME_PATTERNS : list regex := [
  (* /uptime[:\s]+(\d+(?:\.\d+)?)\s*(?:seconds?|s)/i *)
  Seq (lit "uptime")
      (Seq (Plus (Class is_colon_or_space)) (Seq number_group seconds_unit));
  (* /running\s+for[:\s]+(\d+(?:\.\d+)?)\s*(?:seconds?|s)/i *)
  Seq (lit "running")
      (Seq (Plus (Class is_space))
           (Seq (lit "for")
                (Seq (Plus (Class is_colon_or_space))
                     (Seq number_group seconds_unit))));
  (* /alive[:\s]+(\d+(?:\.\d+)?)\s*(?:seconds?|s)/i *)
  Seq (lit "alive")
      (Seq (Plus (Class is_colon_or_space)) (Seq number_group seconds_unit))
].

Definition ERROR_KEYWORDS : list string :=
  ["error"; "exception"; "failed"; "critical"; "fatal"].

(** A [ChildProcess] object: [cid] is the identity of the object (the
    order of creation), [pid] is [undefined] when the spawn failed. *)
Record ChildProcess := { cid : nat; pid : option Z }.

Record HealthMetrics := {
  uptime : number;
  isRunning : bool;
  hasErrors : bool;
  uptimeIncreasing : bool
}.

Record PerformanceMetrics := {
  lastHealthCheckDuration : Q;
  avgHealthCheckDuration : Q;
  totalHealthChecks : Z;
  lastRestartTime : Z;
  memoryUsage : Z;
  logProcessingTime : Q
}.

Record HealthCacheEntry := {
  entry_metrics : HealthMetrics;
  entry_timestamp : Z
}.

Record ProcessState := {
  process : option ChildProcess;
  startTime : Z;
  lastUptime : number;
  isHealthy : bool;
  restartCount : Z;
  logs : CircularBuffer.t string;
  metrics : PerformanceMetrics;
  healthCache : option HealthCacheEntry
}.

Inductive signal := SIGTERM | SIGKILL.

Inductive level := Debug | Info | Warn | Error.

(** What a handler does to its environment, in the order it does it. *)
Inductive effect :=
| Log (l : level) (message : string)
| SpawnKey (command : string)               (* spawn(BINARY_PATH, [--key=...]) *)
| Spawn (child : nat) (command : string)    (* spawn(command, ['start']) *)
| Kill (child : nat) (sig : signal)         (* child.kill(sig) *)
| Probe (p : Z)                             (* process.kill(p, 0) *)
| ScanUptime                                (* extractUptimeFromLogs *)
| ScanErrors                                (* the keyword scan of the recent lines *)
| SetTimeout (ms : Z)                       (* the restart timer *)
| Sleep (ms : Z)                            (* await delay(ms) *)
| Unlink (path : string)                    (* fs.unlink(path) *)
| Access (path : string)                    (* fs.access(path, X_OK) *)
| WriteFile (path : string).                (* fs.writeFile(path, ...) *)

Definition zero_metrics : PerformanceMetrics := {|
  lastHealthCheckDuration := 0;
  avgHealthCheckDuration := 0;
  totalHealthChecks := 0;
  lastRestartTime := 0;
  memoryUsage := 0;
  logProcessingTime := 0
|}.

(** The value of [processState] when the module is loaded (lines 218-234). *)
Definition initial_state (CONFIG : Config) : ProcessState := {|
  process := None;
  startTime := 0;
  lastUptime := Number.zero;
  isHealthy := false;
  restartCount := 0;
  logs := CircularBuffer.new (MAX_LOG_LINES CONFIG);
  metrics := zero_metrics;
  healthCache := None
|}.

(** Assignments to the fields of [processState]. *)
Definition set_process (v : option ChildProcess) (st : ProcessState) :=
  {| process := v; startTime := startTime st; lastUptime := lastUptime st;
     isHealthy := isHealthy st; restartCount := restartCount st;
     logs := logs st; metrics := metrics st; healthCache := healthCache st |}.
Definition set_startTime (v : Z) (st : ProcessState) :=
  {| process := process st; startTime := v; lastUptime := lastUptime st;
     isHealthy := isHealthy st; restartCount := restartCount st;
     logs := logs st; metrics := metrics st; healthCache := healthCache st |}.
Definition set_lastUptime (v : number) (st : ProcessState) :=
  {| process := process st; startTime := startTime st; lastUptime := v;
     isHealthy := isHealthy st; restartCount := restartCount st;
     logs := logs st; metrics := metrics st; healthCache := healthCache st |}.
Definition set_isHealthy (v : bool) (st : ProcessState) :=
  {| process := process st; startTime := startTime st; lastUptime := lastUptime st;
     isHealthy := v; restartCount := restartCount st;
     logs := logs st; metrics := metrics st; healthCache := healthCache st |}.
Definition set_restartCount (v : Z) (st : ProcessState) :=
  {| process := process st; startTime := startTime st; lastUptime := lastUptime st;
     isHealthy := isHealthy st; restartCount := v;
     logs := logs st; metrics := metrics st; healthCache := healthCache st |}.
Definition set_logs (v : CircularBuffer.t string) (st : ProcessState) :=
  {| process := process st; startTime := startTime st; lastUptime := lastUptime st;
     isHealthy := isHealthy st; restartCount := restartCount st;
     logs := v; metrics := metrics st; healthCache := healthCache st |}.
Definition set_metrics (v : PerformanceMetrics) (st : ProcessState) :=
  {| process := process st; startTime := startTime st; lastUptime := lastUptime st;
     isHealthy := isHealthy st; restartCount := restartCount st;
     logs := logs st; metrics := v; healthCache := healthCache st |}.
Definition set_healthCache (v : option HealthCacheEntry) (st : ProcessState) :=
  {| process := process st; startTime := startTime st; lastUptime := lastUptime st;
     isHealthy := isHealthy st; restartCount := restartCount st;
     logs := logs st; metrics := metrics st; healthCache := v |}.

(** [process.pid] where the program tests it for truth: [undefined] and [0]
    are false. *)
Definition truthy_pid (c : ChildProcess) : option Z :=
  match pid c with
  | Some p => if (p =? 0)%Z then None else Some p
  | None => None
  end.

(** ** Utility functions (hooks.ts, lines 173-213) *)

(** The inner loop of [extractUptimeFromLogs]: the first pattern that
    matches the line gives [parseFloat(match[1])]. *)
Fixpoint match_uptime (patterns : list regex) (line : string) : option number :=
  match patterns with
  | [] => None
  | pattern :: rest =>
      match Regex.exec pattern line with
      | Some (Some text) => Some (Number.parseFloat text)
      | Some None => Some NaN    (* parseFloat(undefined) *)
      | None => match_uptime rest line
      end
  end.

(** The outer loop, over the lines from the newest to the oldest. *)
Fixpoint scan_newest_first (newest_first : list string) : number :=
  match newest_first with
  | [] => Number.zero
  | line :: older =>
      match match_uptime UPTIME_PATTERNS line with
      | Some v => v
      | None => scan_newest_first older
      end
  end.

Definition extractUptimeFromLogs (logs : CircularBuffer.t string) : number :=
  let recentLogs := CircularBuffer.getRecent 50 logs in
  scan_newest_first (rev recentLogs).

(** [calculateBackoff(attempt, baseDelay, maxDelay)] (lines 205-213), in
    the arithmetic of doubles; [random] is the value of [Math.random()].
    The arguments are the doubles nearest to the rationals given. *)
Definition backoff_delay (attempt : Z) (baseDelay maxDelay : Q) : Double.t :=
  Double.min (Double.mul (Double.round baseDelay) (Double.pow2 attempt))
             (Double.round maxDelay).

Definition backoff_jitter (random : Q) (delay : Double.t) : Double.t :=
  Double.mul (Double.mul (Double.round random) (Double.round (3 # 10))) delay.

Definition calculateBackoff (attempt : Z) (baseDelay maxDelay random : Q)
  : Double.t :=
  let delay := backoff_delay attempt baseDelay maxDelay in
  let jitter := backoff_jitter random delay in
  Double.floor (Double.add delay jitter).

(** The duration Node gives a timer created by [setTimeout(callback, after)]:
    [after] itself when it lies between 1 and [TIMEOUT_MAX], and 1 ms when
    it is smaller, larger or [NaN]. *)
Definition TIMEOUT_MAX : Z := 2147483647.

Definition timer_delay (after : Double.t) : Z :=
  match after with
  | Double.Fin q =>
      if Qle_bool 1 q && Qle_bool q (inject_Z TIMEOUT_MAX) then Qfloor q else 1
  | _ => 1
  end.

(** Counting in a trace of effects. *)
Definition is_spawn (e : effect) : bool :=
  match e with Spawn _ _ => true | _ => false end.

Definition is_restart_attempt (e : effect) : bool :=
  match e with SetTimeout _ => true | _ => false end.

Definition is_probe (e : effect) : bool :=
  match e with Probe _ => true | _ => false end.

Definition is_scan (e : effect) : bool :=
  match e with ScanUptime | ScanErrors => true | _ => false end.

Definition is_kill (e : effect) : bool :=
  match e with Kill _ _ => true | _ => false end.

Definition count {A : Type} (p : A -> bool) (l : list A) : nat :=
  length (List.filter p l).

(** ** Process management (hooks.ts, lines 271-444) *)

(** What the operating system answers to one call of [startBinaryProcess]:
    the exit code of the key-setting process ([None] when a signal ended
    it) and the pid of the spawned binary ([None] when it has none). *)
Record SpawnEnv := { keyExit : option Z; newPid : option Z }.

(** What [checkBinaryHealth] reads from its environment: the clock at the
    cache test, at the grace-period test and when the snapshot is stored,
    the answer of the liveness probe, the measured duration and the size
    of the heap. *)
Record HealthEnv := {
  now_check : Z;
  alive : bool;
  now_grace : Z;
  now_store : Z;
  duration : Q;
  heapUsed : Z
}.

(** What [stop] reads from its environment: the answer of the i-th liveness
    probe, by how many milliseconds the i-th [delay(100)] overran, and
    whether [fs.unlink] succeeded. *)
Record StopEnv := {
  alive_at : nat -> bool;
  overrun : nat -> nat;
  unlink_ok : bool
}.

Section Hooks.
Variable CONFIG : Config.

(** [startBinaryProcess(binaryPath, logger, useWrapper)]: the promise is
    rejected ([None]) or resolved with a new [ChildProcess] whose identity
    is [fresh]. *)
Definition startBinaryProcess (binaryPath : string) (useWrapper : bool)
    (env : SpawnEnv) (fresh : nat) : option ChildProcess * list effect :=
  let startCommand := if useWrapper then binaryPath else BINARY_PATH CONFIG in
  if negb useWrapper then
    match keyExit env with
    | Some 0%Z =>
        (Some {| cid := fresh; pid := newPid env |},
         [Log Info "Starting binary process"; SpawnKey (BINARY_PATH CONFIG);
          Log Info "Binary key set successfully";
          Spawn fresh (BINARY_PATH CONFIG)])
    | _ =>
        (None,
         [Log Info "Starting binary process"; SpawnKey (BINARY_PATH CONFIG);
          Log Error "Key setting failed"])
    end
  else
    (Some {| cid := fresh; pid := newPid env |},
     [Log Info "Starting binary process"; Spawn fresh startCommand]).

(** [monitorProcessLogs]: the part that runs at once clears the buffer;
    the two readers it attaches are the handlers below. *)
Definition monitorProcessLogs (st : ProcessState) : ProcessState :=
  set_logs (CircularBuffer.clear (logs st)) st.

(** The ['line'] handler of the stdout reader; [elapsed] is the measured
    processing time in milliseconds. *)
Definition on_stdout_line (line : string) (elapsed : Q) (st : ProcessState)
  : ProcessState * list effect :=
  let st1 := set_logs (CircularBuffer.push line (logs st)) st in
  let m := metrics st1 in
  (set_metrics {| lastHealthCheckDuration := lastHealthCheckDuration m;
                  avgHealthCheckDuration := avgHealthCheckDuration m;
                  totalHealthChecks := totalHealthChecks m;
                  lastRestartTime := lastRestartTime m;
                  memoryUsage := memoryUsage m;
                  logProcessingTime := elapsed |} st1,
   [Log Debug "[BINARY STDOUT]"]).

(** The test of the stderr reader on a line. *)
Definition invalid_secret (line : string) : bool :=
  let lowerLine := JSString.toLowerCase line in
  JSString.includes "invalid" lowerLine && JSString.includes "secret" lowerLine.

(** The ['line'] handler of the stderr reader attached to [childProcess]. *)
Definition on_stderr_line (childProcess : nat) (line : string) (st : ProcessState)
  : ProcessState * list effect :=
  let st1 := set_logs (CircularBuffer.push ("ERROR: " +:+ line) (logs st)) st in
  (st1,
   Log Warn "[BINARY STDERR]" ::
   (if invalid_secret line
    then [Log Error "Invalid secret detected in binary output";
          Kill childProcess SIGTERM]
    else [])).

(** The callback of [recentLogs.some]. *)
Definition has_error_keyword (log : string) : bool :=
  let lowerLog := JSString.toLowerCase log in
  existsb (fun keyword => JSString.includes keyword lowerLog) ERROR_KEYWORDS.

Definition empty_health : HealthMetrics :=
  {| uptime := Number.zero; isRunning := false; hasErrors := false;
     uptimeIncreasing := false |}.

(** The cache test of lines 375-376. *)
Definition cache_lookup (now : Z) (st : ProcessState) : option HealthMetrics :=
  match healthCache st with
  | Some entry =>
      if (now - entry_timestamp entry <? HEALTH_CACHE_TTL CONFIG)%Z
      then Some (entry_metrics entry) else None
  | None => None
  end.

(** Lines 431-441. *)
Definition record_health_check (d : Q) (heap : Z) (m : PerformanceMetrics)
  : PerformanceMetrics :=
  let total := (totalHealthChecks m + 1)%Z in
  {| lastHealthCheckDuration := d;
     avgHealthCheckDuration :=
       (avgHealthCheckDuration m * inject_Z (total - 1) + d) / inject_Z total;
     totalHealthChecks := total;
     lastRestartTime := lastRestartTime m;
     memoryUsage := heap;
     logProcessingTime := logProcessingTime m |}.

Definition checkBinaryHealth (env : HealthEnv) (st : ProcessState)
  : HealthMetrics * ProcessState * list effect :=
  match cache_lookup (now_check env) st with
  | Some cached => (cached, st, [])
  | None =>
      match process st with
      | None => (empty_health, st, [])
      | Some child =>
          match truthy_pid child with
          | None => (empty_health, st, [])
          | Some p =>
              if negb (alive env) then
                (empty_health, st,
                 [Probe p; Log Warn "Binary process is not running"])
              else
                let up := extractUptimeFromLogs (logs st) in
                let increasing := Number.gtb up (lastUptime st) in
                let st1 := if increasing then set_lastUptime up st else st in
                let warn :=
                  if negb increasing &&
                     (now_grace env - startTime st >? STARTUP_GRACE_PERIOD CONFIG)%Z
                  then [Log Warn "Uptime not increasing"] else [] in
                let recentLogs := CircularBuffer.getRecent 50 (logs st) in
                let m := {| uptime := up; isRunning := true;
                            hasErrors := existsb has_error_keyword recentLogs;
                            uptimeIncreasing := increasing |} in
                let st2 :=
                  set_healthCache
                    (Some {| entry_metrics := m;
                             entry_timestamp := now_store env |}) st1 in
                let st3 :=
                  set_metrics
                    (record_health_check (duration env) (heapUsed env)
                                         (metrics st2)) st2 in
                (m, st3, [Probe p; ScanUptime] ++ warn ++ [ScanErrors])
          end
      end
  end.

(** The verdict of the [health] hook on a [HealthMetrics] (lines 572-574). *)
Definition verdict (m : HealthMetrics) : bool :=
  isRunning m && negb (hasErrors m) &&
  (uptimeIncreasing m || Number.gtb (uptime m) Number.zero).

(** The [health] hook (lines 566-588). *)
Definition health (env : HealthEnv) (st : ProcessState)
  : bool * ProcessState * list effect :=
  let '(m, st1, eff) := checkBinaryHealth env st in
  let healthy := verdict m in
  (healthy, set_isHealthy healthy st1,
   eff ++ [Log Info "Health check completed"]).

(** The end of [start], after the grace period (lines 555-558). *)
Definition initial_health_check (env : HealthEnv) (st : ProcessState)
  : ProcessState * list effect :=
  let '(h, st1, eff) := checkBinaryHealth env st in
  (set_isHealthy
     (isRunning h && (uptimeIncreasing h || Number.gtb (uptime h) Number.zero))
     st1,
   eff ++ [Log Info "Binary startup completed"]).

(** The ['exit'] handler registered by [start] (lines 523-549), up to the
    call of [setTimeout]; [now] and [random] are [Date.now()] and
    [Math.random()]. The handler schedules the restart timer exactly when
    it returns a [SetTimeout] effect, which carries the duration of the
    timer in milliseconds. *)
Definition on_exit (now : Z) (random : Q) (st : ProcessState)
  : ProcessState * list effect :=
  let st1 := set_isHealthy false st in
  if (restartCount st1 <? MAX_RESTART_ATTEMPTS CONFIG)%Z then
    let st2 := set_restartCount (restartCount st1 + 1) st1 in
    let backoffDelay :=
      calculateBackoff (restartCount st2 - 1)
                       (inject_Z (RESTART_DELAY CONFIG)) 30000 random in
    let m := metrics st2 in
    (set_metrics {| lastHealthCheckDuration := lastHealthCheckDuration m;
                    avgHealthCheckDuration := avgHealthCheckDuration m;
                    totalHealthChecks := totalHealthChecks m;
                    lastRestartTime := now;
                    memoryUsage := memoryUsage m;
                    logProcessingTime := logProcessingTime m |} st2,
     [Log Error "Binary process exited"; Log Info "Attempting restart";
      SetTimeout (timer_delay backoffDelay)])
  else
    (st1,
     [Log Error "Binary process exited";
      Log Error "Maximum restart attempts reached. Manual intervention required."]).

(** The callback of the restart timer (lines 536-545). It assigns the new
    child, attaches log monitoring, and registers nothing else on it. *)
Definition on_restart_timer (binaryPath : string) (useWrapper : bool)
    (env : SpawnEnv) (now : Z) (fresh : nat) (st : ProcessState)
  : option ChildProcess * ProcessState * list effect :=
  match startBinaryProcess binaryPath useWrapper env fresh with
  | (Some child, eff) =>
      let st1 := set_process (Some child) st in
      let st2 := monitorProcessLogs st1 in
      let st3 := set_startTime now st2 in
      (Some child, set_healthCache None st3, eff)
  | (None, eff) => (None, st, eff ++ [Log Error "Failed to restart binary"])
  end.

(** ** The [stop] hook (hooks.ts, lines 590-643) *)

Inductive poll_outcome := ShutdownComplete | TimedOut.

(** The polling loop of lines 608-614, from its [i]-th test on, [elapsed]
    being [Date.now() - startTime] at that test. Every [delay(100)] lasts
    100 ms plus its overrun. [None] only when [fuel] runs out. *)
Fixpoint poll_shutdown (env : StopEnv) (child : ChildProcess)
    (fuel i : nat) (elapsed : Z) : option (poll_outcome * list effect) :=
  match fuel with
  | O => None
  | S fuel' =>
      if (elapsed <? SHUTDOWN_TIMEOUT CONFIG)%Z then
        match truthy_pid child with
        | None => Some (ShutdownComplete, [])
        | Some p =>
            if alive_at env i then
              match poll_shutdown env child fuel' (S i)
                      (elapsed + 100 + Z.of_nat (overrun env i)) with
              | Some (outcome, eff) => Some (outcome, Probe p :: Sleep 100 :: eff)
              | None => None
              end
            else Some (ShutdownComplete, [Probe p])
        end
      else Some (TimedOut, [])
  end.

(** Enough fuel for the loop: it tests the clock at most
    [SHUTDOWN_TIMEOUT / 100 + 2] times. *)
Definition poll_fuel : nat := Z.to_nat (SHUTDOWN_TIMEOUT CONFIG / 100) + 2.

(** Lines 617-620. *)
Definition force_kill (outcome : poll_outcome) (child : ChildProcess) : list effect :=
  match outcome, truthy_pid child with
  | TimedOut, Some _ =>
      [Log Warn "Graceful shutdown timeout, forcing kill"; Kill (cid child) SIGKILL]
  | _, _ => []
  end.

(** Lines 623-630; [wrapper] is [global.binaryWrapperPath]. *)
Definition cleanup_wrapper (wrapper : option string) (env : StopEnv) : list effect :=
  match wrapper with
  | Some path =>
      if String.eqb path (BINARY_PATH CONFIG) then []
      else if unlink_ok env
           then [Unlink path; Log Info "Cleaned up binary wrapper"]
           else [Unlink path; Log Warn "Failed to clean up wrapper"]
  | None => []
  end.

(** Lines 633-636. *)
Definition reset_stopped (st : ProcessState) : ProcessState :=
  set_healthCache None
    (set_logs (CircularBuffer.clear (logs st))
       (set_isHealthy false (set_process None st))).

(** The [stop] hook as one piece: a call during which no other handler
    runs, so that it finds the same child and the same wrapper path after
    every [await]. The pieces of a call that other handlers interrupt
    follow below; run one after the other they make up this function
    (lemma [stop_one_piece]). *)
Definition stop (wrapper : option string) (env : StopEnv) (st : ProcessState)
  : option (ProcessState * list effect) :=
  match process st with
  | None =>
      Some (st, [Log Info "Stopping binary service"; Log Warn "No process to stop"])
  | Some child =>
      match poll_shutdown env child poll_fuel 0 0 with
      | None => None
      | Some (outcome, polled) =>
          Some (reset_stopped st,
                [Log Info "Stopping binary service"; Kill (cid child) SIGTERM;
                 Log Info "Sent SIGTERM to binary process"]
                ++ polled ++ force_kill outcome child
                ++ cleanup_wrapper wrapper env
                ++ [Log Info "Binary service stopped successfully"])
      end
  end.

(** *** The [stop] hook between its awaits

    [stop] gives way to other handlers at every [await delay(100)] and at
    [await fs.unlink(...)], and reads [processState.process] and
    [global.binaryWrapperPath] anew after each of them. The functions below
    are the stretches of the hook that run without interruption. *)

(** Where a suspended call resumes: in the polling loop, whose [startTime]
    it holds, or after [fs.unlink]. *)
Inductive StopPhase := Polling (startTime : Z) | Unlinking.

(** How a stretch ends: at an [await], with the return of the hook, or with
    the exception that the [catch] block logs and throws again. *)
Inductive stop_result := Suspended (phase : StopPhase) | Returned | Thrown.

(** [processState.process.pid] on a handle that is [null]: a [TypeError],
    caught at line 639. *)
Definition stop_thrown (st : ProcessState)
  : stop_result * ProcessState * list effect :=
  (Thrown, st, [Log Error "Error during shutdown"]).

(** Lines 632-638. *)
Definition stop_returns (st : ProcessState) (done : list effect)
  : stop_result * ProcessState * list effect :=
  (Returned, reset_stopped st,
   done ++ [Log Info "Binary service stopped successfully"]).

(** Lines 616-638, from the end of the loop to [await fs.unlink] or to the
    return; [shutdownComplete] is the flag of the loop. *)
Definition stop_after_loop (shutdownComplete : bool) (wrapper : option string)
    (st : ProcessState) : stop_result * ProcessState * list effect :=
  let forced :=
    if shutdownComplete then Some []
    else
      match process st with
      | None => None
      | Some child =>
          Some (match truthy_pid child with
                | Some _ =>
                    [Log Warn "Graceful shutdown timeout, forcing kill";
                     Kill (cid child) SIGKILL]
                | None => []
                end)
      end in
  match forced with
  | None => stop_thrown st
  | Some forced =>
      match wrapper with
      | Some path =>
          if String.eqb path (BINARY_PATH CONFIG) then stop_returns st forced
          else (Suspended Unlinking, st, forced ++ [Unlink path])
      | None => stop_returns st forced
      end
  end.

(** The loop of lines 608-614 from its test to the next [await delay(100)],
    or to the end of the stretch: [now] is [Date.now()] at the test and
    [alive] the answer of the probe, if one is made. *)
Definition stop_poll (startTime now : Z) (alive : bool) (wrapper : option string)
    (st : ProcessState) : stop_result * ProcessState * list effect :=
  if (now - startTime <? SHUTDOWN_TIMEOUT CONFIG)%Z then
    match process st with
    | None => stop_thrown st
    | Some child =>
        match truthy_pid child with
        | None => stop_after_loop true wrapper st
        | Some p =>
            if alive then (Suspended (Polling startTime), st, [Probe p; Sleep 100])
            else
              let '(r, st1, eff) := stop_after_loop true wrapper st in
              (r, st1, Probe p :: eff)
        end
    end
  else stop_after_loop false wrapper st.

(** Lines 590-614, from the call to the first [await]; [startTime] is
    [Date.now()] at line 606. *)
Definition stop_call (startTime now : Z) (alive : bool) (wrapper : option string)
    (st : ProcessState) : stop_result * ProcessState * list effect :=
  match process st with
  | None =>
      (Returned, st,
       [Log Info "Stopping binary service"; Log Warn "No process to stop"])
  | Some child =>
      let '(r, st1, eff) := stop_poll startTime now alive wrapper st in
      (r, st1,
       [Log Info "Stopping binary service"; Kill (cid child) SIGTERM;
        Log Info "Sent SIGTERM to binary process"] ++ eff)
  end.

(** Lines 626-638, after [fs.unlink] has settled. *)
Definition stop_after_unlink (ok : bool) (st : ProcessState)
  : stop_result * ProcessState * list effect :=
  stop_returns st
    [if ok then Log Info "Cleaned up binary wrapper"
     else Log Warn "Failed to clean up wrapper"].

Definition stop_suspend (r : stop_result) : option StopPhase :=
  match r with Suspended phase => Some phase | _ => None end.

(** ** The supervisor as an event-driven system

    The hooks and handlers above run one at a time on Node's event loop.
    [System] adds to [processState] what the closures and the runtime hold:
    every [ChildProcess] created so far, with the listeners attached to it,
    the pending restart timers, the suspended calls of [stop], and
    [global.binaryWrapperPath]. *)

(** The variables captured by the exit handler and the timer callback. *)
Record Closure := { captured_binaryPath : string; captured_useWrapper : bool }.

Record ChildInfo := {
  handle : ChildProcess;
  exitObserver : option Closure;   (* the listener of ['exit'], if any *)
  monitored : bool;                (* the two line readers are attached *)
  exited : bool                    (* ['exit'] has been emitted *)
}.

Record System := {
  state : ProcessState;
  binaryWrapperPath : option string;
  children : list ChildInfo;          (* position [cid] holds child [cid] *)
  timers : list (option Closure);     (* [Some] while the timer is pending *)
  startups : nat;                     (* [start] calls waiting out the grace period *)
  stops : list (option StopPhase)     (* [Some] while the [stop] call is suspended *)
}.

Definition initial_system : System := {|
  state := initial_state CONFIG;
  binaryWrapperPath := None;
  children := [];
  timers := [];
  startups := 0;
  stops := []
|}.

Inductive event :=
| InstallSecrets (binaryOk nodeEnv writeOk : bool)  (* the host calls installSecrets *)
| Start (envAutoKey : bool) (now : Z) (sp : SpawnEnv) (* the host calls start *)
| GraceElapsed (env : HealthEnv)                    (* start resumes after delay(grace) *)
| Health (env : HealthEnv)                          (* the host calls health *)
| Stop (env : StopEnv)                              (* a whole stop call, uninterrupted *)
| StopCalled (startTime now : Z) (alive : bool)     (* the host calls stop *)
| StopPolls (call : nat) (now : Z) (alive : bool)   (* a delay(100) of the call is over *)
| StopUnlinked (call : nat) (ok : bool)             (* its fs.unlink has settled *)
| StdoutLine (child : nat) (line : string) (elapsed : Q)
| StderrLine (child : nat) (line : string)
| ChildExit (child : nat) (now : Z) (random : Q)    (* the child emits 'exit' *)
| TimerFires (timer : nat) (sp : SpawnEnv) (now : Z).

Definition with_state (st : ProcessState) (sys : System) : System :=
  {| state := st; binaryWrapperPath := binaryWrapperPath sys;
     children := children sys; timers := timers sys; startups := startups sys;
     stops := stops sys |}.

(** [installSecrets] (lines 450-482) with [createBinaryWrapper] (lines
    239-266): [binaryOk] tells whether [fs.access] found the binary
    executable, [nodeEnv] whether [env.NODE_ENV] is set, [writeOk] whether
    [fs.writeFile] succeeded. The hook records the path that
    [createBinaryWrapper] returns, which is the binary's own path when the
    wrapper could not be written. *)
Definition installSecrets (binaryOk nodeEnv writeOk : bool) (sys : System)
  : System * list effect :=
  let wrapperPath := "/app/binary-wrapper.sh" in
  if binaryOk then
    ({| state := state sys;
        binaryWrapperPath :=
          Some (if writeOk then wrapperPath else BINARY_PATH CONFIG);
        children := children sys; timers := timers sys;
        startups := startups sys; stops := stops sys |},
     [Log Info "Installing secrets for binary management";
      Access (BINARY_PATH CONFIG);
      Log Info "Binary found and is executable"]
     ++ (if nodeEnv then []
         else [Log Warn "Optional environment variable NODE_ENV not set"])
     ++ [WriteFile wrapperPath;
         if writeOk
         then Log Info "Binary wrapper created for automatic key injection"
         else Log Error "Failed to create binary wrapper:";
         Log Info "Secrets installation completed successfully"])
  else
    (sys, [Log Info "Installing secrets for binary management";
           Access (BINARY_PATH CONFIG);
           Log Error "Failed to install secrets"]).

(** Lines 489-502. *)
Definition reset_for_start (now : Z) (st : ProcessState) : ProcessState :=
  {| process := process st;
     startTime := now;
     lastUptime := Number.zero;
     isHealthy := false;
     restartCount := 0;
     logs := CircularBuffer.clear (logs st);
     metrics := zero_metrics;
     healthCache := None |}.

(** [start] up to its [await delay(CONFIG.STARTUP_GRACE_PERIOD)] (lines
    484-552), which is its last effect. *)
Definition start (envAutoKey : bool) (now : Z) (sp : SpawnEnv) (sys : System)
  : System * list effect :=
  let st0 := reset_for_start now (state sys) in
  let useWrapper := AUTO_KEY_INJECTION CONFIG || envAutoKey in
  let binaryPath :=
    match binaryWrapperPath sys with
    | Some w => if useWrapper then w else BINARY_PATH CONFIG
    | None => BINARY_PATH CONFIG
    end in
  let fresh := length (children sys) in
  match startBinaryProcess binaryPath useWrapper sp fresh with
  | (None, eff) =>
      (with_state st0 sys,
       Log Info "Starting binary service" :: eff
       ++ [Log Error "Failed to start binary"])
  | (Some child, eff) =>
      let st1 := set_process (Some child) st0 in
      match truthy_pid child with
      | None =>
          ({| state := st1; binaryWrapperPath := binaryWrapperPath sys;
              children := children sys ++
                [{| handle := child; exitObserver := None;
                    monitored := false; exited := false |}];
              timers := timers sys; startups := startups sys;
              stops := stops sys |},
           Log Info "Starting binary service" :: eff
           ++ [Log Error "Failed to start binary"])
      | Some _ =>
          ({| state := monitorProcessLogs st1;
              binaryWrapperPath := binaryWrapperPath sys;
              children := children sys ++
                [{| handle := child;
                    exitObserver :=
                      Some {| captured_binaryPath := binaryPath;
                              captured_useWrapper := useWrapper |};
                    monitored := true; exited := false |}];
              timers := timers sys; startups := S (startups sys);
              stops := stops sys |},
           Log Info "Starting binary service" :: eff
           ++ [Log Info "Binary started with PID";
               Sleep (STARTUP_GRACE_PERIOD CONFIG)])
      end
  end.

Definition mark_exited (c : ChildInfo) : ChildInfo :=
  {| handle := handle c; exitObserver := exitObserver c;
     monitored := monitored c; exited := true |}.

(** The child [child] emits ['exit']: its listener, if it has one, runs
    [on_exit] and schedules the timer that [on_exit] asked for. A child
    emits ['exit'] once. *)
Definition child_exit (child : nat) (now : Z) (random : Q) (sys : System)
  : System * list effect :=
  match children sys !! child with
  | Some info =>
      if exited info then (sys, [])
      else
        let kids := <[ child := mark_exited info ]> (children sys) in
        match exitObserver info with
        | Some closure =>
            let '(st, eff) := on_exit now random (state sys) in
            ({| state := st; binaryWrapperPath := binaryWrapperPath sys;
                children := kids;
                timers :=
                  if existsb is_restart_attempt eff
                  then timers sys ++ [Some closure] else timers sys;
                startups := startups sys; stops := stops sys |}, eff)
        | None =>
            ({| state := state sys; binaryWrapperPath := binaryWrapperPath sys;
                children := kids; timers := timers sys;
                startups := startups sys; stops := stops sys |}, [])
        end
  | None => (sys, [])
  end.

(** A pending restart timer fires. *)
Definition timer_fires (timer : nat) (sp : SpawnEnv) (now : Z) (sys : System)
  : System * list effect :=
  match timers sys !! timer with
  | Some (Some closure) =>
      let fresh := length (children sys) in
      let '(child, st, eff) :=
        on_restart_timer (captured_binaryPath closure)
                         (captured_useWrapper closure) sp now fresh (state sys) in
      ({| state := st; binaryWrapperPath := binaryWrapperPath sys;
          children :=
            match child with
            | Some c => children sys ++
                [{| handle := c; exitObserver := None;
                    monitored := true; exited := false |}]
            | None => children sys
            end;
          timers := <[ timer := None ]> (timers sys);
          startups := startups sys; stops := stops sys |}, eff)
  | _ => (sys, [])
  end.

(** A line arrives from a child whose readers are attached. *)
Definition is_monitored (child : nat) (sys : System) : bool :=
  match children sys !! child with
  | Some info => monitored info
  | None => false
  end.

(** The host calls [stop]: the call runs to its first [await] and, if it
    is suspended there, waits as call number [length (stops sys)]. *)
Definition stop_called (startTime now : Z) (alive : bool) (sys : System)
  : System * list effect :=
  let '(r, st, eff) :=
    stop_call startTime now alive (binaryWrapperPath sys) (state sys) in
  ({| state := st; binaryWrapperPath := binaryWrapperPath sys;
      children := children sys; timers := timers sys;
      startups := startups sys; stops := stops sys ++ [stop_suspend r] |}, eff).

(** A [delay(100)] of a call that waits in the loop is over. *)
Definition stop_polls (call : nat) (now : Z) (alive : bool) (sys : System)
  : System * list effect :=
  match stops sys !! call with
  | Some (Some (Polling startTime)) =>
      let '(r, st, eff) :=
        stop_poll startTime now alive (binaryWrapperPath sys) (state sys) in
      ({| state := st; binaryWrapperPath := binaryWrapperPath sys;
          children := children sys; timers := timers sys;
          startups := startups sys;
          stops := <[ call := stop_suspend r ]> (stops sys) |}, eff)
  | _ => (sys, [])
  end.

(** The [fs.unlink] of a call that waits for it has settled. *)
Definition stop_unlinked (call : nat) (ok : bool) (sys : System)
  : System * list effect :=
  match stops sys !! call with
  | Some (Some Unlinking) =>
      let '(r, st, eff) := stop_after_unlink ok (state sys) in
      ({| state := st; binaryWrapperPath := binaryWrapperPath sys;
          children := children sys; timers := timers sys;
          startups := startups sys;
          stops := <[ call := stop_suspend r ]> (stops sys) |}, eff)
  | _ => (sys, [])
  end.

Definition step (sys : System) (ev : event) : System * list effect :=
  match ev with
  | InstallSecrets binaryOk nodeEnv writeOk =>
      installSecrets binaryOk nodeEnv writeOk sys
  | Start envAutoKey now sp => start envAutoKey now sp sys
  | GraceElapsed env =>
      match startups sys with
      | O => (sys, [])
      | S n =>
          let '(st, eff) := initial_health_check env (state sys) in
          ({| state := st; binaryWrapperPath := binaryWrapperPath sys;
              children := children sys; timers := timers sys;
              startups := n; stops := stops sys |}, eff)
      end
  | Health env =>
      let '(_, st, eff) := health env (state sys) in (with_state st sys, eff)
  | Stop env =>
      match stop (binaryWrapperPath sys) env (state sys) with
      | Some (st, eff) => (with_state st sys, eff)
      | None => (sys, [])
      end
  | StopCalled startTime now alive => stop_called startTime now alive sys
  | StopPolls call now alive => stop_polls call now alive sys
  | StopUnlinked call ok => stop_unlinked call ok sys
  | StdoutLine child line elapsed =>
      if is_monitored child sys then
        let '(st, eff) := on_stdout_line line elapsed (state sys) in
        (with_state st sys, eff)
      else (sys, [])
  | StderrLine child line =>
      if is_monitored child sys then
        let '(st, eff) := on_stderr_line child line (state sys) in
        (with_state st sys, eff)
      else (sys, [])
  | ChildExit child now random => child_exit child now random sys
  | TimerFires timer sp now => timer_fires timer sp now sys
  end.

(** A run: the events in order, the effects of all of them in order. *)
Fixpoint run_events (sys : System) (evs : list event) : System * list effect :=
  match evs with
  | [] => (sys, [])
  | ev :: rest =>
      let '(sys1, eff1) := step sys ev in
      let '(sys2, eff2) := run_events sys1 rest in
      (sys2, eff1 ++ eff2)
  end.

End Hooks.

Definition is_start (ev : event) : bool :=
  match ev with Start _ _ _ => true | _ => false end.

(** ** Vocabulary of the proofs *)

(** Representation invariant of the circular buffer: [b] holds the last
    [cap] of the pushed lines [xs], line number [i] sitting in slot
    [i mod cap]. *)
Definition represents {T : Type} (cap : nat) (xs : list T)
    (b : CircularBuffer.t T) : Prop :=
  CircularBuffer.capacity b = cap /\
  length (CircularBuffer.buffer b) = cap /\
  CircularBuffer.head b = length xs mod cap /\
  CircularBuffer.size b = min (length xs) cap /\
  forall i x, length xs - cap <= i -> xs !! i = Some x ->
              CircularBuffer.buffer b !! (i mod cap) = Some (Some x).

(** The log buffer of the state is a buffer of [MAX_LOG_LINES] slots that
    holds the lines pushed since it was last cleared. *)
Definition logs_represented (CONFIG : Config) (st : ProcessState) : Prop :=
  exists xs : list string, represents (MAX_LOG_LINES CONFIG) xs (logs st).

(** The state right after a successful [start] of the default
    configuration: a child with pid 4242, no snapshot. *)
Definition started_state : ProcessState :=
  state (run_events default_config (initial_system default_config)
           [Start false 1000 {| keyExit := Some 0%Z; newPid := Some 4242%Z |}]).1.

Definition is_sleep (e : effect) : bool :=
  match e with Sleep _ => true | _ => false end.

Definition has_observer (c : ChildInfo) : bool :=
  match exitObserver c with Some _ => true | None => false end.

(** A child whose ['exit'] would still run the exit handler. *)
Definition is_live_observer (c : ChildInfo) : bool :=
  has_observer c && negb (exited c).

Definition is_pending (t : option Closure) : bool :=
  match t with Some _ => true | None => false end.

Definition live_observers (sys : System) : nat :=
  count is_live_observer (children sys).

Definition pending_timers (sys : System) : nat :=
  count is_pending (timers sys).

Definition b2n (b : bool) : nat := if b then 1 else 0.

(** What one event, or a run of events containing [starts] calls of
    [start], can change in the books of the supervisor. *)
Definition accounted (CONFIG : Config) (starts : nat) (sys : System)
    (r : System * list effect) : Prop :=
  let rc := restartCount (state sys) in
  let rc' := restartCount (state r.1) in
  (0 <= rc')%Z /\
  (rc <= Z.max 0 (MAX_RESTART_ATTEMPTS CONFIG) ->
   rc' <= Z.max 0 (MAX_RESTART_ATTEMPTS CONFIG))%Z /\
  count is_restart_attempt r.2 + live_observers r.1
    <= live_observers sys + starts /\
  (rc' + Z.of_nat (live_observers r.1)
    <= rc + Z.of_nat (live_observers sys) + Z.of_nat starts)%Z /\
  count is_spawn r.2 + pending_timers r.1 + live_observers r.1
    <= pending_timers sys + live_observers sys + 2 * starts /\
  count has_observer (children r.1)
    <= count has_observer (children sys) + starts.

(** The uptime bookkeeping of a state is in order: the last observed
    uptime is a number that is not negative, and a cached snapshot reports
    a running child whose uptime is a number between 0 and the last
    observed uptime. *)
Definition uptime_in_order (st : ProcessState) : Prop :=
  exists a : Q,
    lastUptime st = Num a /\ (0 <= a)%Q /\
    forall e, healthCache st = Some e ->
      isRunning (entry_metrics e) = true /\
      exists q : Q, uptime (entry_metrics e) = Num q /\ (0 <= q)%Q /\ (q <= a)%Q.

(** The performance metrics after the health checks whose measured
    durations and heap sizes are [checks], oldest first. *)
Definition record_all (checks : list (Q * Z)) : PerformanceMetrics :=
  foldl (fun m c => record_health_check c.1 c.2 m) zero_metrics checks.

Definition total_duration (checks : list (Q * Z)) : Q :=
  foldr (fun c acc => c.1 + acc)%Q 0%Q checks.

(** Which effects the handling of an event may have: every handler may
    log; only [installSecrets] tests and writes files; only [start] and the
    restart timer spawn; [start] sleeps, once, for the grace period; only
    the health evaluations probe and scan, [stop] apart; only [stop] sends
    SIGKILL, sleeps 100 ms at a time and unlinks, and it sends SIGTERM only
    when it is called; a stderr line sends at most SIGTERM, to the child it
    came from; only a child's exit sets a timer. *)
Definition allowed (CONFIG : Config) (ev : event) (e : effect) : bool :=
  match ev, e with
  | _, Log _ _ => true
  | InstallSecrets _ _ _, (Access _ | WriteFile _) => true
  | Start _ _ _, (SpawnKey _ | Spawn _ _) => true
  | Start _ _ _, Sleep ms => (ms =? STARTUP_GRACE_PERIOD CONFIG)%Z
  | TimerFires _ _ _, (SpawnKey _ | Spawn _ _) => true
  | (GraceElapsed _ | Health _), (Probe _ | ScanUptime | ScanErrors) => true
  | (Stop _ | StopCalled _ _ _), (Kill _ _ | Probe _ | Unlink _) => true
  | StopPolls _ _ _, (Kill _ SIGKILL | Probe _ | Unlink _) => true
  | (Stop _ | StopCalled _ _ _ | StopPolls _ _ _), Sleep ms => (ms =? 100)%Z
  | StderrLine c _, Kill c' SIGTERM => c =? c'
  | ChildExit _ _ _, SetTimeout _ => true
  | _, _ => false
  end.

(** [global.binaryWrapperPath] is unset, the path of the wrapper script,
    or the path of the binary itself. *)
Definition wrapper_path_known (CONFIG : Config) (sys : System) : Prop :=
  forall path, binaryWrapperPath sys = Some path ->
    path = "/app/binary-wrapper.sh" \/ path = BINARY_PATH CONFIG.

Definition is_unlink (e : effect) : bool :=
  match e with Unlink _ => true | _ => false end.

(** The child handle that a successful [start] creates: the next child
    identifier, with the pid the spawn returned. *)
Definition started_child (sys : System) (p : Z) : ChildProcess :=
  {| cid := length (children sys); pid := Some p |}.

(** The value of a text of decimal digits. *)
Definition decimal_value (ds : list ascii) : Z :=
  fold_left (fun acc c => (10 * acc + default 0 (Number.digit c))%Z) ds 0%Z.

(** *** A call of [stop] among the other handlers *)

(** The handlers that assign neither [processState.process] nor
    [global.binaryWrapperPath] and resume no call of [stop]: the health
    evaluations, the line readers and the exit handler. *)
Definition quiet (ev : event) : bool :=
  match ev with
  | GraceElapsed _ | Health _ | StdoutLine _ _ _ | StderrLine _ _
  | ChildExit _ _ _ => true
  | _ => false
  end.

(** One test of the polling loop as the call meets it: the events handled
    before it (while the call waits in [delay(100)]; before the call, for
    the first test), [Date.now()] at the test, and what the probe answers
    if it is made. *)
Record PollRound := { during : list event; clock : Z; answer : bool }.

(** The loop goes on after a test: the timeout has not passed and the
    probe finds the child. *)
Definition continues (CONFIG : Config) (startTime : Z) (r : PollRound) : bool :=
  (clock r - startTime <? SHUTDOWN_TIMEOUT CONFIG)%Z && answer r.

(** The waits of call number [call], one after the other: the final
    system and the effects of the call's own stretches. *)
Fixpoint polls_run (CONFIG : Config) (call : nat) (sys : System)
    (rounds : list PollRound) : System * list effect :=
  match rounds with
  | [] => (sys, [])
  | r :: rest =>
      let woken :=
        step CONFIG (run_events CONFIG sys (during r)).1
             (StopPolls call (clock r) (answer r)) in
      let later := polls_run CONFIG call woken.1 rest in
      (later.1, woken.2 ++ later.2)
  end.

(** A call of [stop] at [startTime] whose tests are [rounds]: the first
    test is made by the call itself, the others after a [delay(100)]. *)
Definition stop_call_run (CONFIG : Config) (startTime : Z) (sys : System)
    (rounds : list PollRound) : System * list effect :=
  match rounds with
  | [] => (sys, [])
  | r :: rest =>
      let before := (run_events CONFIG sys (during r)).1 in
      let called :=
        step CONFIG before (StopCalled startTime (clock r) (answer r)) in
      let later := polls_run CONFIG (length (stops before)) called.1 rest in
      (later.1, called.2 ++ later.2)
  end.

(** Call number [call] waits in the loop, and the current child and
    wrapper path are [child] and [wrapper]. *)
Definition stop_pending (sys : System) (call : nat) (startTime : Z)
    (child : ChildProcess) (wrapper : option string) : Prop :=
  stops sys !! call = Some (Some (Polling startTime)) /\
  process (state sys) = Some child /\ binaryWrapperPath sys = wrapper.

(** The state that [stop] leaves: no child, not healthy, no line, no
    snapshot. *)
Definition stopped (st : ProcessState) : Prop :=
  process st = None /\ isHealthy st = false /\
  CircularBuffer.getAll (logs st) = [] /\ healthCache st = None.

(** Every [delay(100)] lasts at least 100 ms: the clock of a test is at
    least [least], and the clock of each later test at least 100 more
    than that of the test before. *)
Fixpoint paced (least : Z) (rounds : list PollRound) : Prop :=
  match rounds with
  | [] => True
  | r :: rest => (least <= clock r)%Z /\ paced (clock r + 100) rest
  end.

(** What a stretch of [stop] may do when [global.binaryWrapperPath] is
    [wrapper]: log, send a signal, probe, sleep 100 ms, and unlink the
    wrapper if it is not the binary. *)
Definition stretch_effect (CONFIG : Config) (wrapper : option string)
    (e : effect) : Prop :=
  match e with
  | Log _ _ | Kill _ _ | Probe _ => True
  | Sleep ms => ms = 100%Z
  | Unlink path => wrapper = Some path /\ path <> BINARY_PATH CONFIG
  | _ => False
  end.

(** *** Declarative reading of the regular expressions *)

(** [Matches r u c c'] : the expression [r] can consume exactly the text
    [u], turning the capture [c] into [c']. *)
Inductive Matches : regex -> list ascii -> captures -> captures -> Prop :=
| M_Eps c : Matches Eps [] c c
| M_Chr x ch c : same_char_i x ch = true -> Matches (Chr ch) [x] c c
| M_Class (p : ascii -> bool) x c : p x = true -> Matches (Class p) [x] c c
| M_Seq r1 r2 u v c c1 c2 :
    Matches r1 u c c1 -> Matches r2 v c1 c2 -> Matches (Seq r1 r2) (u ++ v) c c2
| M_AltL r1 r2 u c c' : Matches r1 u c c' -> Matches (Alt r1 r2) u c c'
| M_AltR r1 r2 u c c' : Matches r2 u c c' -> Matches (Alt r1 r2) u c c'
| M_Star0 r c : Matches (Star r) [] c c
| M_StarS r u v c c1 c2 :
    Matches r u c c1 -> Matches (Star r) v c1 c2 -> Matches (Star r) (u ++ v) c c2
| M_Group r u c c' : Matches r u c c' -> Matches (Group r) u c (Some u).

(** An expression without a capturing group. *)
Fixpoint groupless (r : regex) : bool :=
  match r with
  | Eps | Chr _ | Class _ => true
  | Seq r1 r2 | Alt r1 r2 => groupless r1 && groupless r2
  | Star r1 => groupless r1
  | Group _ => false
  end.

Definition all_digits (ds : list ascii) : Prop :=
  Forall (fun c => is_digit c = true) ds.

(** The texts of the shape [\d+(?:\.\d+)?]. *)
Definition number_text (w : list ascii) : Prop :=
  exists ds fr, w = ds ++ fr /\ ds <> [] /\ all_digits ds /\
    (fr = [] \/ exists ds2, fr = "."%char :: ds2 /\ ds2 <> [] /\ all_digits ds2).

(** The expressions that end, after parts without a group, with the number
    group and the unit. *)
Inductive ends_with_number : regex -> Prop :=
| EN_base : ends_with_number (Seq number_group seconds_unit)
| EN_step r1 r2 :
    groupless r1 = true -> ends_with_number r2 -> ends_with_number (Seq r1 r2).

(** ** Facts on the circular buffer *)

Section BufferFacts.
Context {T : Type}.
Implicit Types (b : CircularBuffer.t T) (xs : list T).

Import CircularBuffer.

Lemma mod_slots_differ (cap i j : nat) :
  i < j -> j < i + cap -> i mod cap <> j mod cap.
Proof.
  intros Hij Hj Heq.
  assert (Hc : cap <> 0) by lia.
  pose proof (Nat.div_mod i cap Hc) as Hi.
  pose proof (Nat.div_mod j cap Hc) as Hj'.
  rewrite Heq in Hi.
  assert (Hd : j - i = cap * (j / cap - i / cap)) by nia.
  destruct (j / cap - i / cap) as [|k] eqn:E; nia.
Qed.

Lemma represents_new (cap : nat) : represents (T := T) cap [] (new cap).
Proof.
  unfold represents, new; simpl.
  rewrite length_replicate.
  repeat split; try done.
  - destruct cap; [done | by rewrite Nat.Div0.mod_0_l].
Qed.

Lemma represents_push (cap : nat) xs b x :
  0 < cap -> represents cap xs b -> represents cap (xs ++ [x]) (push x b).
Proof.
  intros Hcap (Hc & Hlen & Hhead & Hsize & Hslots).
  assert (Hlt : length xs mod cap < cap) by (apply Nat.mod_upper_bound; lia).
  unfold represents, push; simpl.
  rewrite Hc, Hhead, Hsize, length_app; simpl.
  unfold JS.array_set.
  rewrite decide_True by lia.
  rewrite length_insert.
  repeat split; try done.
  - rewrite Nat.Div0.add_mod_idemp_l. done.
  - lia.
  - intros i y Hi Hy.
    destruct (decide (i = length xs)) as [->|Hne].
    + rewrite list_lookup_middle in Hy by done.
      injection Hy as <-.
      apply list_lookup_insert_eq. lia.
    + assert (Hi' : i < length xs).
      { apply lookup_lt_Some in Hy. rewrite length_app in Hy; simpl in Hy. lia. }
      rewrite lookup_app_l in Hy by done.
      rewrite list_lookup_insert_ne.
      * apply Hslots; [lia | done].
      * intros Heq. symmetry in Heq. revert Heq.
        apply mod_slots_differ; lia.
Qed.

Lemma represents_push_all (cap : nat) xs :
  0 < cap -> represents cap xs (push_all xs (new cap)).
Proof.
  intros Hcap.
  induction xs as [|x xs IH] using rev_ind.
  - apply represents_new.
  - unfold push_all. rewrite foldl_app; simpl.
    by apply represents_push.
Qed.

Lemma flat_map_seq_lookup (f : nat -> list T) (ys : list T) (n : nat) :
  n = length ys ->
  (forall i x, ys !! i = Some x -> f i = [x]) ->
  flat_map f (seq 0 n) = ys.
Proof.
  intros ->.
  induction ys as [|y ys IH] using rev_ind; intros Hf; [done|].
  rewrite length_app; simpl.
  rewrite Nat.add_1_r, seq_S, flat_map_app; simpl.
  rewrite IH.
  - rewrite (Hf (length ys) y); [by rewrite app_nil_r|].
    by apply list_lookup_middle.
  - intros i x Hi. apply Hf.
    rewrite lookup_app_l; [done|]. by eapply lookup_lt_Some.
Qed.

Lemma getAll_represents (cap : nat) xs b :
  0 < cap -> represents cap xs b -> getAll b = drop (length xs - cap) xs.
Proof.
  intros Hcap (Hc & Hlen & Hhead & Hsize & Hslots).
  unfold getAll; cbv zeta.
  apply flat_map_seq_lookup; [rewrite length_drop; lia|].
  intros i x Hi.
  rewrite lookup_drop in Hi.
  unfold JS.array_get.
  assert (Hidx : ((if decide (size b = capacity b) then head b else 0) + i)
                   mod capacity b = (length xs - cap + i) mod cap).
  { rewrite Hc, Hhead, Hsize.
    destruct (decide (length xs `min` cap = cap)) as [Hfull|Hpart].
    - rewrite Nat.Div0.add_mod_idemp_l.
      replace (length xs + i) with ((length xs - cap + i) + 1 * cap) by lia.
      apply Nat.Div0.mod_add.
    - f_equal. lia. }
  rewrite Hidx, (Hslots _ x); [done | lia | done].
Qed.

Lemma size_push_all_le (cap : nat) xs :
  size (push_all xs (new cap)) <= cap /\
  capacity (push_all xs (new cap)) = cap.
Proof.
  induction xs as [|x xs IH] using rev_ind.
  - simpl. split; [lia | done].
  - unfold push_all in *. rewrite foldl_app; simpl.
    destruct IH as [IH1 IH2]. rewrite IH2. split; [lia | done].
Qed.

Lemma getAll_push_all (cap : nat) xs :
  getAll (push_all xs (new cap)) = drop (length xs - cap) xs.
Proof.
  destruct cap as [|cap].
  - rewrite Nat.sub_0_r, drop_all.
    pose proof (size_push_all_le 0 xs) as [Hs _].
    unfold getAll.
    replace (size (push_all xs (new 0))) with 0 by lia.
    done.
  - apply getAll_represents; [lia|].
    apply represents_push_all. lia.
Qed.

(** For [1 <= k <= capacity], [getRecent k] is the last [k] pushed lines in
    push order, and all of them when fewer than [k] were pushed. *)
Lemma getRecent_push_all (cap k : nat) xs :
  1 <= k -> k <= cap ->
  getRecent k (push_all xs (new cap)) = drop (length xs - k) xs.
Proof.
  intros Hk Hcap.
  unfold getRecent. rewrite getAll_push_all.
  destruct k as [|k]; [lia|].
  unfold JS.slice_neg.
  rewrite drop_drop, length_drop.
  f_equal. lia.
Qed.

Lemma getRecent_fewer (cap k : nat) xs :
  1 <= k -> k <= cap -> length xs <= k ->
  getRecent k (push_all xs (new cap)) = xs.
Proof.
  intros Hk Hcap Hlen.
  rewrite getRecent_push_all by done.
  replace (length xs - k) with 0 by lia.
  done.
Qed.

Lemma getRecent_zero_push_all (cap : nat) xs :
  getRecent 0 (push_all xs (new cap)) = drop (length xs - cap) xs.
Proof. unfold getRecent. simpl. apply getAll_push_all. Qed.

Lemma represents_clear (cap : nat) b :
  capacity b = cap -> represents cap [] (clear b).
Proof.
  intros <-. unfold represents, clear; simpl.
  rewrite length_replicate. split_and!; try done.
  destruct (capacity b); [done | by rewrite Nat.Div0.mod_0_l].
Qed.

(** The line pushed last is the newest line that [getRecent] returns. *)
Lemma getRecent_push_last (cap n : nat) xs b x :
  0 < cap -> represents cap xs b -> last (getRecent n (push x b)) = Some x.
Proof.
  intros Hcap Hrep.
  pose proof (represents_push cap xs b x Hcap Hrep) as Hrep'.
  unfold getRecent. rewrite (getAll_represents cap (xs ++ [x])) by done.
  rewrite length_app; simpl.
  rewrite drop_app_le by lia.
  destruct n as [|n]; simpl; [by rewrite last_snoc|].
  rewrite drop_app_le by (rewrite length_app; simpl; lia).
  by rewrite last_snoc.
Qed.

End BufferFacts.

(** C7. The claim: for every sequence of pushes into a buffer of capacity N
    the stored size never exceeds N, and [recent(k)] for any [k <= N] is the
    last [k] pushed lines in push order (all of them when fewer were
    pushed). The code does so for [1 <= k <= N] ([getRecent_push_all],
    [getRecent_fewer], [size_push_all_le]) and misses [k = 0]:
    [all.slice(-0)] is the whole array, so that [getRecent(0)] on a buffer of
    capacity 2 that received a, b, c returns [b; c] where the last zero
    lines are none. *)
Theorem getRecent_zero_returns_all :
  let b := CircularBuffer.push_all ["a"; "b"; "c"] (CircularBuffer.new 2) in
  CircularBuffer.size b = 2 /\
  CircularBuffer.getRecent 0 b = ["b"; "c"] /\
  CircularBuffer.getRecent 0 b <> drop (3 - 0) ["a"; "b"; "c"] /\
  CircularBuffer.getRecent 1 b = ["c"] /\
  CircularBuffer.getRecent 2 b = ["b"; "c"].
Proof. cbv zeta. repeat split; try reflexivity. discriminate. Qed.

(** ** Facts on the uptime extractor *)

Lemma scan_newest_first_last (ls : list string) :
  scan_newest_first (rev ls)
  = default Number.zero (last (omap (match_uptime UPTIME_PATTERNS) ls)).
Proof.
  induction ls as [|l ls IH] using rev_ind; [done|].
  rewrite rev_app_distr, omap_app.
  change (rev [l] ++ rev ls) with (l :: rev ls).
  cbn [scan_newest_first omap list_omap].
  destruct (match_uptime UPTIME_PATTERNS l) as [v|].
  - by rewrite last_snoc.
  - by rewrite app_nil_r.
Qed.

(** No line of the scanned window matches: the result is 0. *)
Lemma extractUptime_no_match (logs : CircularBuffer.t string) :
  (forall line, line ∈ CircularBuffer.getRecent 50 logs ->
                match_uptime UPTIME_PATTERNS line = None) ->
  extractUptimeFromLogs logs = Num 0.
Proof.
  intros Hnone. unfold extractUptimeFromLogs. rewrite scan_newest_first_last.
  induction (CircularBuffer.getRecent 50 logs) as [|l ls IH]; [done|].
  cbn [omap list_omap]. rewrite (Hnone l) by (left).
  apply IH. intros line Hin. apply Hnone. by right.
Qed.

(** The most recent matching line of the window decides, whatever the
    older lines say. *)
Lemma extractUptime_newest_wins (logs : CircularBuffer.t string)
    (older newer : list string) (line : string) (v : number) :
  CircularBuffer.getRecent 50 logs = older ++ line :: newer ->
  match_uptime UPTIME_PATTERNS line = Some v ->
  (forall l, l ∈ newer -> match_uptime UPTIME_PATTERNS l = None) ->
  extractUptimeFromLogs logs = v.
Proof.
  intros Hwin Hline Hnewer. unfold extractUptimeFromLogs.
  rewrite scan_newest_first_last, Hwin, omap_app.
  cbn [omap list_omap]. rewrite Hline.
  assert (Hnil : omap (match_uptime UPTIME_PATTERNS) newer = []).
  { clear Hwin. induction newer as [|l ls IH]; [done|].
    cbn [omap list_omap]. rewrite (Hnewer l) by (left).
    apply IH. intros l' Hin. apply Hnewer. by right. }
  rewrite Hnil. by rewrite last_snoc.
Qed.

(** C6. Uptime extraction scans the recent lines from the newest to the
    oldest and returns the number of the most recent line that matches a
    recognised phrasing: the result is the last element, in push order, of
    the values of the matching lines, and 0 when there is none. On
    ["starting", "uptime: 5 seconds", "uptime: 12 seconds"] it returns 12,
    on lines without a match it returns 0. *)
Theorem extractUptime_most_recent_match :
  (forall logs : CircularBuffer.t string,
      extractUptimeFromLogs logs
      = default (Num 0)
          (last (omap (match_uptime UPTIME_PATTERNS)
                      (CircularBuffer.getRecent 50 logs)))) /\
  extractUptimeFromLogs
    (CircularBuffer.push_all
       ["starting"; "uptime: 5 seconds"; "uptime: 12 seconds"]
       (CircularBuffer.new 1000)) = Num 12 /\
  extractUptimeFromLogs
    (CircularBuffer.push_all ["starting"; "listening on port 8080"]
       (CircularBuffer.new 1000)) = Num 0 /\
  match_uptime UPTIME_PATTERNS "Running for: 7.5 s" = Some (Num 7.5) /\
  match_uptime UPTIME_PATTERNS "node ALIVE 3second" = Some (Num 3).
Proof.
  split; [|repeat split; vm_compute; reflexivity].
  intros logs. unfold extractUptimeFromLogs. apply scan_newest_first_last.
Qed.

(** ** Facts on the arithmetic of doubles *)

Section DoubleFacts.
Local Open Scope Q_scope.
Import Double.

Lemma pow2_pos (e : Z) : 0 < 2 ^ e.
Proof. by apply Qpower_0_lt. Qed.

Lemma pow2_add (a b : Z) : 2 ^ (a + b) == 2 ^ a * 2 ^ b.
Proof. by apply Qpower_plus. Qed.

Lemma pow2_le (a b : Z) : (a <= b)%Z -> 2 ^ a <= 2 ^ b.
Proof. intros H. by apply Qpower_le_compat_l. Qed.

Lemma pow2_lt (a b : Z) : (a < b)%Z -> 2 ^ a < 2 ^ b.
Proof. intros H. by apply Qpower_lt_compat_l. Qed.

Lemma pow2_inject (e : Z) : (0 <= e)%Z -> 2 ^ e == inject_Z (2 ^ e).
Proof. intros H. by rewrite (Zpower_Qpower 2 e H). Qed.

Lemma binade_spec (q : Q) :
  0 < q -> 2 ^ binade q <= q /\ q < 2 ^ (binade q + 1).
Proof.
  intros Hq. destruct q as [a b].
  assert (Ha : (0 < a)%Z) by (unfold Qlt in Hq; cbn in Hq; lia).
  unfold binade. cbn [Qnum Qden].
  destruct (Z.log2_spec a Ha) as [Ha1 Ha2].
  destruct (Z.log2_spec (Z.pos b) ltac:(done)) as [Hb1 Hb2].
  pose proof (Z.log2_nonneg a) as Hla. pose proof (Z.log2_nonneg (Z.pos b)) as Hlb.
  set (la := Z.log2 a) in *. set (lb := Z.log2 (Z.pos b)) in *.
  assert (Hb0 : 0 < inject_Z (Z.pos b)) by done.
  assert (U : a # b < 2 ^ (la - lb + 1)).
  { rewrite (Qmake_Qdiv a b). apply Qlt_shift_div_r; [done|].
    apply Qlt_le_trans with (inject_Z (2 ^ (la + 1))).
    - rewrite <- Zlt_Qlt. lia.
    - rewrite <- pow2_inject by lia.
      replace (la + 1)%Z with ((la - lb + 1) + lb)%Z by lia.
      rewrite pow2_add. apply Qmult_le_l; [apply pow2_pos|].
      rewrite pow2_inject by lia. by rewrite <- Zle_Qle. }
  assert (L : 2 ^ (la - lb - 1) <= a # b).
  { rewrite (Qmake_Qdiv a b). apply Qle_shift_div_l; [done|].
    apply Qle_trans with (inject_Z (2 ^ la)); [|by rewrite <- Zle_Qle].
    rewrite <- pow2_inject by lia.
    replace la with ((la - lb - 1) + (lb + 1))%Z at 2 by lia.
    rewrite pow2_add. apply Qmult_le_l; [apply pow2_pos|].
    rewrite pow2_inject by lia. rewrite <- Zle_Qle. lia. }
  destruct (Qle_bool (2 ^ (la - lb)) (a # b)) eqn:Hle.
  - apply Qle_bool_iff in Hle. done.
  - split; [done|]. replace (la - lb - 1 + 1)%Z with (la - lb)%Z by lia.
    apply Qnot_le_lt. intros H. apply Qle_bool_iff in H. congruence.
Qed.

Lemma round_half_even_ge (z : Q) (m : Z) :
  inject_Z m <= z -> (m <= round_half_even z)%Z.
Proof.
  intros H. apply Qfloor_resp_le in H. rewrite Qfloor_Z in H.
  unfold round_half_even.
  destruct (_ ?= _); [destruct (Z.even _)|..]; lia.
Qed.

Lemma round_half_even_le (z : Q) (m : Z) :
  z <= inject_Z m -> (round_half_even z <= m)%Z.
Proof.
  intros H. pose proof (Qfloor_le z) as Hf.
  assert (Hfm : (Qfloor z <= m)%Z) by (rewrite Zle_Qle; by apply Qle_trans with z).
  unfold round_half_even.
  destruct (Z.eq_dec (Qfloor z) m) as [Heq|Hne].
  - assert (Hlt : (z - inject_Z (Qfloor z) ?= 1 # 2) = Lt).
    { apply Qlt_alt. rewrite Heq.
      apply Qle_lt_trans with 0; [|done].
      apply (Qplus_le_l _ _ (inject_Z m)). ring_simplify. exact H. }
    rewrite Hlt. lia.
  - destruct (_ ?= _); [destruct (Z.even _)|..]; lia.
Qed.

Lemma scale_integral (m e c : Z) :
  (c <= e)%Z -> inject_Z m * 2 ^ e == inject_Z (m * 2 ^ (e - c)) * 2 ^ c.
Proof.
  intros H. rewrite inject_Z_mult, <- pow2_inject by lia.
  replace e with ((e - c) + c)%Z at 1 by lia. rewrite pow2_add. ring.
Qed.

Lemma representable_nonneg (f : Q) : representable f -> 0 <= f.
Proof.
  intros (m & e & Hm & _ & Hf & _). rewrite Hf.
  apply Qmult_le_0_compat; [rewrite <- (Zle_Qle 0); lia|].
  apply Qlt_le_weak, pow2_pos.
Qed.

Lemma below_binade (q : Q) (m e : Z) :
  0 < q -> (0 <= m < 2 ^ 53)%Z -> (e < binade q - 52)%Z ->
  inject_Z m * 2 ^ e < 2 ^ binade q.
Proof.
  intros Hq Hm He.
  apply Qle_lt_trans with (inject_Z m * 2 ^ (binade q - 53)).
  - rewrite !(Qmult_comm (inject_Z m)). apply Qmult_le_compat_r.
    + apply pow2_le. lia.
    + rewrite <- (Zle_Qle 0). lia.
  - replace (binade q) with (53 + (binade q - 53))%Z at 2 by lia.
    rewrite pow2_add. apply Qmult_lt_compat_r; [apply pow2_pos|].
    rewrite pow2_inject by lia. rewrite <- Zlt_Qlt. lia.
Qed.

Lemma round_pos_le (q f : Q) :
  0 < q -> representable f -> q <= f ->
  exists r, round_pos q = Fin r /\ 0 <= r /\ r <= f.
Proof.
  intros Hq (m & e & Hm & He & Hf & Hfin) Hqf.
  destruct (binade_spec q Hq) as [Hb1 Hb2].
  unfold round_pos. set (c := Z.max (binade q - 52) (-1074)).
  set (z := q / 2 ^ c).
  assert (Hc : 0 < 2 ^ c) by apply pow2_pos.
  assert (Hz : inject_Z 0 <= z).
  { unfold z. apply Qle_shift_div_l; [done|]. rewrite Qmult_0_l.
    by apply Qlt_le_weak. }
  assert (Hn0 : (0 <= round_half_even z)%Z) by (by apply round_half_even_ge).
  assert (Hn : inject_Z (round_half_even z) * 2 ^ c <= f).
  { destruct (Z.le_gt_cases c e) as [Hce|Hce].
    - rewrite Hf, (scale_integral m e c Hce).
      apply Qmult_le_compat_r; [|by apply Qlt_le_weak].
      rewrite <- Zle_Qle. apply round_half_even_le. unfold z.
      apply Qle_shift_div_r; [done|].
      rewrite <- scale_integral by done. by rewrite <- Hf.
    - exfalso. apply (Qlt_irrefl q).
      apply Qle_lt_trans with f; [done|].
      apply Qlt_le_trans with (2 ^ binade q); [|done].
      rewrite Hf. apply below_binade; [done..|lia]. }
  set (r := inject_Z (round_half_even z) * 2 ^ c) in *.
  destruct (Qle_bool (2 ^ 1024) r) eqn:Hinf.
  - apply Qle_bool_iff in Hinf. exfalso. apply (Qlt_irrefl f).
    apply Qlt_le_trans with (2 ^ 1024); [done|]. by apply Qle_trans with r.
  - exists (Qred r). split; [done|]. rewrite Qred_correct. split; [|done].
    apply Qmult_le_0_compat; [by rewrite <- (Zle_Qle 0)|by apply Qlt_le_weak].
Qed.

Lemma round_pos_ge (q f : Q) :
  0 < q -> representable f -> f <= q -> above f (round_pos q).
Proof.
  intros Hq (m & e & Hm & He & Hf & Hfin) Hqf.
  destruct (binade_spec q Hq) as [Hb1 Hb2].
  unfold round_pos. set (c := Z.max (binade q - 52) (-1074)).
  set (z := q / 2 ^ c).
  assert (Hc : 0 < 2 ^ c) by apply pow2_pos.
  assert (Hn : f <= inject_Z (round_half_even z) * 2 ^ c).
  { destruct (Z.le_gt_cases c e) as [Hce|Hce].
    - rewrite Hf, (scale_integral m e c Hce).
      apply Qmult_le_compat_r; [|by apply Qlt_le_weak].
      rewrite <- Zle_Qle. apply round_half_even_ge. unfold z.
      apply Qle_shift_div_l; [done|].
      rewrite <- scale_integral by done. by rewrite <- Hf.
    - assert (Hcb : c = (binade q - 52)%Z) by lia.
      apply Qle_trans with (2 ^ binade q).
      + apply Qlt_le_weak. rewrite Hf. apply below_binade; [done..|lia].
      + replace (binade q) with (52 + c)%Z at 1 by lia. rewrite pow2_add.
        apply Qmult_le_compat_r; [|by apply Qlt_le_weak].
        rewrite pow2_inject by lia. rewrite <- Zle_Qle.
        apply round_half_even_ge. unfold z.
        apply Qle_shift_div_l; [done|].
        rewrite <- pow2_inject, <- pow2_add by lia.
        by replace (52 + c)%Z with (binade q) by lia. }
  set (r := inject_Z (round_half_even z) * 2 ^ c) in *.
  destruct (Qle_bool (2 ^ 1024) r); [done|].
  cbn [above]. by rewrite Qred_correct.
Qed.

Lemma round_le (q f : Q) :
  0 <= q -> representable f -> q <= f ->
  exists r, round q = Fin r /\ 0 <= r /\ r <= f.
Proof.
  intros Hq Hf Hqf. unfold round. destruct (q ?= 0) eqn:Hc.
  - exists 0. split; [done|]. split; [done|]. by apply representable_nonneg.
  - apply Qlt_alt in Hc. exfalso. apply (Qlt_irrefl q).
    by apply Qlt_le_trans with 0.
  - apply Qgt_alt in Hc. by apply round_pos_le.
Qed.

Lemma round_ge (q f : Q) :
  representable f -> f <= q -> above f (round q).
Proof.
  intros Hf Hfq. pose proof (representable_nonneg f Hf) as Hf0.
  unfold round. destruct (q ?= 0) eqn:Hc.
  - apply Qeq_alt in Hc. cbn [above]. by rewrite <- Hc.
  - apply Qlt_alt in Hc. exfalso. apply (Qlt_irrefl q).
    apply Qlt_le_trans with 0; [done|]. by apply Qle_trans with f.
  - apply Qgt_alt in Hc. by apply round_pos_ge.
Qed.

Lemma round_exact (f : Q) :
  representable f -> exists r, round f = Fin r /\ r == f.
Proof.
  intros Hf. pose proof (representable_nonneg f Hf) as Hf0.
  destruct (round_le f f Hf0 Hf ltac:(apply Qle_refl)) as (r & Hr & _ & Hle).
  pose proof (round_ge f f Hf ltac:(apply Qle_refl)) as Hge.
  rewrite Hr in Hge. exists r. split; [done|]. by apply Qle_antisym.
Qed.

Lemma representable_Z (n : Z) :
  (0 <= n < 2 ^ 53)%Z -> representable (inject_Z n).
Proof.
  intros Hn. exists n, 0%Z. split_and!; [lia..| |].
  - change (2 ^ 0) with 1. by rewrite Qmult_1_r.
  - apply Qlt_trans with (2 ^ 53); [|by apply pow2_lt].
    rewrite pow2_inject by lia. rewrite <- Zlt_Qlt. lia.
Qed.

Lemma representable_pow2 (k : Z) :
  (-1074 <= k < 1024)%Z -> representable (2 ^ k).
Proof.
  intros Hk. exists 1%Z, k. split_and!; [lia..| |].
  - by rewrite Qmult_1_l.
  - apply pow2_lt. lia.
Qed.

Lemma representable_sixteenths (n : Z) :
  (0 <= n < 2 ^ 53)%Z -> representable (inject_Z n * (1 # 16)).
Proof.
  intros Hn. exists n, (-4)%Z. split_and!; [lia..|done|].
  apply Qle_lt_trans with (inject_Z n * 1).
  - rewrite !(Qmult_comm (inject_Z n)).
    apply Qmult_le_compat_r; [done|]. rewrite <- (Zle_Qle 0). lia.
  - rewrite Qmult_1_r. apply Qlt_trans with (2 ^ 53); [|by apply pow2_lt].
    rewrite pow2_inject by lia. rewrite <- Zlt_Qlt. lia.
Qed.

End DoubleFacts.

(** ** Facts on the backoff *)

Section BackoffFacts.
Local Open Scope Q_scope.
Import Double.

Lemma round_eq (q f : Q) :
  representable f -> q == f -> exists r, round q = Fin r /\ r == f.
Proof.
  intros Hf Hq. pose proof (representable_nonneg f Hf) as Hf0.
  destruct (round_le q f) as (r & Hr & _ & Hle); [by rewrite Hq|done|rewrite Hq; apply Qle_refl|].
  pose proof (round_ge q f Hf) as Hge. rewrite Hr in Hge.
  exists r. split; [done|]. apply Qle_antisym; [done|]. apply Hge. rewrite Hq. apply Qle_refl.
Qed.

Lemma round_zero (q : Q) : q == 0 -> round q = Fin 0.
Proof. intros H. unfold round. by rewrite (proj1 (Qeq_alt q 0) H). Qed.

Lemma round_three_tenths : round (3 # 10) = Fin three_tenths.
Proof. by vm_compute. Qed.

Lemma representable_three_tenths : representable three_tenths.
Proof.
  exists 5404319552844595%Z, (-54)%Z. split_and!; [lia..|done|].
  apply Qlt_trans with (2 ^ 0); [done|by apply pow2_lt].
Qed.

Lemma above_mul (fa fb f : Q) (x y : t) :
  0 < fa -> 0 < fb -> above fa x -> above fb y ->
  representable f -> f <= fa * fb -> above f (mul x y).
Proof.
  intros Hfa Hfb Hx Hy Hf Hle.
  destruct x as [|[]|a], y as [|[]|b]; cbn [above mul] in *; try done.
  - assert (Hb : (b ?= 0) = Gt) by (by apply Qgt_alt, Qlt_le_trans with fb).
    by rewrite Hb.
  - assert (Ha : (a ?= 0) = Gt) by (by apply Qgt_alt, Qlt_le_trans with fa).
    by rewrite Ha.
  - apply round_ge; [done|]. apply Qle_trans with (fa * fb); [done|].
    apply Qmult_le_compat_nonneg; split; try done; by apply Qlt_le_weak.
Qed.

Lemma min_above (f m : Q) (x : t) :
  above f x -> m == f -> exists d, min x (Fin m) = Fin d /\ d == f.
Proof.
  intros Hx Hm. destruct x as [|[]|r]; cbn [above min] in *; try done.
  - by exists m.
  - destruct (Qle_bool r m) eqn:Hle.
    + exists r. split; [done|]. apply Qle_bool_iff in Hle.
      apply Qle_antisym; [by rewrite <- Hm|done].
    + by exists m.
Qed.

Lemma capped_product (k b mx : Z) :
  (0 <= k)%Z -> (0 <= mx < 2 ^ 53)%Z -> (mx < b * 2 ^ k)%Z ->
  (mx <= Z.min b (2 ^ 53 - 1) * 2 ^ Z.min k 1023)%Z.
Proof.
  intros Hk Hmx Hgt.
  assert (Hp : (0 < 2 ^ k)%Z) by (apply Z.pow_pos_nonneg; lia).
  assert (Hq : (1 <= 2 ^ Z.min k 1023)%Z).
  { apply (Z.pow_le_mono_r 2 0); lia. }
  destruct (Z.le_gt_cases b (2 ^ 53 - 1)) as [Hb|Hb].
  - rewrite (Z.min_l b) by done.
    destruct (Z.le_gt_cases k 1023) as [Hk1|Hk1].
    + rewrite Z.min_l by done. lia.
    + rewrite Z.min_r by lia.
      assert (1 <= b)%Z by nia.
      assert (2 ^ 53 <= 2 ^ 1023)%Z by (apply Z.pow_le_mono_r; lia).
      nia.
  - rewrite (Z.min_r b) by lia. nia.
Qed.

Lemma backoff_delay_value (k b mx : Z) :
  (0 <= k)%Z -> (0 <= b)%Z -> (0 <= mx < 2 ^ 53)%Z -> (b = 0 -> k < 1024)%Z ->
  exists d,
    backoff_delay k (inject_Z b) (inject_Z mx) = Fin d /\
    d == inject_Z (Z.min (b * 2 ^ k) mx).
Proof.
  intros Hk Hb Hmx Hzero. unfold backoff_delay.
  destruct (round_exact (inject_Z mx)) as (m' & Hm' & Hmq);
    [by apply representable_Z|].
  rewrite Hm'.
  assert (Hp : (1 <= 2 ^ k)%Z) by (apply (Z.pow_le_mono_r 2 0); lia).
  destruct (Z.le_gt_cases (b * 2 ^ k) mx) as [Hle|Hgt].
  - assert (Hb53 : (b < 2 ^ 53)%Z) by nia.
    assert (Hk53 : (k < 1024)%Z).
    { destruct (Z.eq_dec b 0) as [Hb0|Hb0]; [by apply Hzero|].
      assert (2 ^ k < 2 ^ 53)%Z by nia.
      assert (k < 53)%Z; [|lia].
      apply (Z.pow_lt_mono_r_iff 2); lia. }
    destruct (round_exact (inject_Z b)) as (b' & Hb' & Hbq);
      [by apply representable_Z|].
    destruct (round_exact (2 ^ k)) as (p & Hpw & Hpq);
      [apply representable_pow2; lia|].
    unfold pow2. rewrite Hb', Hpw. cbn [mul].
    destruct (round_eq (b' * p) (inject_Z (b * 2 ^ k))) as (d & Hd & Hdq).
    { apply representable_Z. nia. }
    { by rewrite Hbq, Hpq, inject_Z_mult, <- pow2_inject. }
    rewrite Hd. cbn [min]. rewrite Z.min_l by done.
    assert (Hdm : Qle_bool d m' = true).
    { apply Qle_bool_iff. rewrite Hdq, Hmq. by rewrite <- Zle_Qle. }
    rewrite Hdm. by exists d.
  - rewrite Z.min_r by lia. apply min_above; [|done].
    apply (above_mul (inject_Z (Z.min b (2 ^ 53 - 1))) (2 ^ Z.min k 1023)).
    + rewrite <- (Zlt_Qlt 0). nia.
    + apply pow2_pos.
    + apply round_ge; [apply representable_Z; lia|]. rewrite <- Zle_Qle. lia.
    + apply round_ge; [apply representable_pow2; lia|]. apply pow2_le. lia.
    + by apply representable_Z.
    + rewrite pow2_inject by lia. rewrite <- inject_Z_mult, <- Zle_Qle.
      by apply capped_product.
Qed.

Lemma backoff_sum_value (d random : Q) (D : Z) :
  (0 <= D < 2 ^ 48)%Z -> d == inject_Z D -> 0 <= random -> random < 1 ->
  exists j : Z,
    floor (add (Fin d) (backoff_jitter random (Fin d)))
    = Fin (inject_Z (D + j)) /\
    (0 <= j)%Z /\ (10 * j <= 3 * D)%Z /\ (random == 0 -> j = 0%Z).
Proof.
  intros HD Hd Hr0 Hr1. unfold backoff_jitter. rewrite round_three_tenths.
  assert (Hd0 : 0 <= d) by (rewrite Hd, <- (Zle_Qle 0); lia).
  destruct (round_le random 1) as (r' & Hr' & Hr'0 & Hr'1);
    [done|by apply (representable_Z 1)|by apply Qlt_le_weak|].
  rewrite Hr'. cbn [mul].
  destruct (round_le (r' * three_tenths) three_tenths) as (t & Ht & Ht0 & Ht1).
  { by apply Qmult_le_0_compat. }
  { apply representable_three_tenths. }
  { rewrite <- (Qmult_1_l three_tenths) at 2. by apply Qmult_le_compat_r. }
  rewrite Ht. cbn [mul].
  set (M := ((24 * D + 4) / 5)%Z).
  assert (HM : (0 <= M /\ 24 * D <= 5 * M /\ 16 * D + M < 2 ^ 53)%Z).
  { unfold M. change (2 ^ 53)%Z with 9007199254740992%Z.
    change (2 ^ 48)%Z with 281474976710656%Z in HD.
    Z.div_mod_to_equations. lia. }
  destruct (round_le (t * d) (inject_Z M * (1 # 16))) as (jq & Hj & Hj0 & Hj1).
  { by apply Qmult_le_0_compat. }
  { apply representable_sixteenths. lia. }
  { apply Qle_trans with ((3 # 10) * inject_Z D).
    - rewrite <- Hd. apply Qmult_le_compat_r; [|done].
      by apply Qle_trans with three_tenths.
    - assert (H : (inject_Z 24 * inject_Z D <= inject_Z 5 * inject_Z M)).
      { rewrite <- !inject_Z_mult, <- Zle_Qle. lia. }
      change (inject_Z 24) with 24 in H. change (inject_Z 5) with 5 in H.
      set (x := inject_Z D) in *. set (y := inject_Z M) in *. lra. }
  rewrite Hj. cbn [add].
  destruct (round_le (d + jq) (inject_Z (16 * D + M) * (1 # 16)))
    as (s & Hs & Hs0 & Hs1).
  { apply (Qplus_le_compat 0 d 0 jq); done. }
  { apply representable_sixteenths. lia. }
  { rewrite inject_Z_plus, inject_Z_mult, Hd.
    change (inject_Z 16) with 16.
    set (x := inject_Z D) in *. set (y := inject_Z M) in *. lra. }
  pose proof (round_ge (d + jq) (inject_Z D)) as Hge. rewrite Hs in Hge.
  cbn [above] in Hge.
  assert (HDs : inject_Z D <= s).
  { apply Hge; [apply representable_Z; lia|]. rewrite <- Hd. lra. }
  rewrite Hs. cbn [floor].
  exists (Qfloor s - D)%Z. split; [f_equal; f_equal; lia|].
  apply Qfloor_resp_le in HDs, Hs1. rewrite Qfloor_Z in HDs.
  assert (Hfl : Qfloor (inject_Z (16 * D + M) * (1 # 16)) = ((16 * D + M) / 16)%Z).
  { unfold Qfloor. cbn. by rewrite Z.mul_1_r. }
  rewrite Hfl in Hs1. split; [lia|]. split.
  { unfold M in Hs1. clear -Hs1 HD. Z.div_mod_to_equations. lia. }
  intros Hzero.
  assert (Hr'z : r' = 0).
  { unfold round in Hr'. rewrite (proj1 (Qeq_alt random 0) Hzero) in Hr'.
    by injection Hr' as <-. }
  subst r'.
  assert (Htz : t = 0) by (rewrite round_zero in Ht by done; by injection Ht as <-).
  subst t.
  assert (Hjz : jq = 0).
  { rewrite round_zero in Hj by apply Qmult_0_l. by injection Hj as <-. }
  subst jq.
  destruct (round_eq (d + 0) (inject_Z D)) as (s' & Hs' & Hsq).
  { apply representable_Z. lia. }
  { by rewrite Qplus_0_r. }
  rewrite Hs in Hs'. injection Hs' as <-.
  rewrite (Qfloor_comp _ _ Hsq), Qfloor_Z. lia.
Qed.

Lemma Qred_inject_Z (n : Z) : Qred (inject_Z n) = inject_Z n.
Proof.
  unfold Qred, inject_Z.
  pose proof (Z.ggcd_gcd n 1) as Hg.
  pose proof (Z.ggcd_correct_divisors n 1) as Hd.
  destruct (Z.ggcd n 1) as [g [aa bb]]. cbn [fst] in Hg.
  rewrite Z.gcd_1_r in Hg. subst g. destruct Hd as [Ha Hb].
  rewrite Z.mul_1_l in Ha, Hb. by subst.
Qed.

Lemma round_Z (n : Z) :
  (0 <= n < 2 ^ 53)%Z -> round (inject_Z n) = Fin (inject_Z n).
Proof.
  intros Hn. destruct (round_exact (inject_Z n)) as (r & Hr & Hrq);
    [by apply representable_Z|].
  rewrite Hr. f_equal.
  assert (Hred : Qred r = r).
  { unfold round in Hr. destruct (inject_Z n ?= 0) eqn:Hc.
    - by injection Hr as <-.
    - apply Qlt_alt in Hc. change 0 with (inject_Z 0) in Hc.
      rewrite <- Zlt_Qlt in Hc. lia.
    - unfold round_pos in Hr.
      destruct (Qle_bool _ _); [done|]. injection Hr as <-.
      apply Qred_complete, Qred_correct. }
  rewrite <- Hred, (Qred_complete _ _ Hrq). apply Qred_inject_Z.
Qed.

(** The delay of the restart timer: between the smaller of the base delay
    and 30000 ms, and 39000 ms. *)
Lemma restart_timer_bounds (k rd : Z) (random : Q) :
  (0 <= k)%Z -> (0 <= rd)%Z -> 0 <= random -> random < 1 ->
  (Z.min rd 30000
   <= timer_delay (calculateBackoff k (inject_Z rd) 30000 random)
   <= 39000)%Z.
Proof.
  intros Hk Hrd Hr0 Hr1.
  assert (Hp : (1 <= 2 ^ k)%Z) by (apply (Z.pow_le_mono_r 2 0); lia).
  destruct (Z.eq_dec rd 0) as [->|Hpos].
  - (* a base delay of zero: the timer is clamped to 1 ms *)
    assert (Hone : forall x,
      x = NaN \/ x = Fin 0 ->
      timer_delay (floor (add x (backoff_jitter random x))) = 1%Z).
    { intros x [->| ->]; [done|]. unfold backoff_jitter.
      destruct (round_le random 1) as (r' & Hr' & _);
        [done|by apply (representable_Z 1)|by apply Qlt_le_weak|].
      rewrite Hr', round_three_tenths. cbn [mul].
      destruct (round (r' * three_tenths)) as [| |t]; [done..|].
      cbn [mul]. rewrite (round_zero (t * 0)) by apply Qmult_0_r. done. }
    unfold calculateBackoff. rewrite Hone; [done|].
    unfold backoff_delay. change (inject_Z 0) with 0.
    change (round 0) with (Fin 0). change (round 30000) with (round (inject_Z 30000)).
    rewrite round_Z by lia.
    destruct (pow2 k) as [|s|p]; cbn [mul min]; [by left..|].
    rewrite (round_zero (0 * p)) by apply Qmult_0_l. by right.
  - destruct (backoff_delay_value k rd 30000) as (d & Hd & Hdq); [lia..|].
    unfold calculateBackoff. change 30000 with (inject_Z 30000). rewrite Hd.
    destruct (backoff_sum_value d random (Z.min (rd * 2 ^ k) 30000))
      as (j & Hj & Hj0 & Hj1 & _); [lia|done..|].
    rewrite Hj. unfold timer_delay.
    set (n := (Z.min (rd * 2 ^ k) 30000 + j)%Z) in *.
    assert (Hn : (Z.min rd 30000 <= n <= 39000)%Z) by nia.
    assert (H1 : Qle_bool 1 (inject_Z n) = true).
    { apply Qle_bool_iff. rewrite <- (Zle_Qle 1). lia. }
    assert (H2 : Qle_bool (inject_Z n) (inject_Z TIMEOUT_MAX) = true).
    { apply Qle_bool_iff. rewrite <- Zle_Qle. unfold TIMEOUT_MAX. lia. }
    rewrite H1, H2. cbn [andb]. by rewrite Qfloor_Z.
Qed.

End BackoffFacts.

(** The model of doubles agrees with the Standard Library's specification
    of IEEE-754 arithmetic ([SpecFloat], binary64) on the products and the
    sum of a backoff, on a tie, on a subnormal number and at the overflow. *)
Example double_agrees_with_SpecFloat :
  let of_spec := Double.of_spec in
  let random := SpecFloat.S754_finite false 9007199254740991 (-53) in
  let three_tenths := SpecFloat.S754_finite false 5404319552844595 (-54) in
  let delay := SpecFloat.S754_finite false 2000 0 in
  let jitter :=
    SpecFloat.SFmul 53 1024 (SpecFloat.SFmul 53 1024 random three_tenths) delay in
  Double.round (3 # 10) = of_spec three_tenths /\
  Double.mul (of_spec random) (of_spec three_tenths)
  = of_spec (SpecFloat.SFmul 53 1024 random three_tenths) /\
  Double.mul (Double.mul (of_spec random) (of_spec three_tenths)) (of_spec delay)
  = of_spec jitter /\
  Double.add (of_spec delay) (of_spec jitter)
  = of_spec (SpecFloat.SFadd 53 1024 delay jitter) /\
  Double.round (inject_Z (2 ^ 60 + 2 ^ 7) * 2 ^ (-3))
  = of_spec (SpecFloat.binary_normalize 53 1024 (2 ^ 60 + 2 ^ 7) (-3) false) /\
  Double.round (inject_Z (2 ^ 60 + 3 * 2 ^ 7) * 2 ^ (-3))
  = of_spec (SpecFloat.binary_normalize 53 1024 (2 ^ 60 + 3 * 2 ^ 7) (-3) false) /\
  Double.round (inject_Z 3 * 2 ^ (-1076))
  = of_spec (SpecFloat.binary_normalize 53 1024 3 (-1076) false) /\
  Double.round (inject_Z (2 ^ 54 - 1) * 2 ^ 970)
  = of_spec (SpecFloat.binary_normalize 53 1024 (2 ^ 54 - 1) 970 false).
Proof. vm_compute. by split_and!. Qed.




(** ** Facts on the stream handlers and the health evaluator *)

(** [indexOf] finds the needle exactly when the needle occurs in the text. *)
Lemma includes_substring (needle s : string) :
  needle <> EmptyString ->
  JSString.includes needle s = true <->
  exists i : nat, String.substring i (String.length needle) s = needle.
Proof.
  intros Hne. unfold JSString.includes, JSString.indexOf.
  destruct (String.index 0 needle s) as [m|] eqn:E.
  - split; [|done]. intros _. exists m. by eapply String.index_correct1.
  - split; [done|]. intros [i Hi]. exfalso.
    eapply (String.index_correct3 0 i); eauto. lia.
Qed.

(** A line that went through the stderr reader names an error keyword. *)
Lemma stderr_prefix_has_error_keyword (line : string) :
  has_error_keyword ("ERROR: " +:+ line) = true.
Proof. reflexivity. Qed.

Section HealthFacts.
Variable CONFIG : Config.

(** A valid snapshot is served as it is: no probe, no scan, no change. *)
Lemma checkBinaryHealth_hit (env : HealthEnv) (st : ProcessState)
    (entry : HealthCacheEntry) :
  healthCache st = Some entry ->
  (now_check env - entry_timestamp entry < HEALTH_CACHE_TTL CONFIG)%Z ->
  checkBinaryHealth CONFIG env st = (entry_metrics entry, st, []).
Proof.
  intros Hc Hlt. unfold checkBinaryHealth, cache_lookup. rewrite Hc.
  by rewrite (proj2 (Z.ltb_lt _ _) Hlt).
Qed.

(** A snapshot whose age has reached the TTL is not looked at. *)
Lemma cache_lookup_stale (now : Z) (st : ProcessState) (entry : HealthCacheEntry) :
  healthCache st = Some entry ->
  (HEALTH_CACHE_TTL CONFIG <= now - entry_timestamp entry)%Z ->
  cache_lookup CONFIG now st = None.
Proof.
  intros Hc Hge. unfold cache_lookup. rewrite Hc.
  by rewrite (proj2 (Z.ltb_ge _ _) Hge).
Qed.

(** An evaluation that misses the cache and finds the child running. *)
Lemma checkBinaryHealth_running (env : HealthEnv) (st : ProcessState)
    (child : ChildProcess) (p : Z) :
  cache_lookup CONFIG (now_check env) st = None ->
  process st = Some child -> truthy_pid child = Some p -> alive env = true ->
  exists (m : HealthMetrics) (st' : ProcessState) (warn : list effect),
    checkBinaryHealth CONFIG env st
    = (m, st', [Probe p; ScanUptime] ++ warn ++ [ScanErrors]) /\
    isRunning m = true /\
    uptime m = extractUptimeFromLogs (logs st) /\
    uptimeIncreasing m = Number.gtb (uptime m) (lastUptime st) /\
    hasErrors m
    = existsb has_error_keyword (CircularBuffer.getRecent 50 (logs st)) /\
    healthCache st'
    = Some {| entry_metrics := m; entry_timestamp := now_store env |} /\
    (forall e, e ∈ warn -> e = Log Warn "Uptime not increasing").
Proof.
  intros Hmiss Hproc Hpid Halive.
  unfold checkBinaryHealth. rewrite Hmiss, Hproc, Hpid, Halive. simpl negb. cbv iota.
  eexists _, _, _. split; [reflexivity|].
  repeat split.
  intros e He.
  destruct (negb _ && _); [|by apply elem_of_nil in He].
  by apply list_elem_of_singleton in He.
Qed.

(** An evaluation that misses the cache and finds no live child stores no
    snapshot. *)
Lemma checkBinaryHealth_not_running (env : HealthEnv) (st : ProcessState) :
  cache_lookup CONFIG (now_check env) st = None ->
  (process st = None \/
   (exists child, process st = Some child /\ truthy_pid child = None) \/
   alive env = false) ->
  exists eff, checkBinaryHealth CONFIG env st = (empty_health, st, eff).
Proof.
  intros Hmiss Hcase. unfold checkBinaryHealth. rewrite Hmiss.
  destruct (process st) as [child|]; [|by eexists].
  destruct (truthy_pid child) as [p|] eqn:Hp; [|by eexists].
  destruct Hcase as [Hn | [(c & Hc & Hnone) | Hdead]].
  - discriminate.
  - injection Hc as <-. congruence.
  - rewrite Hdead. by eexists.
Qed.

(** Health evaluation sends no signal. *)
Lemma checkBinaryHealth_no_kill (env : HealthEnv) (st : ProcessState) :
  count is_kill (checkBinaryHealth CONFIG env st).2 = 0.
Proof.
  unfold checkBinaryHealth.
  destruct (cache_lookup _ _ _); [done|].
  destruct (process st) as [child|]; [|done].
  destruct (truthy_pid child); [|done].
  destruct (negb (alive env)); [done|].
  simpl. destruct (negb _ && _); done.
Qed.

End HealthFacts.

(** *** The log buffer of the reachable states *)

(** ** Facts on the stretches of [stop] *)

Section StretchFacts.
Variable CONFIG : Config.

Lemma stop_after_loop_frame (b : bool) (w : option string) (st : ProcessState) :
  let r := stop_after_loop CONFIG b w st in
  (r.1.2 = st \/ r.1.2 = reset_stopped st) /\
  Forall (stretch_effect CONFIG w) r.2.
Proof.
  cbv zeta. unfold stop_after_loop, stop_returns, stop_thrown.
  assert (Hf : forall child : ChildProcess,
             Forall (stretch_effect CONFIG w)
               match truthy_pid child with
               | Some _ => [Log Warn "Graceful shutdown timeout, forcing kill";
                            Kill (cid child) SIGKILL]
               | None => []
               end).
  { intros child. destruct (truthy_pid child); repeat constructor. }
  assert (Hend : forall forced,
             Forall (stretch_effect CONFIG w) forced ->
             let r := match w with
                      | Some path =>
                          if String.eqb path (BINARY_PATH CONFIG)
                          then (Returned, reset_stopped st,
                                forced ++ [Log Info "Binary service stopped successfully"])
                          else (Suspended Unlinking, st, forced ++ [Unlink path])
                      | None => (Returned, reset_stopped st,
                                 forced ++ [Log Info "Binary service stopped successfully"])
                      end in
             (r.1.2 = st \/ r.1.2 = reset_stopped st) /\
             Forall (stretch_effect CONFIG w) r.2).
  { intros forced Hforced. cbv zeta. destruct w as [path|].
    - destruct (String.eqb_spec path (BINARY_PATH CONFIG)) as [Heq|Hne]; cbn.
      + split; [by right|]. apply Forall_app; split; [done|]. by repeat constructor.
      + split; [by left|]. apply Forall_app; split; [done|]. by repeat constructor.
    - cbn. split; [by right|]. apply Forall_app; split; [done|]. by repeat constructor. }
  destruct b.
  - apply Hend. constructor.
  - destruct (process st) as [child|].
    + apply Hend, Hf.
    + cbn. split; [by left|]. by repeat constructor.
Qed.

Lemma stop_poll_frame (t now : Z) (alive : bool) (w : option string)
    (st : ProcessState) :
  let r := stop_poll CONFIG t now alive w st in
  (r.1.2 = st \/ r.1.2 = reset_stopped st) /\
  Forall (stretch_effect CONFIG w) r.2.
Proof.
  cbv zeta. unfold stop_poll.
  destruct (now - t <? SHUTDOWN_TIMEOUT CONFIG)%Z; [|apply stop_after_loop_frame].
  destruct (process st) as [child|];
    [|cbn; split; [by left | by repeat constructor]].
  destruct (truthy_pid child) as [p|]; [|apply stop_after_loop_frame].
  destruct alive; [cbn; split; [by left | by repeat constructor]|].
  pose proof (stop_after_loop_frame true w st) as [Hst Heff].
  destruct (stop_after_loop CONFIG true w st) as [[r st1] eff]. cbn in *.
  split; [done|]. by constructor.
Qed.

Lemma stop_call_frame (t now : Z) (alive : bool) (w : option string)
    (st : ProcessState) :
  let r := stop_call CONFIG t now alive w st in
  (r.1.2 = st \/ r.1.2 = reset_stopped st) /\
  Forall (stretch_effect CONFIG w) r.2.
Proof.
  cbv zeta. unfold stop_call.
  destruct (process st) as [child|];
    [|cbn; split; [by left | by repeat constructor]].
  pose proof (stop_poll_frame t now alive w st) as [Hst Heff].
  destruct (stop_poll CONFIG t now alive w st) as [[r st1] eff]. cbn in *.
  split; [done|]. by repeat constructor.
Qed.

(** What a stretch of [stop] leaves alone in the supervisor. *)
Lemma stop_stretch_frame (sys : System) (ev : event) :
  match ev with
  | StopCalled _ _ _ | StopPolls _ _ _ | StopUnlinked _ _ => True
  | _ => False
  end ->
  let r := step CONFIG sys ev in
  (state r.1 = state sys \/ state r.1 = reset_stopped (state sys)) /\
  binaryWrapperPath r.1 = binaryWrapperPath sys /\
  children r.1 = children sys /\ timers r.1 = timers sys /\
  startups r.1 = startups sys /\
  Forall (stretch_effect CONFIG (binaryWrapperPath sys)) r.2.
Proof.
  destruct ev as [| | | | | t now alive | call now alive | call ok | | | |];
    try done; intros _; cbv zeta; cbn [step].
  - unfold stop_called.
    pose proof (stop_call_frame t now alive (binaryWrapperPath sys) (state sys))
      as [Hst Heff].
    destruct (stop_call CONFIG _ _ _ _ _) as [[r st1] eff]. cbn in *.
    by split_and!.
  - unfold stop_polls.
    destruct (stops sys !! call) as [[[t|]|]|];
      try solve [cbn; split_and!; first [done | by left | by constructor]].
    pose proof (stop_poll_frame t now alive (binaryWrapperPath sys) (state sys))
      as [Hst Heff].
    destruct (stop_poll CONFIG _ _ _ _ _) as [[r st1] eff]. cbn in *.
    by split_and!.
  - unfold stop_unlinked.
    destruct (stops sys !! call) as [[[t|]|]|];
      try solve [cbn; split_and!; first [done | by left | by constructor]].
    unfold stop_after_unlink, stop_returns. destruct ok; cbn;
      (split_and!; first [done | by right | by repeat constructor]).
Qed.

End StretchFacts.

Section LogFacts.
Variable CONFIG : Config.
Hypothesis Hcap : 0 < MAX_LOG_LINES CONFIG.

Lemma logs_represented_same (st st' : ProcessState) :
  logs st' = logs st ->
  logs_represented CONFIG st -> logs_represented CONFIG st'.
Proof. intros Heq [xs Hxs]. exists xs. by rewrite Heq. Qed.

Lemma logs_represented_push (st st' : ProcessState) (x : string) :
  logs st' = CircularBuffer.push x (logs st) ->
  logs_represented CONFIG st -> logs_represented CONFIG st'.
Proof.
  intros Heq [xs Hxs]. exists (xs ++ [x]). rewrite Heq.
  by apply represents_push.
Qed.

Lemma logs_represented_clear (st st' : ProcessState) :
  logs st' = CircularBuffer.clear (logs st) ->
  logs_represented CONFIG st -> logs_represented CONFIG st'.
Proof.
  intros Heq [xs Hxs]. exists []. rewrite Heq.
  apply represents_clear. apply Hxs.
Qed.

Lemma checkBinaryHealth_logs (env : HealthEnv) (st : ProcessState) :
  logs (checkBinaryHealth CONFIG env st).1.2 = logs st.
Proof.
  unfold checkBinaryHealth.
  destruct (cache_lookup _ _ _); [done|].
  destruct (process st) as [child|]; [|done].
  destruct (truthy_pid child); [|done].
  destruct (negb (alive env)); [done|].
  simpl. by destruct (Number.gtb _ _).
Qed.

Lemma stop_logs (wrapper : option string) (env : StopEnv)
    (st st' : ProcessState) (eff : list effect) :
  stop CONFIG wrapper env st = Some (st', eff) ->
  logs st' = logs st \/ logs st' = CircularBuffer.clear (logs st).
Proof.
  unfold stop. destruct (process st); [|intros [= <- _]; by left].
  destruct (poll_shutdown _ _ _ _ _ _) as [[o polled]|]; [|done].
  intros [= <- _]. by right.
Qed.

Lemma step_logs_represented (sys : System) (ev : event) :
  logs_represented CONFIG (state sys) ->
  logs_represented CONFIG (state (step CONFIG sys ev).1).
Proof.
  intros Hrep.
  assert (Hstretch := stop_stretch_frame CONFIG sys ev).
  destruct ev as [ok ne w | k now sp | env | env | env | t0 now alive
                  | call now alive | call ok | c line d
                  | c line | c now random | t sp now];
    try (destruct (Hstretch I) as ([-> | ->] & _);
         [done | by eapply logs_represented_clear]);
    clear Hstretch; simpl.
  - unfold installSecrets. by destruct ok.
  - unfold start.
    assert (Hreset : logs_represented CONFIG (reset_for_start now (state sys)))
      by (by eapply logs_represented_clear).
    destruct (startBinaryProcess CONFIG _ _ sp _) as [[child|] eff]; [|done].
    destruct (truthy_pid child); simpl; [|done].
    by eapply logs_represented_clear.
  - destruct (startups sys); [done|].
    unfold initial_health_check.
    pose proof (checkBinaryHealth_logs env (state sys)) as Hlogs.
    destruct (checkBinaryHealth CONFIG env (state sys)) as [[m st] eff].
    simpl in *. by eapply logs_represented_same.
  - unfold health.
    pose proof (checkBinaryHealth_logs env (state sys)) as Hlogs.
    destruct (checkBinaryHealth CONFIG env (state sys)) as [[m st] eff].
    simpl in *. by eapply logs_represented_same.
  - destruct (stop CONFIG _ env (state sys)) as [[st eff]|] eqn:Hstop; [|done].
    apply stop_logs in Hstop as [Hsame|Hclear]; simpl.
    + by eapply logs_represented_same.
    + by eapply logs_represented_clear.
  - destruct (is_monitored c sys); [|done].
    simpl. by eapply logs_represented_push.
  - destruct (is_monitored c sys); [|done].
    simpl. by eapply logs_represented_push.
  - unfold child_exit.
    destruct (children sys !! c) as [info|]; [|done].
    destruct (exited info); [done|].
    destruct (exitObserver info); [|done].
    unfold on_exit. simpl.
    by destruct (restartCount (state sys) <? MAX_RESTART_ATTEMPTS CONFIG)%Z.
  - unfold timer_fires.
    destruct (timers sys !! t) as [[closure|]|]; [|done..].
    unfold on_restart_timer.
    destruct (startBinaryProcess CONFIG _ _ sp _) as [[child|] eff]; [|done].
    simpl. by eapply logs_represented_clear.
Qed.

(** In every reachable state the log buffer holds the last
    [MAX_LOG_LINES] lines pushed since it was last cleared. *)
Lemma run_logs_represented (evs : list event) (sys : System) :
  logs_represented CONFIG (state sys) ->
  logs_represented CONFIG (state (run_events CONFIG sys evs).1).
Proof.
  revert sys. induction evs as [|ev evs IH]; intros sys Hrep; [done|].
  cbn [run_events].
  pose proof (step_logs_represented sys ev Hrep) as Hstep.
  destruct (step CONFIG sys ev) as [sys1 eff1].
  specialize (IH sys1 Hstep).
  by destruct (run_events CONFIG sys1 evs) as [sys2 eff2].
Qed.

Lemma initial_logs_represented :
  logs_represented CONFIG (state (initial_system CONFIG)).
Proof. exists []. apply represents_new. Qed.

End LogFacts.

(** C4. For the [HealthMetrics] that the evaluator returns, the [health]
    hook returns exactly [isRunning && !hasErrors && (uptimeIncreasing ||
    uptime > 0)], and records the same value as the health flag. *)
Theorem health_returns_verdict (CONFIG : Config) (env : HealthEnv)
    (st : ProcessState) :
  let m := (checkBinaryHealth CONFIG env st).1.1 in
  let result := health CONFIG env st in
  result.1.1
  = isRunning m && negb (hasErrors m) &&
    (uptimeIncreasing m || Number.gtb (uptime m) (Num 0)) /\
  isHealthy result.1.2 = result.1.1 /\
  exists tail, result.2 = (checkBinaryHealth CONFIG env st).2 ++ tail.
Proof.
  cbv zeta. unfold health.
  destruct (checkBinaryHealth CONFIG env st) as [[m st1] eff]. simpl.
  repeat split. by eexists.
Qed.

(** C5. The stderr reader stores every line it receives with the prefix
    "ERROR: ": the line is pushed on the buffer and, the buffer being one of
    a reachable state, is then the newest of the recent lines. Whenever such
    a line, whatever its content, is among the 50 most recent buffered
    lines, an evaluation that misses the cache and finds the child running
    sets [hasErrors], and the [health] hook answers false. *)
Theorem stderr_line_fails_health (CONFIG : Config) (env : HealthEnv)
    (st st0 : ProcessState) (reader : nat) (child : ChildProcess) (p : Z)
    (line : string) :
  ("ERROR: " +:+ line) ∈ CircularBuffer.getRecent 50 (logs st) ->
  cache_lookup CONFIG (now_check env) st = None ->
  process st = Some child -> truthy_pid child = Some p -> alive env = true ->
  logs (on_stderr_line reader line st0).1
  = CircularBuffer.push ("ERROR: " +:+ line) (logs st0) /\
  (0 < MAX_LOG_LINES CONFIG -> logs_represented CONFIG st0 ->
   last (CircularBuffer.getRecent 50 (logs (on_stderr_line reader line st0).1))
   = Some ("ERROR: " +:+ line)) /\
  isRunning (checkBinaryHealth CONFIG env st).1.1 = true /\
  hasErrors (checkBinaryHealth CONFIG env st).1.1 = true /\
  (health CONFIG env st).1.1 = false /\
  isHealthy (health CONFIG env st).1.2 = false.
Proof.
  intros Hin Hmiss Hproc Hpid Halive.
  split; [reflexivity|].
  split; [intros Hcap [xs Hxs]; by eapply getRecent_push_last|].
  destruct (checkBinaryHealth_running CONFIG env st child p Hmiss Hproc Hpid Halive)
    as (m & st' & warn & Heq & Hrun & _ & _ & Herr & _).
  assert (Herrors : hasErrors m = true).
  { rewrite Herr. apply existsb_exists.
    exists ("ERROR: " +:+ line). split.
    - by apply list_elem_of_In.
    - apply stderr_prefix_has_error_keyword. }
  unfold health. rewrite Heq. simpl.
  unfold verdict. rewrite Hrun, Herrors. done.
Qed.

(** An instance of C5: after [start], the child writes "disk almost full"
    on stderr and the host asks for the health 6 seconds later. *)
Lemma stderr_line_fails_health_witness :
  let sys :=
    (run_events default_config (initial_system default_config)
       [Start false 1000 {| keyExit := Some 0%Z; newPid := Some 4242%Z |};
        StdoutLine 0 "uptime: 3 seconds" 0;
        StderrLine 0 "disk almost full"]).1 in
  let env := {| now_check := 7000; alive := true; now_grace := 7000;
                now_store := 7000; duration := 1; heapUsed := 0 |} in
  CircularBuffer.getRecent 50 (logs (state sys))
  = ["uptime: 3 seconds"; "ERROR: disk almost full"] /\
  (health default_config env (state sys)).1.1 = false.
Proof.
  cbv zeta. split; [vm_compute; reflexivity|].
  eapply (stderr_line_fails_health default_config _ _
            (initial_state default_config) 0
            {| cid := 0; pid := Some 4242%Z |} 4242 "disk almost full").
  - apply list_elem_of_In. vm_compute. right. left. reflexivity.
  - vm_compute. reflexivity.
  - vm_compute. reflexivity.
  - reflexivity.
  - reflexivity.
Defined.

(** C9. The stderr reader sends SIGTERM to the child it reads from exactly
    when the ingested line, in lower case, contains "invalid" and contains
    "secret"; the signal is an effect of the line handler itself. The
    handler sends no other signal, the stdout reader sends none, and
    neither does a health evaluation. *)
Theorem sigterm_iff_invalid_secret (CONFIG : Config) (reader : nat)
    (line : string) (st : ProcessState) :
  (Kill reader SIGTERM ∈ (on_stderr_line reader line st).2 <->
   (exists i, String.substring i 7 (JSString.toLowerCase line) = "invalid") /\
   (exists j, String.substring j 6 (JSString.toLowerCase line) = "secret")) /\
  (forall c sig, Kill c sig ∈ (on_stderr_line reader line st).2 ->
                 c = reader /\ sig = SIGTERM) /\
  (forall elapsed, count is_kill (on_stdout_line line elapsed st).2 = 0) /\
  (forall env s, count is_kill (checkBinaryHealth CONFIG env s).2 = 0) /\
  (forall env s, count is_kill (health CONFIG env s).2 = 0).
Proof.
  assert (Hinv : invalid_secret line = true <->
                 (exists i, String.substring i 7 (JSString.toLowerCase line) = "invalid") /\
                 (exists j, String.substring j 6 (JSString.toLowerCase line) = "secret")).
  { unfold invalid_secret. rewrite andb_true_iff.
    rewrite (includes_substring "invalid") by discriminate.
    rewrite (includes_substring "secret") by discriminate.
    reflexivity. }
  assert (Honly : forall c sig, Kill c sig ∈ (on_stderr_line reader line st).2 ->
                               c = reader /\ sig = SIGTERM).
  { intros c sig Hin. unfold on_stderr_line in Hin. simpl in Hin.
    destruct (invalid_secret line).
    - apply elem_of_cons in Hin as [Hin|Hin]; [discriminate|].
      apply elem_of_cons in Hin as [Hin|Hin]; [discriminate|].
      apply list_elem_of_singleton in Hin. by injection Hin as -> ->.
    - apply list_elem_of_singleton in Hin. discriminate. }
  split; [|split; [exact Honly | split; [done | split]]].
  - rewrite <- Hinv. unfold on_stderr_line. simpl.
    destruct (invalid_secret line); split; try done.
    + intros _. right. right. left.
    + intros Hin. apply list_elem_of_singleton in Hin. discriminate.
  - intros env s. apply checkBinaryHealth_no_kill.
  - intros env s. unfold health.
    pose proof (checkBinaryHealth_no_kill CONFIG env s) as Hno.
    destruct (checkBinaryHealth CONFIG env s) as [[m st1] eff]. simpl in *.
    unfold count in *. rewrite List.filter_app, length_app, Hno. done.
Qed.

(** An instance of C9: the line of the rejected key. *)
Lemma sigterm_iff_invalid_secret_witness :
  Kill 0 SIGTERM
  ∈ (on_stderr_line 0 "Error: Invalid SECRET provided" started_state).2.
Proof.
  apply (sigterm_iff_invalid_secret default_config 0
           "Error: Invalid SECRET provided" started_state).
  split; [exists 7 | exists 15]; reflexivity.
Defined.

(** A line that names only one of the two words sends nothing. *)
Example stderr_line_without_secret :
  (on_stderr_line 0 "invalid argument" started_state).2
  = [Log Warn "[BINARY STDERR]"].
Proof. reflexivity. Qed.

(** ** The health cache *)

(** C3 as stated does not hold: of two evaluations one millisecond apart
    with nothing in between, the second probes the child again when the
    first found it dead, since that evaluation stored no snapshot. *)
Lemma second_evaluation_probes_dead_child :
  ~ (forall (CONFIG : Config) (st : ProcessState) (env1 env2 : HealthEnv),
        (0 <= now_check env2 - now_check env1 < HEALTH_CACHE_TTL CONFIG)%Z ->
        let first := checkBinaryHealth CONFIG env1 st in
        let second := checkBinaryHealth CONFIG env2 first.1.2 in
        second.1.1 = first.1.1 /\
        count is_probe second.2 = 0 /\ count is_scan second.2 = 0).
Proof.
  intros Hclaim.
  specialize (Hclaim default_config started_state
    {| now_check := 7000; alive := false; now_grace := 7000;
       now_store := 7000; duration := 1; heapUsed := 0 |}
    {| now_check := 7001; alive := false; now_grace := 7001;
       now_store := 7001; duration := 1; heapUsed := 0 |}).
  cbv zeta in Hclaim.
  destruct Hclaim as (_ & Hprobe & _); [simpl; lia|].
  vm_compute in Hprobe. discriminate.
Qed.

(** The same happens when the first of the two evaluations was itself
    served from a snapshot that expires before the second. *)
Lemma second_evaluation_after_stale_hit :
  let env t up := {| now_check := t; alive := up; now_grace := t;
                     now_store := t; duration := 1; heapUsed := 0 |} in
  let st0 := (checkBinaryHealth default_config (env 7000%Z true) started_state).1.2 in
  let first := checkBinaryHealth default_config (env 7400%Z true) st0 in
  let st1 := (on_stdout_line "uptime: 9 seconds" 0 first.1.2).1 in
  let second := checkBinaryHealth default_config (env 7600%Z true) st1 in
  first.2 = [] /\ uptime first.1.1 = Num 0 /\
  uptime second.1.1 = Num 9 /\ count is_probe second.2 = 1.
Proof. vm_compute. repeat split; reflexivity. Qed.

(** A snapshot that is too old for one evaluation is too old for every
    later one. *)
Lemma cache_lookup_miss_later (CONFIG : Config) (now now' : Z)
    (st : ProcessState) :
  cache_lookup CONFIG now st = None -> (now <= now')%Z ->
  cache_lookup CONFIG now' st = None.
Proof.
  unfold cache_lookup. intros Hmiss Hle.
  destruct (healthCache st) as [entry|]; [|done].
  destruct (now - entry_timestamp entry <? HEALTH_CACHE_TTL CONFIG)%Z eqn:Hlt;
    [done|].
  apply Z.ltb_ge in Hlt.
  assert (Hlt' : (now' - entry_timestamp entry <? HEALTH_CACHE_TTL CONFIG)%Z
                 = false) by (apply Z.ltb_ge; lia).
  by rewrite Hlt'.
Qed.

(** C3, amended. When an evaluation misses the cache and finds the child
    running, it stores its result; every evaluation that comes within
    [cacheTTL] of it, on a state whose snapshot has not been invalidated in
    between (no start, stop or respawn), returns the very same
    [HealthMetrics], performs no probe and no scan and changes nothing, the
    first evaluation having probed once. A snapshot whose age has reached
    [cacheTTL] is not served: the evaluation probes again. When the
    evaluation that misses the cache finds no child, a child without a pid
    or a dead child, it returns the empty metrics without a scan, stores no
    snapshot and changes nothing, so that the next evaluation misses the
    cache as well and computes afresh: both evaluations probe once when
    there is a child with a pid, and neither probes when there is none. *)
Theorem cached_evaluation_is_served (CONFIG : Config) (env1 env2 : HealthEnv)
    (st : ProcessState) :
  cache_lookup CONFIG (now_check env1) st = None ->
  (now_check env1 <= now_store env1)%Z ->
  let first := checkBinaryHealth CONFIG env1 st in
  let with_pid :=
    match process st with
    | Some child =>
        match truthy_pid child with Some _ => true | None => false end
    | None => false
    end in
  (forall (child : ChildProcess) (p : Z),
      process st = Some child -> truthy_pid child = Some p ->
      alive env1 = true ->
      (now_check env2 - now_check env1 < HEALTH_CACHE_TTL CONFIG)%Z ->
      count is_probe first.2 = 1 /\
      (forall st' : ProcessState,
          healthCache st' = healthCache first.1.2 ->
          checkBinaryHealth CONFIG env2 st' = (first.1.1, st', [])) /\
      (forall (env3 : HealthEnv) (st' : ProcessState),
          healthCache st' = healthCache first.1.2 ->
          process st' = Some child ->
          (HEALTH_CACHE_TTL CONFIG <= now_check env3 - now_store env1)%Z ->
          cache_lookup CONFIG (now_check env3) st' = None /\
          count is_probe (checkBinaryHealth CONFIG env3 st').2 = 1)) /\
  (with_pid && alive env1 = false ->
   (now_check env1 <= now_check env2)%Z ->
   let second := checkBinaryHealth CONFIG env2 first.1.2 in
   first.1.1 = empty_health /\ first.1.2 = st /\
   count is_scan first.2 = 0 /\
   count is_probe first.2 = (if with_pid then 1 else 0) /\
   cache_lookup CONFIG (now_check env2) first.1.2 = None /\
   count is_probe second.2 = (if with_pid then 1 else 0)).
Proof.
  intros Hmiss Hclock first with_pid. split.
  - intros child p Hproc Hpid Halive Hnear.
    destruct (checkBinaryHealth_running CONFIG env1 st child p Hmiss Hproc Hpid Halive)
      as (m & st1 & warn & Heq & _ & _ & _ & _ & Hcache & Hwarn).
    subst first. rewrite Heq. simpl fst. simpl snd.
    split; [|split].
    + unfold count. simpl. rewrite List.filter_app, length_app. simpl.
      assert (Hw : List.filter is_probe warn = []).
      { clear -Hwarn. induction warn as [|e w IH]; [done|].
        simpl. rewrite (Hwarn e) by left. simpl. apply IH.
        intros e' He'. apply Hwarn. by right. }
      by rewrite Hw.
    + intros st' Hsame. rewrite Hcache in Hsame.
      rewrite (checkBinaryHealth_hit CONFIG env2 st' _ Hsame); [done|].
      simpl. lia.
    + intros env3 st' Hsame Hproc' Hold. rewrite Hcache in Hsame.
      assert (Hstale : cache_lookup CONFIG (now_check env3) st' = None)
        by (by eapply cache_lookup_stale).
      split; [done|].
      unfold checkBinaryHealth. rewrite Hstale, Hproc', Hpid.
      destruct (alive env3); simpl; [|done].
      unfold count. simpl. rewrite List.filter_app, length_app. simpl.
      destruct (negb _ && _); done.
  - intros Hdead Hlater.
    pose proof (cache_lookup_miss_later CONFIG _ _ st Hmiss Hlater) as Hmiss2.
    assert (Hfirst : first.1.1 = empty_health /\ first.1.2 = st /\
                     count is_scan first.2 = 0 /\
                     count is_probe first.2 = (if with_pid then 1 else 0)).
    { subst first with_pid. unfold checkBinaryHealth. rewrite Hmiss.
      destruct (process st) as [child|]; [|done].
      destruct (truthy_pid child) as [p|]; [|done].
      destruct (alive env1); [done|]. done. }
    destruct Hfirst as (Hm & Hst & Hscan & Hprobe).
    cbv zeta. rewrite Hst. split_and!; try done.
    subst with_pid. unfold checkBinaryHealth. rewrite Hmiss2.
    destruct (process st) as [child|]; [|done].
    destruct (truthy_pid child) as [p|]; [|done].
    destruct (alive env2); simpl; [|done].
    unfold count. simpl. rewrite List.filter_app, length_app. simpl.
    destruct (negb _ && _); done.
Qed.

(** An instance of C3: the child of [started_state] is running; the host
    asks at 7000 ms and again at 7300 ms. *)
Lemma cached_evaluation_is_served_witness :
  let env t := {| now_check := t; alive := true; now_grace := t;
                  now_store := t; duration := 1; heapUsed := 0 |} in
  let first := checkBinaryHealth default_config (env 7000%Z) started_state in
  checkBinaryHealth default_config (env 7300%Z) first.1.2
  = (first.1.1, first.1.2, []).
Proof.
  intros env first.
  destruct (cached_evaluation_is_served default_config (env 7000%Z)
              (env 7300%Z) started_state) as [Hserved _].
  - vm_compute. reflexivity.
  - simpl. lia.
  - destruct (Hserved {| cid := 0; pid := Some 4242%Z |} 4242%Z)
      as (_ & Hsame & _).
    + vm_compute. reflexivity.
    + reflexivity.
    + reflexivity.
    + simpl. lia.
    + apply Hsame. reflexivity.
Defined.

(** The other half of C3 on an instance: the child of [started_state] no
    longer answers the probe; the host asks at 7000 ms and at 7001 ms, and
    each evaluation probes. *)
Example dead_child_is_probed_again :
  let env t := {| now_check := t; alive := false; now_grace := t;
                  now_store := t; duration := 1; heapUsed := 0 |} in
  let first := checkBinaryHealth default_config (env 7000%Z) started_state in
  let second := checkBinaryHealth default_config (env 7001%Z) first.1.2 in
  first.1.2 = started_state /\
  first.2 = [Probe 4242; Log Warn "Binary process is not running"] /\
  second.2 = [Probe 4242; Log Warn "Binary process is not running"].
Proof. vm_compute. by split_and!. Qed.

(** ** Facts on [stop] *)

Section StopFacts.
Variable CONFIG : Config.
Variable env : StopEnv.
Variable child : ChildProcess.

(** The loop ends: its clock gains at least 100 ms per round. *)
Lemma poll_shutdown_enough_fuel (fuel i : nat) (elapsed : Z) :
  1 <= fuel ->
  (SHUTDOWN_TIMEOUT CONFIG - elapsed <= 100 * (Z.of_nat fuel - 1))%Z ->
  exists r, poll_shutdown CONFIG env child fuel i elapsed = Some r.
Proof.
  revert i elapsed.
  induction fuel as [|fuel IH]; intros i elapsed Hfuel Hleft; [lia|].
  cbn [poll_shutdown].
  destruct (elapsed <? SHUTDOWN_TIMEOUT CONFIG)%Z eqn:Hlt; [|by eexists].
  apply Z.ltb_lt in Hlt.
  destruct (truthy_pid child) as [p|]; [|by eexists].
  destruct (alive_at env i); [|by eexists].
  destruct (IH (S i) (elapsed + 100 + Z.of_nat (overrun env i))%Z) as [[o eff] Hr];
    [lia | lia |].
  rewrite Hr. by eexists.
Qed.

Lemma poll_shutdown_total :
  exists r, poll_shutdown CONFIG env child (poll_fuel CONFIG) 0 0 = Some r.
Proof.
  apply poll_shutdown_enough_fuel; unfold poll_fuel; [lia|].
  pose proof (Z.div_mod (SHUTDOWN_TIMEOUT CONFIG) 100 ltac:(lia)) as Hdm.
  pose proof (Z.mod_pos_bound (SHUTDOWN_TIMEOUT CONFIG) 100 ltac:(lia)) as Hmod.
  destruct (Z.le_gt_cases 0 (SHUTDOWN_TIMEOUT CONFIG / 100)) as [Hpos|Hneg]; lia.
Qed.

(** What the loop does, from its [i]-th round on: it probes and sleeps
    100 ms in turn; a probe in round [j] means that 100 j ms were still
    within the timeout; it times out only after probes that all found the
    child alive, and completes on the first probe that finds it gone. *)
Lemma poll_shutdown_spec (p : Z) (fuel i : nat) (elapsed : Z)
    (outcome : poll_outcome) (eff : list effect) :
  truthy_pid child = Some p ->
  (100 * Z.of_nat i <= elapsed)%Z ->
  poll_shutdown CONFIG env child fuel i elapsed = Some (outcome, eff) ->
  let n := count is_probe eff in
  (forall e, e ∈ eff -> e = Probe p \/ e = Sleep 100) /\
  (n = 0 \/ (100 * Z.of_nat (i + n - 1) < SHUTDOWN_TIMEOUT CONFIG)%Z) /\
  (outcome = TimedOut ->
     count is_sleep eff = n /\
     forall j, i <= j < i + n -> alive_at env j = true) /\
  (outcome = ShutdownComplete ->
     1 <= n /\ count is_sleep eff = n - 1 /\
     alive_at env (i + n - 1) = false /\
     forall j, i <= j < i + n - 1 -> alive_at env j = true).
Proof.
  intros Hpid. revert i elapsed outcome eff.
  induction fuel as [|fuel IH]; intros i elapsed outcome eff Hclock Hrun;
    [discriminate|].
  cbn [poll_shutdown] in Hrun. rewrite Hpid in Hrun.
  destruct (elapsed <? SHUTDOWN_TIMEOUT CONFIG)%Z eqn:Hlt.
  - apply Z.ltb_lt in Hlt.
    destruct (alive_at env i) eqn:Halive.
    + destruct (poll_shutdown CONFIG env child fuel (S i) _) as [[o eff']|] eqn:Hrec;
        [|discriminate].
      injection Hrun as <- <-.
      apply IH in Hrec as (Honly & Hbound & Htimed & Hdone); [|lia].
      cbv zeta. unfold count in *. cbn [List.filter is_probe is_sleep length].
      set (n := length (List.filter is_probe eff')) in *.
      split; [|split; [|split]].
      * intros e He. apply elem_of_cons in He as [->|He]; [by left|].
        apply elem_of_cons in He as [->|He]; [by right|]. by apply Honly.
      * right. destruct Hbound as [Hz|Hb].
        -- rewrite Hz. replace (i + 1 - 1) with i by lia. lia.
        -- replace (i + S n - 1) with (S i + n - 1) by lia. done.
      * intros Ho. destruct (Htimed Ho) as [Hs Hall]. split; [by rewrite Hs|].
        intros j Hj. destruct (decide (j = i)) as [->|Hne]; [done|].
        apply Hall. lia.
      * intros Ho. destruct (Hdone Ho) as (Hn & Hs & Hlast & Hall).
        split; [lia|]. split; [rewrite Hs; lia|]. split.
        -- replace (i + S n - 1) with (S i + n - 1) by lia. done.
        -- intros j Hj. destruct (decide (j = i)) as [->|Hne]; [done|].
           apply Hall. lia.
    + injection Hrun as <- <-. cbv zeta. unfold count. simpl.
      split; [|split; [|split]].
      * intros e He. apply list_elem_of_singleton in He. by left.
      * right. replace (i + 1 - 1) with i by lia. lia.
      * discriminate.
      * intros _. replace (i + 1 - 1) with i by lia.
        split; [lia|]. split; [done|]. split; [done|]. intros j Hj. lia.
  - injection Hrun as <- <-. cbv zeta. unfold count. simpl.
    split; [|split; [|split]].
    + intros e He. by apply elem_of_nil in He.
    + by left.
    + intros _. split; [done|]. intros j Hj. lia.
    + discriminate.
Qed.

(** Without a pid nothing is probed and nothing is killed by force. *)
Lemma poll_shutdown_no_pid (fuel i : nat) (elapsed : Z)
    (outcome : poll_outcome) (eff : list effect) :
  truthy_pid child = None ->
  poll_shutdown CONFIG env child fuel i elapsed = Some (outcome, eff) ->
  eff = [] /\ force_kill outcome child = [].
Proof.
  intros Hpid Hrun. destruct fuel as [|fuel]; [discriminate|].
  cbn [poll_shutdown] in Hrun. rewrite Hpid in Hrun.
  unfold force_kill. rewrite Hpid.
  destruct (elapsed <? SHUTDOWN_TIMEOUT CONFIG)%Z; by injection Hrun as <- <-.
Qed.

End StopFacts.

(** The same call, evaluated: 98 probes 103 ms apart, then SIGKILL. *)
Example stop_ignoring_child :
  let env := {| alive_at := fun _ => true; overrun := fun _ => 3;
                unlink_ok := false |} in
  match stop default_config (Some "/app/binary-wrapper.sh") env started_state with
  | Some (st, eff) =>
      count is_probe eff = 98 /\
      List.filter is_kill eff = [Kill 0 SIGTERM; Kill 0 SIGKILL] /\
      process st = None
  | None => False
  end.
Proof. vm_compute. repeat split; reflexivity. Qed.

(** A child that dies between the second and the third probe is not
    killed by force. *)
Example stop_obedient_child :
  let env := {| alive_at := fun i => i <? 2; overrun := fun _ => 0;
                unlink_ok := true |} in
  match stop default_config None env started_state with
  | Some (st, eff) =>
      eff = [Log Info "Stopping binary service"; Kill 0 SIGTERM;
             Log Info "Sent SIGTERM to binary process";
             Probe 4242; Sleep 100; Probe 4242; Sleep 100; Probe 4242;
             Log Info "Binary service stopped successfully"] /\
      isHealthy st = false /\ healthCache st = None
  | None => False
  end.
Proof. vm_compute. repeat split; reflexivity. Qed.

(** ** Facts on the supervisor *)

Lemma count_app {A : Type} (p : A -> bool) (l1 l2 : list A) :
  count p (l1 ++ l2) = count p l1 + count p l2.
Proof. unfold count. by rewrite List.filter_app, length_app. Qed.

Lemma count_cons {A : Type} (p : A -> bool) (x : A) (l : list A) :
  count p (x :: l) = b2n (p x) + count p l.
Proof. unfold count. simpl. by destruct (p x). Qed.

Lemma count_nil {A : Type} (p : A -> bool) : count p [] = 0.
Proof. done. Qed.

Lemma count_none {A : Type} (p : A -> bool) (l : list A) :
  (forall x, x ∈ l -> p x = false) -> count p l = 0.
Proof.
  induction l as [|x l IH]; intros Hall; [done|].
  rewrite count_cons, (Hall x) by left. simpl.
  apply IH. intros y Hy. apply Hall. by right.
Qed.

(** Overwriting one slot changes a count by what the slot contributed. *)
Lemma count_insert {A : Type} (p : A -> bool) (l : list A) (i : nat) (x y : A) :
  l !! i = Some x ->
  count p (<[ i := y ]> l) + b2n (p x) = count p l + b2n (p y).
Proof.
  revert i. induction l as [|z l IH]; intros i Hi; [done|].
  destruct i as [|i]; simpl in *.
  - injection Hi as ->. rewrite !count_cons. lia.
  - rewrite !count_cons. specialize (IH i Hi). lia.
Qed.

Section SupervisorFacts.
Variable CONFIG : Config.

Lemma startBinaryProcess_effects (binaryPath : string) (useWrapper : bool)
    (sp : SpawnEnv) (fresh : nat) :
  let r := startBinaryProcess CONFIG binaryPath useWrapper sp fresh in
  count is_restart_attempt r.2 = 0 /\
  count is_spawn r.2 = match r.1 with Some _ => 1 | None => 0 end /\
  (forall c, r.1 = Some c -> cid c = fresh).
Proof.
  unfold startBinaryProcess.
  destruct useWrapper; simpl.
  - split_and!; try done. by intros c [= <-].
  - destruct (keyExit sp) as [[| |]|]; simpl; split_and!; try done.
    by intros c [= <-].
Qed.

Lemma checkBinaryHealth_effects (env : HealthEnv) (st : ProcessState) :
  let r := checkBinaryHealth CONFIG env st in
  count is_restart_attempt r.2 = 0 /\ count is_spawn r.2 = 0 /\
  restartCount r.1.2 = restartCount st.
Proof.
  unfold checkBinaryHealth.
  destruct (cache_lookup _ _ _); [done|].
  destruct (process st) as [child|]; [|done].
  destruct (truthy_pid child); [|done].
  destruct (negb (alive env)); [done|].
  simpl. destruct (Number.gtb _ _); simpl; [done|].
  destruct (Z.gtb _ _); done.
Qed.

Lemma poll_shutdown_effects (env : StopEnv) (child : ChildProcess)
    (fuel i : nat) (elapsed : Z) (o : poll_outcome) (eff : list effect) :
  poll_shutdown CONFIG env child fuel i elapsed = Some (o, eff) ->
  count is_restart_attempt eff = 0 /\ count is_spawn eff = 0.
Proof.
  revert i elapsed o eff.
  induction fuel as [|fuel IH]; intros i elapsed o eff Hrun; [discriminate|].
  cbn [poll_shutdown] in Hrun.
  destruct (elapsed <? _)%Z; [|by injection Hrun as <- <-].
  destruct (truthy_pid child); [|by injection Hrun as <- <-].
  destruct (alive_at env i); [|by injection Hrun as <- <-].
  destruct (poll_shutdown CONFIG env child fuel (S i) _) as [[o' eff']|] eqn:Hrec;
    [|discriminate].
  injection Hrun as <- <-. rewrite !count_cons. simpl.
  by apply IH in Hrec.
Qed.

Lemma stop_effects (wrapper : option string) (env : StopEnv)
    (st st' : ProcessState) (eff : list effect) :
  stop CONFIG wrapper env st = Some (st', eff) ->
  count is_restart_attempt eff = 0 /\ count is_spawn eff = 0 /\
  restartCount st' = restartCount st.
Proof.
  unfold stop. destruct (process st) as [child|]; [|by intros [= <- <-]].
  destruct (poll_shutdown _ _ _ _ _ _) as [[o polled]|] eqn:Hpoll; [|done].
  intros [= <- <-].
  apply poll_shutdown_effects in Hpoll as [Hp1 Hp2].
  assert (Hf : count is_restart_attempt (force_kill o child) = 0 /\
               count is_spawn (force_kill o child) = 0).
  { unfold force_kill. by destruct o, (truthy_pid child). }
  assert (Hc : count is_restart_attempt (cleanup_wrapper CONFIG wrapper env) = 0 /\
               count is_spawn (cleanup_wrapper CONFIG wrapper env) = 0).
  { unfold cleanup_wrapper. destruct wrapper as [path|]; [|done].
    destruct (String.eqb _ _); [done|]. by destruct (unlink_ok env). }
  destruct Hf as [Hf1 Hf2], Hc as [Hc1 Hc2].
  rewrite !count_cons, !count_app, Hp1, Hp2, Hf1, Hf2, Hc1, Hc2. done.
Qed.

(** The exit handler: one more restart attempt, one more on the counter,
    exactly when the counter is below the maximum. *)
Lemma on_exit_counts (now : Z) (random : Q) (st : ProcessState) :
  let r := on_exit CONFIG now random st in
  count is_spawn r.2 = 0 /\
  ((restartCount st < MAX_RESTART_ATTEMPTS CONFIG)%Z ->
     restartCount r.1 = (restartCount st + 1)%Z /\
     count is_restart_attempt r.2 = 1 /\
     existsb is_restart_attempt r.2 = true) /\
  ((MAX_RESTART_ATTEMPTS CONFIG <= restartCount st)%Z ->
     restartCount r.1 = restartCount st /\
     count is_restart_attempt r.2 = 0 /\
     existsb is_restart_attempt r.2 = false).
Proof.
  unfold on_exit. simpl.
  destruct (restartCount st <? MAX_RESTART_ATTEMPTS CONFIG)%Z eqn:Hlt.
  - apply Z.ltb_lt in Hlt. simpl. split_and!; try done. lia.
  - apply Z.ltb_ge in Hlt. simpl. split_and!; try done. lia.
Qed.

End SupervisorFacts.

Ltac count_simpl :=
  repeat first [rewrite count_cons | rewrite count_app | rewrite count_nil].

Section Accounting.
Variable CONFIG : Config.

Lemma accounted_unchanged (sys : System) (st : ProcessState) (eff : list effect) :
  (0 <= restartCount (state sys))%Z ->
  restartCount st = restartCount (state sys) ->
  count is_restart_attempt eff = 0 -> count is_spawn eff = 0 ->
  accounted CONFIG 0 sys (with_state st sys, eff).
Proof.
  intros Hrc Hsame Ha Hs. unfold accounted, live_observers, pending_timers.
  simpl. rewrite Hsame, Ha, Hs. lia.
Qed.

Lemma accounted_noop (sys : System) :
  (0 <= restartCount (state sys))%Z -> accounted CONFIG 0 sys (sys, []).
Proof. intros Hrc. unfold accounted. simpl. lia. Qed.

Lemma start_accounted (envAutoKey : bool) (now : Z) (sp : SpawnEnv) (sys : System) :
  (0 <= restartCount (state sys))%Z ->
  accounted CONFIG 1 sys (start CONFIG envAutoKey now sp sys).
Proof.
  intros Hrc. unfold start.
  set (useWrapper := AUTO_KEY_INJECTION CONFIG || envAutoKey).
  set (binaryPath := match binaryWrapperPath sys with
                     | Some w => if useWrapper then w else BINARY_PATH CONFIG
                     | None => BINARY_PATH CONFIG end).
  pose proof (startBinaryProcess_effects CONFIG binaryPath useWrapper sp
                (length (children sys))) as (Ha & Hs & _).
  cbv zeta in Ha, Hs.
  destruct (startBinaryProcess CONFIG binaryPath useWrapper sp _) as [[child|] eff];
    simpl in Ha, Hs.
  - destruct (truthy_pid child);
      unfold accounted, live_observers, pending_timers; simpl;
      count_simpl; rewrite Ha, Hs; simpl; lia.
  - unfold accounted, live_observers, pending_timers; simpl.
    count_simpl. rewrite Ha, Hs. simpl. lia.
Qed.

Lemma child_exit_accounted (child : nat) (now : Z) (random : Q) (sys : System) :
  (0 <= restartCount (state sys))%Z ->
  accounted CONFIG 0 sys (child_exit CONFIG child now random sys).
Proof.
  intros Hrc. unfold child_exit.
  destruct (children sys !! child) as [info|] eqn:Hlook;
    [|by apply accounted_noop].
  destruct (exited info) eqn:Hex; [by apply accounted_noop|].
  pose proof (count_insert is_live_observer _ _ _ (mark_exited info) Hlook) as Hlive.
  pose proof (count_insert has_observer _ _ _ (mark_exited info) Hlook) as Hobs.
  assert (Hdead : is_live_observer (mark_exited info) = false).
  { unfold is_live_observer. simpl. apply andb_false_r. }
  assert (Hwas : is_live_observer info = has_observer info).
  { unfold is_live_observer. rewrite Hex. apply andb_true_r. }
  assert (Hsame : has_observer (mark_exited info) = has_observer info) by done.
  rewrite Hdead, Hwas in Hlive. rewrite Hsame in Hobs.
  unfold has_observer in Hlive.
  destruct (exitObserver info) as [closure|] eqn:Hobserver; simpl in Hlive.
  - pose proof (on_exit_counts CONFIG now random (state sys)) as (Hs & Hbelow & Hat).
    cbv zeta in Hs, Hbelow, Hat.
    destruct (on_exit CONFIG now random (state sys)) as [st eff].
    simpl in Hs, Hbelow, Hat.
    destruct (Z.lt_ge_cases (restartCount (state sys)) (MAX_RESTART_ATTEMPTS CONFIG))
      as [Hlt|Hge].
    + destruct (Hbelow Hlt) as (Hcount & Hone & Hsched).
      unfold accounted, live_observers, pending_timers. simpl.
      rewrite Hsched, Hcount, Hone, Hs. count_simpl. simpl. lia.
    + destruct (Hat Hge) as (Hcount & Hnone & Hsched).
      unfold accounted, live_observers, pending_timers. simpl.
      rewrite Hsched, Hcount, Hnone, Hs. lia.
  - unfold accounted, live_observers, pending_timers. simpl. lia.
Qed.

Lemma timer_fires_accounted (timer : nat) (sp : SpawnEnv) (now : Z) (sys : System) :
  (0 <= restartCount (state sys))%Z ->
  accounted CONFIG 0 sys (timer_fires CONFIG timer sp now sys).
Proof.
  intros Hrc. unfold timer_fires.
  destruct (timers sys !! timer) as [[closure|]|] eqn:Hlook;
    [|by apply accounted_noop..].
  pose proof (count_insert is_pending _ _ _ None Hlook) as Hpend.
  simpl in Hpend.
  unfold on_restart_timer.
  pose proof (startBinaryProcess_effects CONFIG (captured_binaryPath closure)
                (captured_useWrapper closure) sp (length (children sys)))
    as (Ha & Hs & _).
  cbv zeta in Ha, Hs.
  destruct (startBinaryProcess CONFIG _ _ sp _) as [[child|] eff];
    simpl in Ha, Hs;
    unfold accounted, live_observers, pending_timers; simpl;
    count_simpl; rewrite ?Ha, ?Hs; simpl; lia.
Qed.

Lemma accounted_frame (sys : System) (r : System * list effect) :
  (0 <= restartCount (state sys))%Z ->
  restartCount (state r.1) = restartCount (state sys) ->
  children r.1 = children sys -> timers r.1 = timers sys ->
  count is_restart_attempt r.2 = 0 -> count is_spawn r.2 = 0 ->
  accounted CONFIG 0 sys r.
Proof.
  intros Hrc Hsame Hk Ht Ha Hs. unfold accounted, live_observers, pending_timers.
  rewrite Hsame, Hk, Ht, Ha, Hs. lia.
Qed.

(** The stretches of [stop] spawn nothing and set no timer. *)
Lemma stretch_effect_counts (w : option string) (eff : list effect) :
  Forall (stretch_effect CONFIG w) eff ->
  count is_restart_attempt eff = 0 /\ count is_spawn eff = 0.
Proof.
  intros Hall. split; apply count_none; intros e He;
    apply (proj1 (Forall_forall _ _) Hall) in He; by destruct e.
Qed.

(** Every event keeps the books. *)
Lemma step_accounted (sys : System) (ev : event) :
  (0 <= restartCount (state sys))%Z ->
  accounted CONFIG (b2n (is_start ev)) sys (step CONFIG sys ev).
Proof.
  intros Hrc.
  assert (Hstretch := stop_stretch_frame CONFIG sys ev).
  destruct ev as [ok ne w | k now sp | env | env | env | t0 now alive
                  | call now alive | call ok | c line d
                  | c line | c now random | t sp now];
    try (destruct (Hstretch I) as (Hst & _ & Hk & Ht & _ & Heff);
         apply stretch_effect_counts in Heff as [Ha Hs];
         apply accounted_frame; try done;
         by destruct Hst as [-> | ->]);
    clear Hstretch; simpl.
  - unfold installSecrets. destruct ok.
    + unfold accounted, live_observers, pending_timers. simpl.
      count_simpl. destruct ne, w; simpl; lia.
    + unfold accounted, live_observers, pending_timers. simpl.
      count_simpl. simpl. lia.
  - by apply start_accounted.
  - destruct (startups sys) as [|n]; [by apply accounted_noop|].
    unfold initial_health_check.
    pose proof (checkBinaryHealth_effects CONFIG env (state sys)) as (Ha & Hs & Hsame).
    cbv zeta in Ha, Hs, Hsame.
    destruct (checkBinaryHealth CONFIG env (state sys)) as [[m st] eff].
    simpl in Ha, Hs, Hsame.
    unfold accounted, live_observers, pending_timers. simpl.
    count_simpl. rewrite Ha, Hs, Hsame. simpl. lia.
  - unfold health.
    pose proof (checkBinaryHealth_effects CONFIG env (state sys)) as (Ha & Hs & Hsame).
    cbv zeta in Ha, Hs, Hsame.
    destruct (checkBinaryHealth CONFIG env (state sys)) as [[m st] eff].
    simpl in Ha, Hs, Hsame.
    apply accounted_unchanged; simpl; try done;
      count_simpl; simpl; lia.
  - destruct (stop CONFIG _ env (state sys)) as [[st eff]|] eqn:Hstop;
      [|by apply accounted_noop].
    apply stop_effects in Hstop as (Ha & Hs & Hsame).
    by apply accounted_unchanged.
  - destruct (is_monitored c sys); [|by apply accounted_noop].
    unfold on_stdout_line. by apply accounted_unchanged.
  - destruct (is_monitored c sys); [|by apply accounted_noop].
    unfold on_stderr_line. apply accounted_unchanged; simpl; try done;
      destruct (invalid_secret line); done.
  - by apply child_exit_accounted.
  - by apply timer_fires_accounted.
Qed.

(** So does every run. *)
Lemma run_accounted (evs : list event) (sys : System) :
  (0 <= restartCount (state sys))%Z ->
  accounted CONFIG (count is_start evs) sys (run_events CONFIG sys evs).
Proof.
  revert sys. induction evs as [|ev evs IH]; intros sys Hrc.
  - by apply accounted_noop.
  - cbn [run_events].
    pose proof (step_accounted sys ev Hrc) as Hstep.
    destruct (step CONFIG sys ev) as [sys1 eff1].
    assert (Hrc1 : (0 <= restartCount (state sys1))%Z) by apply Hstep.
    specialize (IH sys1 Hrc1).
    destruct (run_events CONFIG sys1 evs) as [sys2 eff2].
    unfold accounted in *. simpl in *.
    count_simpl.
    destruct Hstep as (_ & H1 & H2 & H3 & H4 & H5).
    destruct IH as (I0 & I1 & I2 & I3 & I4 & I5).
    split_and!; try lia.
Qed.

End Accounting.

(** [start] sets the restart counter to zero. *)
Lemma start_resets_restartCount (CONFIG : Config) (envAutoKey : bool) (now : Z)
    (sp : SpawnEnv) (sys : System) :
  restartCount (state (start CONFIG envAutoKey now sp sys).1) = 0%Z.
Proof.
  unfold start.
  destruct (startBinaryProcess CONFIG _ _ sp _) as [[child|] eff]; [|done].
  by destruct (truthy_pid child).
Qed.

(** In every run the restart counter stays between zero and the configured
    maximum (zero when the maximum is negative). *)
Lemma restartCount_bounded (CONFIG : Config) (evs : list event) :
  let rc := restartCount (state (run_events CONFIG (initial_system CONFIG) evs).1) in
  (0 <= rc <= Z.max 0 (MAX_RESTART_ATTEMPTS CONFIG))%Z.
Proof.
  cbv zeta.
  pose proof (run_accounted CONFIG evs (initial_system CONFIG) ltac:(done))
    as (H0 & H1 & _).
  split; [done|]. apply H1. simpl. lia.
Qed.

(** The restart timer creates the new child with the line readers attached
    and without an ['exit'] listener, and makes it the current child. *)
Lemma timer_fires_child (CONFIG : Config) (timer : nat) (sp : SpawnEnv) (now : Z)
    (sys : System) :
  let r := timer_fires CONFIG timer sp now sys in
  children r.1 = children sys \/
  exists c : ChildProcess,
    children r.1
    = children sys ++ [{| handle := c; exitObserver := None;
                          monitored := true; exited := false |}] /\
    process (state r.1) = Some c /\
    count is_spawn r.2 = 1.
Proof.
  cbv zeta. unfold timer_fires.
  destruct (timers sys !! timer) as [[closure|]|]; [|by left..].
  unfold on_restart_timer.
  pose proof (startBinaryProcess_effects CONFIG (captured_binaryPath closure)
                (captured_useWrapper closure) sp (length (children sys)))
    as (_ & Hs & _).
  cbv zeta in Hs.
  destruct (startBinaryProcess CONFIG _ _ sp _) as [[child|] eff]; simpl in *.
  - right. by exists child.
  - by left.
Qed.

(** After a single [start] the counter never reaches a maximum of two or
    more: the branch of the exit handler that reports the terminal
    condition is out of reach. *)
Lemma restartCount_below_max (CONFIG : Config) (evs : list event) :
  count is_start evs <= 1 -> (2 <= MAX_RESTART_ATTEMPTS CONFIG)%Z ->
  (restartCount (state (run_events CONFIG (initial_system CONFIG) evs).1)
   < MAX_RESTART_ATTEMPTS CONFIG)%Z.
Proof.
  intros Hstarts Hmax.
  pose proof (run_accounted CONFIG evs (initial_system CONFIG) ltac:(done))
    as (_ & _ & _ & H3 & _).
  unfold live_observers in H3. simpl in H3. rewrite count_nil in H3. lia.
Qed.

(** Each call of [start] brings its own observed child: after two calls
    without a [stop] the two exits are both counted. *)
Example two_starts_two_restarts :
  let sp := {| keyExit := Some 0%Z; newPid := Some 4242%Z |} in
  let evs := [Start false 1000 sp; Start false 2000 sp;
              ChildExit 0 9000 (1 # 2); ChildExit 1 9500 (1 # 2)] in
  restartCount
    (state (run_events default_config (initial_system default_config) evs).1)
  = 2%Z.
Proof. reflexivity. Qed.

(** C1. The claim: after exactly [maxRestartAttempts] consecutive
    unexpected exits no further spawn is attempted and the restart counter
    equals [maxRestartAttempts]; the counter is reset on [start], grows by
    one per restart attempt and never exceeds the maximum. The code resets
    and bounds the counter ([start_resets_restartCount], [on_exit_counts],
    [restartCount_bounded]) but gives up after the first restart: with the
    default maximum of 3, the child started by [start] exits, the timer
    respawns it, and the exits of the respawned child, which has no exit
    handler, change nothing. The counter stays at 1, one restart was
    attempted, two children were spawned, no timer is pending and the
    terminal condition was never logged. *)
Theorem restart_stops_after_first_respawn :
  let sp := {| keyExit := Some 0%Z; newPid := Some 4242%Z |} in
  let evs := [Start false 1000 sp;
              ChildExit 0 9000 (1 # 2);
              TimerFires 0 sp 11300;
              ChildExit 1 15000 (1 # 2);
              TimerFires 1 sp 20000;
              ChildExit 2 25000 (1 # 2)] in
  let r := run_events default_config (initial_system default_config) evs in
  MAX_RESTART_ATTEMPTS default_config = 3%Z /\
  restartCount (state r.1) = 1%Z /\
  count is_restart_attempt r.2 = 1 /\
  List.filter is_spawn r.2 = [Spawn 0 "/app/binary"; Spawn 1 "/app/binary"] /\
  pending_timers r.1 = 0 /\
  (exited <$> children r.1) = [true; true] /\
  (has_observer <$> children r.1) = [true; false] /\
  existsb
    (fun e => match e with
              | Log Error "Maximum restart attempts reached. Manual intervention required."
                  => true
              | _ => false
              end) r.2 = false.
Proof. vm_compute. repeat split; reflexivity. Qed.

(** C2 as stated does not hold for every execution: the observer that an
    earlier [start] registered outlives [stop] and the next [start]. Here
    the first child ignores SIGTERM, [stop] kills it by force and returns,
    the host calls [start] again, and only then are the exits of the two
    children notified: the counter, reset by the second [start], reaches 2
    with no [start] in between. *)
Lemma late_exit_counts_after_next_start :
  let sp := {| keyExit := Some 0%Z; newPid := Some 4242%Z |} in
  let env := {| alive_at := fun _ => true; overrun := fun _ => 0;
                unlink_ok := true |} in
  let before := [Start false 1000 sp; Stop env] in
  let after := [ChildExit 0 12100 (1 # 2); ChildExit 1 20000 (1 # 2)] in
  let r := run_events default_config (initial_system default_config)
             (before ++ Start false 12000 sp :: after) in
  count is_start after = 0 /\
  restartCount (state r.1) = 2%Z /\
  count is_restart_attempt r.2 = 2.
Proof. vm_compute. repeat split; reflexivity. Qed.

(** C2, amended. Only [start] registers an exit observer: the child that
    the restart timer spawns gets log monitoring and no observer. Hence, in
    every run from the initial state, there are at most as many restart
    attempts as calls of [start], at most as many children with an
    observer, at most twice as many spawns of the binary, and the restart
    counter is at most the number of calls; in a run with a single
    [start], the counter never exceeds 1 and at most one restart is ever
    attempted. *)
Theorem restart_only_once_per_start (CONFIG : Config) (evs : list event) :
  let r := run_events CONFIG (initial_system CONFIG) evs in
  let starts := count is_start evs in
  count is_restart_attempt r.2 <= starts /\
  count has_observer (children r.1) <= starts /\
  count is_spawn r.2 <= 2 * starts /\
  (0 <= restartCount (state r.1) <= Z.of_nat starts)%Z /\
  (starts <= 1 ->
     (restartCount (state r.1) <= 1)%Z /\ count is_restart_attempt r.2 <= 1) /\
  (forall sys timer sp now,
     let r' := timer_fires CONFIG timer sp now sys in
     children r'.1 = children sys \/
     exists c : ChildProcess,
       children r'.1
       = children sys ++ [{| handle := c; exitObserver := None;
                             monitored := true; exited := false |}] /\
       process (state r'.1) = Some c /\
       count is_spawn r'.2 = 1).
Proof.
  cbv zeta.
  pose proof (run_accounted CONFIG evs (initial_system CONFIG) ltac:(done))
    as (H0 & _ & H2 & H3 & H4 & H5).
  unfold live_observers, pending_timers in *. simpl in *.
  rewrite ?count_nil in *.
  split_and!; try lia.
  intros sys timer sp now. apply timer_fires_child.
Qed.

(** An instance of C2: after a single [start], however often the children
    exit and the timers fire, the counter is at most 1. *)
Lemma restart_only_once_per_start_witness :
  let sp := {| keyExit := Some 0%Z; newPid := Some 4242%Z |} in
  let evs := [Start false 1000 sp; ChildExit 0 9000 (1 # 2);
              TimerFires 0 sp 11300; ChildExit 1 15000 (1 # 2)] in
  (restartCount
     (state (run_events default_config (initial_system default_config) evs).1)
   <= 1)%Z.
Proof.
  cbv zeta.
  destruct (restart_only_once_per_start default_config
           [Start false 1000 {| keyExit := Some 0%Z; newPid := Some 4242%Z |};
            ChildExit 0 9000 (1 # 2);
            TimerFires 0 {| keyExit := Some 0%Z; newPid := Some 4242%Z |} 11300;
            ChildExit 1 15000 (1 # 2)])
    as (_ & _ & _ & _ & Hsingle & _).
  cbv zeta in Hsingle.
  apply Hsingle. unfold count. simpl. lia.
Defined.

(** * Further properties of the code *)

(** ** The regular-expression matcher is sound *)

Lemma run_sound (r : regex) :
  forall (s : list ascii) (cap : captures)
         (k : list ascii -> captures -> option captures) (res : captures),
    Regex.run r s cap k = Some res ->
    exists u s' cap', s = u ++ s' /\ Matches r u cap cap' /\ k s' cap' = Some res.
Proof.
  induction r as [| ch | p | r1 IH1 r2 IH2 | r1 IH1 r2 IH2 | r1 IH1 | r1 IH1];
    intros s cap k res Hrun; cbn [Regex.run] in Hrun.
  - exists [], s, cap. split_and!; [done | constructor | done].
  - destruct s as [|x s']; [discriminate|].
    destruct (same_char_i x ch) eqn:Hx; [|discriminate].
    exists [x], s', cap. split_and!; [done | by constructor | done].
  - destruct s as [|x s']; [discriminate|].
    destruct (p x) eqn:Hx; [|discriminate].
    exists [x], s', cap. split_and!; [done | by constructor | done].
  - apply IH1 in Hrun as (u1 & s1 & c1 & -> & Hm1 & Hrun).
    apply IH2 in Hrun as (u2 & s2 & c2 & -> & Hm2 & Hk).
    exists (u1 ++ u2), s2, c2.
    split_and!; [by rewrite app_assoc | by econstructor | done].
  - destruct (Regex.run r1 s cap k) as [res1|] eqn:H1.
    + injection Hrun as ->.
      apply IH1 in H1 as (u & s' & c' & -> & Hm & Hk).
      exists u, s', c'. split_and!; [done | by apply M_AltL | done].
    + apply IH2 in Hrun as (u & s' & c' & -> & Hm & Hk).
      exists u, s', c'. split_and!; [done | by apply M_AltR | done].
  - revert Hrun. generalize (length s) at 1. intros fuel.
    revert s cap. induction fuel as [|fuel IHf]; intros s cap Hrun.
    + exists [], s, cap. split_and!; [done | constructor | done].
    + match type of Hrun with
      | match ?e with _ => _ end = _ => destruct e as [res1|] eqn:H1
      end.
      * injection Hrun as ->.
        apply IH1 in H1 as (u & s' & c' & -> & Hm & Hloop).
        destruct (decide (length s' < length (u ++ s'))); [|discriminate].
        apply IHf in Hloop as (u2 & s2 & c2 & -> & Hm2 & Hk).
        exists (u ++ u2), s2, c2.
        split_and!; [by rewrite app_assoc | by econstructor | done].
      * exists [], s, cap. split_and!; [done | constructor | done].
  - apply IH1 in Hrun as (u & s' & c' & -> & Hm & Hk).
    rewrite length_app, Nat.add_sub, take_app_length in Hk.
    exists u, s', (Some u). split_and!; [done | by econstructor | done].
Qed.

(** A match found by [exec] is a match of some part of the line. *)
Lemma exec_chars_sound (r : regex) (s : list ascii) (c : captures) :
  Regex.exec_chars r s = Some c ->
  exists pre u post, s = pre ++ u ++ post /\ Matches r u None c.
Proof.
  induction s as [|x s IH]; cbn [Regex.exec_chars]; unfold Regex.match_here.
  - destruct (Regex.run r [] None _) as [c0|] eqn:Hrun; [|done].
    intros [= <-].
    apply run_sound in Hrun as (u & s' & c' & Hs & Hm & [= <-]).
    exists [], u, s'. by split.
  - destruct (Regex.run r (x :: s) None _) as [c0|] eqn:Hrun.
    + intros [= <-].
      apply run_sound in Hrun as (u & s' & c' & Hs & Hm & [= <-]).
      exists [], u, s'. by split.
    + intros Hrest. apply IH in Hrest as (pre & u & post & -> & Hm).
      exists (x :: pre), u, post. by split.
Qed.

Lemma Matches_groupless (r : regex) (u : list ascii) (c c' : captures) :
  Matches r u c c' -> groupless r = true -> c' = c.
Proof.
  induction 1 as [| | | r1 r2 u v c c1 c2 _ IH1 _ IH2 | r1 r2 u c c' _ IH
                  | r1 r2 u c c' _ IH | | r u v c c1 c2 _ IH1 _ IH2 | ];
    cbn [groupless]; intros Hg; try done.
  - apply andb_true_iff in Hg as [Hg1 Hg2]. rewrite IH2, IH1; done.
  - apply andb_true_iff in Hg as [Hg1 Hg2]. by apply IH.
  - apply andb_true_iff in Hg as [Hg1 Hg2]. by apply IH.
  - rewrite IH2, IH1; done.
Qed.

Lemma Matches_star_class (p : ascii -> bool) (u : list ascii) (c c' : captures) :
  Matches (Star (Class p)) u c c' -> Forall (fun x => p x = true) u.
Proof.
  intros Hm. remember (Star (Class p)) as r eqn:Hr.
  induction Hm as [| | | | | | | r u v c c1 c2 H1 _ _ IH2 | ]; try discriminate.
  - constructor.
  - injection Hr as ->. inversion H1; subst.
    constructor; [done | by apply IH2].
Qed.

Lemma Matches_plus_class (p : ascii -> bool) (u : list ascii) (c c' : captures) :
  Matches (Plus (Class p)) u c c' ->
  u <> [] /\ Forall (fun x => p x = true) u.
Proof.
  unfold Plus. intros Hm. inversion Hm as [| | | r1 r2 u1 u2 c0 c1 c2 H1 H2 | | | | |]; subst.
  inversion H1; subst. apply Matches_star_class in H2.
  split; [done | by constructor].
Qed.

Lemma lower_char_dot (x : ascii) : same_char_i x "." = true -> x = "."%char.
Proof.
  unfold same_char_i. intros H. apply bool_decide_eq_true in H.
  destruct x as [[] [] [] [] [] [] [] []]; vm_compute in H; congruence.
Qed.

(** The number group captures a text of the shape [\d+(?:\.\d+)?]. *)
Lemma Matches_number_group (u : list ascii) (c c' : captures) :
  Matches number_group u c c' -> c' = Some u /\ number_text u.
Proof.
  unfold number_group. intros Hm.
  inversion Hm as [| | | | | | | | r u0 c0 c1 Hin]; subst.
  split; [done|].
  inversion Hin as [| | | r1 r2 ds fr c0 c2 c3 Hds Hfr | | | | |]; subst.
  apply Matches_plus_class in Hds as [Hne Hall].
  exists ds, fr. split_and!; try done.
  unfold Opt in Hfr.
  inversion Hfr as [| | | | r1 r2 u0 c0 c4 Hdot | r1 r2 u0 c0 c4 Heps | | |]; subst.
  - right.
    inversion Hdot as [| | | r1 r2 d ds2 c0 c5 c6 Hd Hds2 | | | | |]; subst.
    inversion Hd; subst.
    match goal with H : same_char_i _ _ = true |- _ => apply lower_char_dot in H as -> end.
    apply Matches_plus_class in Hds2 as [Hne2 Hall2].
    by exists ds2.
  - left. by inversion Heps.
Qed.

Lemma Matches_ends_with_number (r : regex) (u : list ascii) (c c' : captures) :
  ends_with_number r -> Matches r u c c' ->
  exists w, c' = Some w /\ number_text w.
Proof.
  intros Hend. revert u c c'.
  induction Hend as [|r1 r2 Hg _ IH]; intros u c c' Hm;
    inversion Hm as [| | | ra rb u1 u2 c0 c1 c2 H1 H2 | | | | |]; subst.
  - apply Matches_number_group in H1 as [-> Hnum].
    apply Matches_groupless in H2 as ->; [|done].
    by exists u1.
  - by apply IH in H2.
Qed.

Lemma lit_chars_groupless (cs : list ascii) : groupless (lit_chars cs) = true.
Proof. induction cs as [|x cs IH]; [done | by simpl]. Qed.

Lemma UPTIME_PATTERNS_end_with_number :
  Forall ends_with_number UPTIME_PATTERNS.
Proof.
  unfold UPTIME_PATTERNS, lit.
  repeat constructor; apply lit_chars_groupless.
Qed.

(** ** What the uptime extractor can return *)

Lemma is_digit_value (c : ascii) :
  is_digit c = true -> exists d, Number.digit c = Some d /\ (0 <= d)%Z.
Proof.
  unfold is_digit, Number.digit.
  destruct ((48 <=? JSString.code c) && (JSString.code c <=? 57))%N eqn:Hc;
    [|discriminate].
  intros _. eexists; split; [reflexivity|].
  apply andb_true_iff in Hc as [Hlo _]. apply N.leb_le in Hlo. lia.
Qed.

Lemma is_digit_false (c : ascii) : is_digit c = false -> Number.digit c = None.
Proof. unfold is_digit. by destruct (Number.digit c). Qed.

(** [read_digits] reads a run of digits to its end. *)
Lemma read_digits_run (ds rest : list ascii) (acc : Z) (k : nat) :
  all_digits ds ->
  match rest with [] => True | x :: _ => is_digit x = false end ->
  exists acc',
    Number.read_digits acc k (ds ++ rest) = (acc', k + length ds, rest) /\
    ((0 <= acc)%Z -> (0 <= acc')%Z).
Proof.
  intros Hds Hrest. revert acc k.
  induction Hds as [|d ds Hd _ IH]; intros acc k.
  - exists acc. split; [|done]. rewrite Nat.add_0_r.
    destruct rest as [|x rest]; [done|].
    cbn [app Number.read_digits]. by rewrite (is_digit_false x Hrest).
  - apply is_digit_value in Hd as (v & Hv & Hpos).
    destruct (IH (10 * acc + v)%Z (S k)) as (acc' & Heq & Hnn).
    exists acc'. cbn [app Number.read_digits length]. rewrite Hv, Heq.
    split; [f_equal; f_equal; lia | lia].
Qed.

(** On the texts the patterns capture, [parseFloat] is a number that is
    not negative. *)
Lemma parseFloat_number_text (w : list ascii) :
  number_text w -> exists q, Number.parseFloat w = Num q /\ (0 <= q)%Q.
Proof.
  intros (ds & fr & -> & Hne & Hds & Hfr).
  assert (Hlen : exists n, length ds = S n).
  { destruct ds; [done | by eexists]. }
  destruct Hlen as [n Hn].
  unfold Number.parseFloat.
  destruct Hfr as [-> | (ds2 & -> & Hne2 & Hds2)].
  - destruct (read_digits_run ds [] 0 0 Hds I) as (ip & Heq & Hpos).
    rewrite Heq, Hn. simpl. exists (inject_Z ip). split; [done|].
    rewrite <- (Zle_Qle 0). lia.
  - destruct (read_digits_run ds ("."%char :: ds2) 0 0 Hds eq_refl)
      as (ip & Heq & Hpos).
    rewrite Heq, Hn. cbn [Nat.add].
    destruct (read_digits_run ds2 [] 0 0 Hds2 I) as (fp & Heq2 & Hpos2).
    rewrite app_nil_r in Heq2. rewrite Heq2.
    eexists. split; [reflexivity|].
    assert (H1 : (0 <= inject_Z ip)%Q) by (rewrite <- (Zle_Qle 0); lia).
    assert (H2 : (0 <= inject_Z fp)%Q) by (rewrite <- (Zle_Qle 0); lia).
    assert (H3 : (0 <= / inject_Z (10 ^ Z.of_nat (0 + length ds2)))%Q).
    { apply Qinv_le_0_compat. rewrite <- (Zle_Qle 0). apply Z.pow_nonneg. lia. }
    unfold Qdiv.
    pose proof (Qmult_le_0_compat _ _ H2 H3) as H4.
    lra.
Qed.

Lemma match_uptime_value (patterns : list regex) (line : string) (v : number) :
  Forall ends_with_number patterns ->
  match_uptime patterns line = Some v ->
  exists q, v = Num q /\ (0 <= q)%Q.
Proof.
  induction 1 as [|r rs Hr _ IH]; cbn [match_uptime]; [done|].
  destruct (Regex.exec r line) as [c|] eqn:Hexec; [|exact IH].
  unfold Regex.exec in Hexec.
  apply exec_chars_sound in Hexec as (pre & u & post & _ & Hm).
  apply (Matches_ends_with_number r) in Hm as (w & -> & Hw); [|done].
  intros [= <-]. by apply parseFloat_number_text.
Qed.

Lemma extractUptime_number (logs : CircularBuffer.t string) :
  exists q : Q, extractUptimeFromLogs logs = Num q /\ (0 <= q)%Q.
Proof.
  unfold extractUptimeFromLogs.
  induction (rev (CircularBuffer.getRecent 50 logs)) as [|line older IH];
    cbn [scan_newest_first].
  - exists 0%Q. split; [done | discriminate].
  - destruct (match_uptime UPTIME_PATTERNS line) as [v|] eqn:Hv; [|exact IH].
    eapply match_uptime_value; [apply UPTIME_PATTERNS_end_with_number | done].
Qed.

(** X1. Whatever the buffered lines are, the extracted uptime is a number
    (never [NaN]) that is not negative; so is the value that a matching
    line gives. *)
Theorem extractUptime_nonnegative (logs : CircularBuffer.t string) :
  (exists q : Q, extractUptimeFromLogs logs = Num q /\ (0 <= q)%Q) /\
  Forall (fun line => match_uptime UPTIME_PATTERNS line <> Some NaN)
         (CircularBuffer.getRecent 50 logs).
Proof.
  split; [apply extractUptime_number|].
  apply Forall_forall. intros line _ Hnan.
  apply (match_uptime_value _ _ _ UPTIME_PATTERNS_end_with_number) in Hnan
    as (q & Hq & _).
  discriminate.
Qed.

Lemma toLowerCase_chars (s : string) :
  String.list_ascii_of_string (JSString.toLowerCase s)
  = map JSString.lower_char (String.list_ascii_of_string s).
Proof. induction s as [|c s IH]; [done|]. simpl. by rewrite IH. Qed.

Lemma Matches_lit_chars (cs u : list ascii) (c c' : captures) :
  Matches (lit_chars cs) u c c' ->
  map JSString.lower_char u = map JSString.lower_char cs.
Proof.
  revert u c c'. induction cs as [|x cs IH]; intros u c c' Hm; cbn [lit_chars] in Hm.
  - by inversion Hm.
  - inversion Hm as [| | | r1 r2 u1 u2 c0 c1 c2 H1 H2 | | | | |]; subst.
    inversion H1 as [| y ch c0 Hy | | | | | | |]; subst.
    unfold same_char_i in Hy. apply bool_decide_eq_true in Hy.
    simpl. rewrite Hy. f_equal. by eapply IH.
Qed.

Lemma exec_lit_word (word : string) (r : regex) (line : string) (c : captures) :
  Regex.exec (Seq (lit word) r) line = Some c ->
  exists pre post,
    String.list_ascii_of_string (JSString.toLowerCase line)
    = pre ++ map JSString.lower_char (String.list_ascii_of_string word) ++ post.
Proof.
  unfold Regex.exec. intros Hexec.
  apply exec_chars_sound in Hexec as (pre & u & post & Hline & Hm).
  inversion Hm as [| | | r1 r2 u1 u2 c0 c1 c2 H1 H2 | | | | |]; subst.
  apply Matches_lit_chars in H1.
  exists (map JSString.lower_char pre), (map JSString.lower_char (u2 ++ post)).
  rewrite toLowerCase_chars, Hline, !map_app, H1.
  by rewrite <- !app_assoc.
Qed.

(** X2. A line gives an uptime only if, in lower case, it contains one of
    the words "uptime", "running" or "alive": every other line is skipped
    by the scan. *)
Theorem match_uptime_needs_word (line : string) (v : number) :
  match_uptime UPTIME_PATTERNS line = Some v ->
  exists (word : string) (pre post : list ascii),
    word ∈ ["uptime"; "running"; "alive"] /\
    String.list_ascii_of_string (JSString.toLowerCase line)
    = pre ++ String.list_ascii_of_string word ++ post.
Proof.
  unfold UPTIME_PATTERNS. cbn [match_uptime].
  match goal with
  | |- match Regex.exec ?r _ with _ => _ end = _ -> _ =>
      destruct (Regex.exec r line) as [c1|] eqn:H1
  end.
  { intros _. apply exec_lit_word in H1 as (pre & post & Heq).
    exists "uptime", pre, post. split; [left | exact Heq]. }
  match goal with
  | |- match Regex.exec ?r _ with _ => _ end = _ -> _ =>
      destruct (Regex.exec r line) as [c2|] eqn:H2
  end.
  { intros _. apply exec_lit_word in H2 as (pre & post & Heq).
    exists "running", pre, post. split; [right; left | exact Heq]. }
  match goal with
  | |- match Regex.exec ?r _ with _ => _ end = _ -> _ =>
      destruct (Regex.exec r line) as [c3|] eqn:H3
  end; [|done].
  intros _. apply exec_lit_word in H3 as (pre & post & Heq).
  exists "alive", pre, post. split; [right; right; left | exact Heq].
Qed.

(** An instance of X2: the word is found in "Node ALIVE: 3 seconds". *)
Lemma match_uptime_needs_word_witness :
  exists (word : string) (pre post : list ascii),
    word ∈ ["uptime"; "running"; "alive"] /\
    String.list_ascii_of_string (JSString.toLowerCase "Node ALIVE: 3 seconds")
    = pre ++ String.list_ascii_of_string word ++ post.
Proof.
  apply (match_uptime_needs_word "Node ALIVE: 3 seconds" (Num 3)).
  vm_compute. reflexivity.
Defined.

(** ** More on the circular buffer *)

Section MoreBufferFacts.
Context {T : Type}.
Implicit Types (b : CircularBuffer.t T) (xs ys : list T).

Import CircularBuffer.

Lemma represents_push_all_from (cap : nat) xs ys b :
  0 < cap -> represents cap xs b -> represents cap (xs ++ ys) (push_all ys b).
Proof.
  intros Hcap. revert xs b.
  induction ys as [|y ys IH]; intros xs b Hrep.
  - by rewrite app_nil_r.
  - cbn [push_all foldl].
    replace (xs ++ y :: ys) with ((xs ++ [y]) ++ ys) by (by rewrite <- app_assoc).
    apply IH. by apply represents_push.
Qed.

Lemma length_getAll_le b : length (getAll b) <= size b.
Proof.
  unfold getAll.
  generalize (if decide (size b = capacity b) then head b else 0). intros start.
  generalize 0 as from.
  induction (size b) as [|n IH]; intros from; [done|].
  cbn [seq flat_map]. rewrite length_app.
  specialize (IH (S from)).
  destruct (JS.array_get _ _); simpl; lia.
Qed.

End MoreBufferFacts.

(** X3. For every capacity and every sequence of pushes, [getAll] is the
    last [capacity] pushed lines in push order: the oldest lines are the
    ones dropped, and no more than [capacity] lines are kept. *)
Theorem getAll_last_capacity_lines {T : Type} (cap : nat) (xs : list T) :
  let b := CircularBuffer.push_all xs (CircularBuffer.new cap) in
  CircularBuffer.getAll b = drop (length xs - cap) xs /\
  length (CircularBuffer.getAll b) = min (length xs) cap /\
  CircularBuffer.size b <= cap.
Proof.
  cbv zeta. rewrite getAll_push_all, length_drop.
  split_and!; [done | lia | apply size_push_all_le].
Qed.

Lemma getRecent_push_all_from {T : Type} (cap n : nat) (xs ys : list T)
    (b : CircularBuffer.t T) :
  0 < cap -> represents cap xs b -> 1 <= n -> min n cap <= length ys ->
  CircularBuffer.getRecent n (CircularBuffer.push_all ys b)
  = drop (length ys - min n cap) ys.
Proof.
  intros Hcap Hrep Hn Hlen.
  pose proof (represents_push_all_from cap xs ys b Hcap Hrep) as Hrep'.
  unfold CircularBuffer.getRecent.
  rewrite (getAll_represents cap (xs ++ ys)) by done.
  destruct n as [|n]; [lia|]. unfold JS.slice_neg.
  rewrite drop_drop, length_drop, length_app.
  replace (length xs + length ys - cap
           + (length xs + length ys - (length xs + length ys - cap) - S n))
    with (length xs + (length ys - min (S n) cap)) by lia.
  by rewrite drop_app_add.
Qed.

(** X4. On a buffer that holds the lines pushed so far, after pushing the
    lines [ys], [getRecent n] for [n >= 1] is the last [min n capacity] of
    them, in push order, as soon as [ys] has that many lines: what was in
    the buffer before does not show. *)
Theorem getRecent_after_pushes {T : Type} (cap n : nat) (xs ys : list T)
    (b : CircularBuffer.t T) :
  0 < cap -> represents cap xs b -> 1 <= n -> min n cap <= length ys ->
  CircularBuffer.getRecent n (CircularBuffer.push_all ys b)
  = drop (length ys - min n cap) ys /\
  length (CircularBuffer.getRecent n (CircularBuffer.push_all ys b)) = min n cap.
Proof.
  intros Hcap Hrep Hn Hlen.
  rewrite (getRecent_push_all_from cap n xs ys b) by done.
  split; [done|]. rewrite length_drop. lia.
Qed.

(** An instance of X4: capacity 3, two old lines, three new ones, the two
    most recent asked for. *)
Lemma getRecent_after_pushes_witness :
  CircularBuffer.getRecent 2
    (CircularBuffer.push_all ["c"; "d"; "e"]
       (CircularBuffer.push_all ["a"; "b"] (CircularBuffer.new 3)))
  = ["d"; "e"].
Proof.
  apply (getRecent_after_pushes 3 2 ["a"; "b"] ["c"; "d"; "e"]).
  - lia.
  - apply represents_push_all. lia.
  - lia.
  - simpl. lia.
Defined.

(** X5. [clear] empties the buffer whatever it held, and keeps its
    capacity: the lines pushed afterwards are returned as by a new
    buffer. *)
Theorem clear_then_push {T : Type} (b : CircularBuffer.t T) (ys : list T) :
  CircularBuffer.getAll (CircularBuffer.clear b) = [] /\
  CircularBuffer.getAll (CircularBuffer.push_all ys (CircularBuffer.clear b))
  = drop (length ys - CircularBuffer.capacity b) ys /\
  CircularBuffer.capacity (CircularBuffer.push_all ys (CircularBuffer.clear b))
  = CircularBuffer.capacity b.
Proof.
  change (CircularBuffer.clear b) with (CircularBuffer.new (T := T) (CircularBuffer.capacity b)).
  split_and!.
  - done.
  - apply getAll_push_all.
  - apply size_push_all_le.
Qed.

(** ** More on the health evaluator *)

Lemma existsb_false_forall {A : Type} (f : A -> bool) (l : list A) :
  existsb f l = false <-> forall x, x ∈ l -> f x = false.
Proof.
  induction l as [|y l IH]; simpl.
  - split; [|done]. intros _ x Hx. by apply elem_of_nil in Hx.
  - rewrite orb_false_iff, IH. split.
    + intros [Hy Hl] x Hx. apply elem_of_cons in Hx as [->|Hx]; auto.
    + intros Hall. split; [apply Hall; left | intros x Hx; apply Hall; by right].
Qed.

Lemma has_error_keyword_false (l : string) :
  has_error_keyword l = false <->
  forall kw, kw ∈ ERROR_KEYWORDS -> JSString.includes kw (JSString.toLowerCase l) = false.
Proof. unfold has_error_keyword. apply existsb_false_forall. Qed.

Lemma gtb_true (x y : Q) : Number.gtb (Num x) (Num y) = true <-> (y < x)%Q.
Proof.
  unfold Number.gtb. rewrite negb_true_iff.
  destruct (Qle_bool x y) eqn:E.
  - apply Qle_bool_iff in E. split; [done|]. intros H. exfalso. lra.
  - split; [|done]. intros _. apply Qnot_le_lt. intros H.
    apply Qle_bool_iff in H. congruence.
Qed.

Lemma gtb_false (x y : Q) : Number.gtb (Num x) (Num y) = false <-> (x <= y)%Q.
Proof.
  unfold Number.gtb. rewrite negb_false_iff. apply Qle_bool_iff.
Qed.

Lemma health_verdict_iff (CONFIG : Config) (env : HealthEnv) (st : ProcessState)
    (child : ChildProcess) (p : Z) (a : Q) :
  cache_lookup CONFIG (now_check env) st = None ->
  process st = Some child -> truthy_pid child = Some p -> alive env = true ->
  lastUptime st = Num a -> (0 <= a)%Q ->
  (health CONFIG env st).1.1 = true <->
  (exists q, extractUptimeFromLogs (logs st) = Num q /\ (0 < q)%Q) /\
  (forall l kw, l ∈ CircularBuffer.getRecent 50 (logs st) ->
                kw ∈ ERROR_KEYWORDS ->
                JSString.includes kw (JSString.toLowerCase l) = false).
Proof.
  intros Hmiss Hproc Hpid Halive Hlast Ha.
  destruct (checkBinaryHealth_running CONFIG env st child p Hmiss Hproc Hpid Halive)
    as (m & st' & warn & Heq & Hrun & Hup & Hinc & Herr & _).
  unfold health. rewrite Heq. cbn [fst snd]. unfold verdict.
  rewrite Hrun, Hinc, Herr, Hup, Hlast.
  destruct (extractUptime_number (logs st)) as (q & Hq & Hq0). rewrite Hq.
  cbn [andb]. rewrite andb_true_iff, negb_true_iff, orb_true_iff.
  rewrite existsb_false_forall. unfold Number.zero. rewrite !gtb_true.
  split.
  - intros [Hclean Hpos]. split.
    + exists q. split; [done|]. destruct Hpos; lra.
    + intros l kw Hl Hkw. by apply (proj1 (has_error_keyword_false l) (Hclean l Hl)).
  - intros [(q' & [= <-] & Hpos) Hclean]. split; [|by right].
    intros l Hl. apply has_error_keyword_false. intros kw Hkw. by apply Hclean.
Qed.

(** X6. When the evaluation misses the cache and finds the child running,
    and the last observed uptime is a number that is not negative (as it
    is in every reachable state), the [health] hook answers true exactly
    when the most recent uptime line among the last 50 lines reports more
    than 0 and none of these lines contains, in lower case, one of the
    error keywords. *)
Theorem health_true_iff (CONFIG : Config) (env : HealthEnv) (st : ProcessState)
    (child : ChildProcess) (p : Z) (a : Q) :
  cache_lookup CONFIG (now_check env) st = None ->
  process st = Some child -> truthy_pid child = Some p -> alive env = true ->
  lastUptime st = Num a -> (0 <= a)%Q ->
  (health CONFIG env st).1.1 = true <->
  (exists q, extractUptimeFromLogs (logs st) = Num q /\ (0 < q)%Q) /\
  (forall l kw, l ∈ CircularBuffer.getRecent 50 (logs st) ->
                kw ∈ ERROR_KEYWORDS ->
                JSString.includes kw (JSString.toLowerCase l) = false).
Proof. apply health_verdict_iff. Qed.

(** An instance of X6: the child has written "uptime: 3 seconds". *)
Lemma health_true_iff_witness :
  let st := (on_stdout_line "uptime: 3 seconds" 0 started_state).1 in
  let env := {| now_check := 7000; alive := true; now_grace := 7000;
                now_store := 7000; duration := 1; heapUsed := 0 |} in
  (health default_config env st).1.1 = true.
Proof.
  cbv zeta.
  apply (health_true_iff default_config
           {| now_check := 7000; alive := true; now_grace := 7000;
              now_store := 7000; duration := 1; heapUsed := 0 |}
           (on_stdout_line "uptime: 3 seconds" 0 started_state).1
           {| cid := 0; pid := Some 4242%Z |} 4242 0).
  - vm_compute. reflexivity.
  - vm_compute. reflexivity.
  - reflexivity.
  - reflexivity.
  - vm_compute. reflexivity.
  - discriminate.
  - split.
    + exists 3%Q. split; [vm_compute; reflexivity | reflexivity].
    + intros l kw Hl Hkw.
      assert (Hrecent : CircularBuffer.getRecent 50
                (logs (on_stdout_line "uptime: 3 seconds" 0 started_state).1)
              = ["uptime: 3 seconds"]) by (vm_compute; reflexivity).
      rewrite Hrecent in Hl. apply list_elem_of_singleton in Hl as ->.
      unfold ERROR_KEYWORDS in Hkw.
      repeat (apply elem_of_cons in Hkw as [->|Hkw]; [vm_compute; reflexivity|]).
      by apply elem_of_nil in Hkw.
Defined.

(** X7. When there is no child, or the child has no pid, or the probe
    finds it gone, an evaluation that misses the cache answers false,
    stores no snapshot, scans no line and leaves the last observed uptime
    as it was; the next evaluation probes again. *)
Theorem health_without_live_child (CONFIG : Config) (env : HealthEnv)
    (st : ProcessState) :
  cache_lookup CONFIG (now_check env) st = None ->
  (process st = None \/
   (exists child, process st = Some child /\ truthy_pid child = None) \/
   alive env = false) ->
  let r := health CONFIG env st in
  r.1.1 = false /\ isHealthy r.1.2 = false /\
  healthCache r.1.2 = healthCache st /\
  lastUptime r.1.2 = lastUptime st /\
  metrics r.1.2 = metrics st /\
  count is_scan r.2 = 0.
Proof.
  intros Hmiss Hcase. cbv zeta. unfold health.
  pose proof (checkBinaryHealth_not_running CONFIG env st Hmiss Hcase) as [eff Heq].
  assert (Hscan : count is_scan eff = 0).
  { revert Heq. unfold checkBinaryHealth. rewrite Hmiss.
    destruct (process st) as [child|]; [|by intros [= <-]].
    destruct (truthy_pid child); [|by intros [= <-]].
    destruct (negb (alive env)) eqn:Hdead; [by intros [= <-]|].
    intros Habs. by injection Habs. }
  rewrite Heq. cbn [fst snd]. rewrite count_app, Hscan. done.
Qed.

(** An instance of X7: the state of a freshly loaded module. *)
Lemma health_without_live_child_witness :
  let env := {| now_check := 7000; alive := true; now_grace := 7000;
                now_store := 7000; duration := 1; heapUsed := 0 |} in
  (health default_config env (initial_state default_config)).1.1 = false.
Proof.
  cbv zeta.
  apply (health_without_live_child default_config
           {| now_check := 7000; alive := true; now_grace := 7000;
              now_store := 7000; duration := 1; heapUsed := 0 |}
           (initial_state default_config)).
  - reflexivity.
  - by left.
Defined.

(** X8. Old error lines stop counting: once at least 50 lines (or as many
    as the buffer holds, if that is less) without an error keyword have
    been pushed, an evaluation that misses the cache and finds the child
    running reports no error, whatever the buffer held before. *)
Theorem errors_age_out (CONFIG : Config) (env : HealthEnv) (st : ProcessState)
    (cap : nat) (b : CircularBuffer.t string) (xs ys : list string)
    (child : ChildProcess) (p : Z) :
  0 < cap -> represents cap xs b ->
  logs st = CircularBuffer.push_all ys b ->
  min 50 cap <= length ys ->
  (forall l, l ∈ ys -> has_error_keyword l = false) ->
  cache_lookup CONFIG (now_check env) st = None ->
  process st = Some child -> truthy_pid child = Some p -> alive env = true ->
  hasErrors (checkBinaryHealth CONFIG env st).1.1 = false.
Proof.
  intros Hcap Hrep Hlogs Hlen Hclean Hmiss Hproc Hpid Halive.
  destruct (checkBinaryHealth_running CONFIG env st child p Hmiss Hproc Hpid Halive)
    as (m & st' & warn & Heq & _ & _ & _ & Herr & _).
  rewrite Heq. cbn [fst]. rewrite Herr, Hlogs.
  rewrite (getRecent_push_all_from cap 50 xs ys b) by (done || lia).
  apply existsb_false_forall. intros l Hl. apply Hclean.
  rewrite <- (take_drop (length ys - min 50 cap) ys).
  apply elem_of_app. by right.
Qed.

(** An instance of X8: a stderr line followed by 50 uptime lines. *)
Lemma errors_age_out_witness :
  let b := CircularBuffer.push "ERROR: disk almost full" (CircularBuffer.new 1000) in
  let ys := replicate 50 "uptime: 4 seconds" in
  let st := set_logs (CircularBuffer.push_all ys b) started_state in
  let env := {| now_check := 7000; alive := true; now_grace := 7000;
                now_store := 7000; duration := 1; heapUsed := 0 |} in
  hasErrors (checkBinaryHealth default_config env st).1.1 = false.
Proof.
  cbv zeta.
  apply (errors_age_out default_config
           {| now_check := 7000; alive := true; now_grace := 7000;
              now_store := 7000; duration := 1; heapUsed := 0 |}
           _ 1000
           (CircularBuffer.push "ERROR: disk almost full" (CircularBuffer.new 1000))
           ["ERROR: disk almost full"] (replicate 50 "uptime: 4 seconds")
           {| cid := 0; pid := Some 4242%Z |} 4242).
  - lia.
  - apply (represents_push 1000 [] _ "ERROR: disk almost full"); [lia|].
    apply represents_new.
  - reflexivity.
  - simpl. lia.
  - intros l Hl. apply elem_of_replicate in Hl as [-> _]. vm_compute. reflexivity.
  - vm_compute. reflexivity.
  - vm_compute. reflexivity.
  - reflexivity.
  - reflexivity.
Defined.

(** *** The uptime bookkeeping of the reachable states *)

Section UptimeOrder.
Variable CONFIG : Config.

Lemma checkBinaryHealth_uptime_in_order (env : HealthEnv) (st : ProcessState) :
  uptime_in_order st -> uptime_in_order (checkBinaryHealth CONFIG env st).1.2.
Proof.
  intros (a & Hlast & Ha & Hcache). unfold checkBinaryHealth.
  destruct (cache_lookup _ _ _); [by exists a|].
  destruct (process st) as [child|]; [|by exists a].
  destruct (truthy_pid child); [|by exists a].
  destruct (negb (alive env)); [by exists a|].
  cbn [fst snd].
  destruct (extractUptime_number (logs st)) as (q & Hq & Hq0).
  rewrite Hq, Hlast.
  destruct (Number.gtb (Num q) (Num a)) eqn:Hgt.
  - apply gtb_true in Hgt. exists q. split_and!; [done | done |].
    intros e [= <-]. cbn. split; [done|]. exists q. split_and!; [done | done | lra].
  - apply gtb_false in Hgt. exists a. split_and!; [done | done |].
    intros e [= <-]. cbn. split; [done|]. by exists q.
Qed.

Lemma uptime_in_order_same (st st' : ProcessState) :
  lastUptime st' = lastUptime st -> healthCache st' = healthCache st ->
  uptime_in_order st -> uptime_in_order st'.
Proof. intros Hl Hc (a & ? & ? & ?). exists a. by rewrite Hl, Hc. Qed.

Lemma uptime_in_order_no_cache (st st' : ProcessState) :
  lastUptime st' = lastUptime st -> healthCache st' = None ->
  uptime_in_order st -> uptime_in_order st'.
Proof.
  intros Hl Hc (a & ? & ? & ?). exists a. rewrite Hl, Hc. by split_and!.
Qed.

Lemma uptime_in_order_reset (st : ProcessState) :
  lastUptime st = Number.zero -> healthCache st = None -> uptime_in_order st.
Proof.
  intros Hl Hc. exists 0%Q. rewrite Hl, Hc. split_and!; [done | discriminate | done].
Qed.

Lemma step_uptime_in_order (sys : System) (ev : event) :
  uptime_in_order (state sys) -> uptime_in_order (state (step CONFIG sys ev).1).
Proof.
  intros Hord.
  assert (Hstretch := stop_stretch_frame CONFIG sys ev).
  destruct ev as [ok ne w | k now sp | env | env | env | t0 now alive
                  | call now alive | call ok | c line d
                  | c line | c now random | t sp now];
    try (destruct (Hstretch I) as ([-> | ->] & _);
         [done | by apply (uptime_in_order_no_cache (state sys))]);
    clear Hstretch; cbn [step].
  - unfold installSecrets. by destruct ok.
  - unfold start.
    destruct (startBinaryProcess CONFIG _ _ sp _) as [[child|] eff];
      [destruct (truthy_pid child)|]; by apply uptime_in_order_reset.
  - destruct (startups sys); [done|]. unfold initial_health_check.
    pose proof (checkBinaryHealth_uptime_in_order env (state sys) Hord) as H.
    destruct (checkBinaryHealth CONFIG env (state sys)) as [[m st] eff].
    by apply (uptime_in_order_same st).
  - unfold health.
    pose proof (checkBinaryHealth_uptime_in_order env (state sys) Hord) as H.
    destruct (checkBinaryHealth CONFIG env (state sys)) as [[m st] eff].
    by apply (uptime_in_order_same st).
  - unfold stop. destruct (process (state sys)); [|by cbn].
    destruct (poll_shutdown _ _ _ _ _ _) as [[o polled]|]; [|by cbn].
    cbn. by apply (uptime_in_order_no_cache (state sys)).
  - destruct (is_monitored c sys); [|done]. by apply (uptime_in_order_same (state sys)).
  - destruct (is_monitored c sys); [|done]. by apply (uptime_in_order_same (state sys)).
  - unfold child_exit.
    destruct (children sys !! c) as [info|]; [|done].
    destruct (exited info); [done|].
    destruct (exitObserver info); [|done].
    unfold on_exit. cbn.
    destruct (restartCount (state sys) <? MAX_RESTART_ATTEMPTS CONFIG)%Z;
      by apply (uptime_in_order_same (state sys)).
  - unfold timer_fires.
    destruct (timers sys !! t) as [[closure|]|]; [|done..].
    unfold on_restart_timer.
    destruct (startBinaryProcess CONFIG _ _ sp _) as [[child|] eff]; [|done].
    by apply (uptime_in_order_no_cache (state sys)).
Qed.

End UptimeOrder.

(** X9. In every reachable state the last observed uptime is a number that
    is not negative, and a cached snapshot always reports a running child,
    with an uptime between 0 and the last observed uptime: a verdict "not
    running" is never cached. *)
Theorem reachable_uptime_in_order (CONFIG : Config) (evs : list event) :
  uptime_in_order (state (run_events CONFIG (initial_system CONFIG) evs).1).
Proof.
  assert (Hgen : forall sys, uptime_in_order (state sys) ->
            uptime_in_order (state (run_events CONFIG sys evs).1)).
  { induction evs as [|ev evs IH]; intros sys Hord; [done|].
    cbn [run_events].
    pose proof (step_uptime_in_order CONFIG sys ev Hord) as Hstep.
    destruct (step CONFIG sys ev) as [sys1 eff1].
    specialize (IH sys1 Hstep).
    by destruct (run_events CONFIG sys1 evs) as [sys2 eff2]. }
  apply Hgen. by apply uptime_in_order_reset.
Qed.

(** ** The running average of the health-check durations *)

Lemma record_health_check_mean (d : Q) (heap : Z) (m : PerformanceMetrics) :
  (0 <= totalHealthChecks m)%Z ->
  let m' := record_health_check d heap m in
  totalHealthChecks m' = (totalHealthChecks m + 1)%Z /\
  (avgHealthCheckDuration m' * inject_Z (totalHealthChecks m')
   == avgHealthCheckDuration m * inject_Z (totalHealthChecks m) + d)%Q.
Proof.
  intros Hn. cbv zeta. unfold record_health_check. cbn.
  split; [done|].
  replace (totalHealthChecks m + 1 - 1)%Z with (totalHealthChecks m) by lia.
  field.
  intros H. unfold Qeq in H. simpl in H. lia.
Qed.

(** X10. [avgHealthCheckDuration] is the mean of the recorded durations
    (the doubles of the code being read as exact rationals): after any
    number of completed health checks, the average times their number is
    the sum of their durations, [totalHealthChecks] is their number, and
    the last duration and heap size are the latest ones. *)
Theorem average_is_mean (checks : list (Q * Z)) :
  let m := record_all checks in
  totalHealthChecks m = Z.of_nat (length checks) /\
  (avgHealthCheckDuration m * inject_Z (Z.of_nat (length checks))
   == total_duration checks)%Q /\
  (forall d heap, last checks = Some (d, heap) ->
     lastHealthCheckDuration m = d /\ memoryUsage m = heap).
Proof.
  cbv zeta. unfold record_all.
  induction checks as [|[d heap] checks IH] using rev_ind.
  - split_and!; [done | reflexivity | done].
  - destruct IH as (Htot & Havg & _).
    rewrite foldl_app. cbn [foldl fst snd].
    set (m := foldl _ zero_metrics checks) in *.
    destruct (record_health_check_mean d heap m) as [Ht Ha]; [lia|].
    cbv zeta in Ht, Ha.
    split_and!.
    + rewrite Ht, Htot, length_app. simpl. lia.
    + rewrite length_app. simpl length.
      replace (Z.of_nat (length checks + 1)) with (totalHealthChecks m + 1)%Z by lia.
      rewrite <- Ht, Ha, Htot, Havg.
      clear. unfold total_duration.
      induction checks as [|c cs IHc]; simpl; [ring|].
      rewrite <- IHc. ring.
    + intros d' heap'. rewrite last_snoc. by intros [= <- <-].
Qed.

(** An instance of X10: two health checks, of 2 ms and of 4 ms. *)
Lemma average_is_mean_witness :
  lastHealthCheckDuration (record_all [(2%Q, 10%Z); (4%Q, 20%Z)]) = 4%Q /\
  memoryUsage (record_all [(2%Q, 10%Z); (4%Q, 20%Z)]) = 20%Z.
Proof.
  apply (average_is_mean [(2%Q, 10%Z); (4%Q, 20%Z)]). reflexivity.
Defined.

(** ** Which handler does what *)

Ltac solve_allowed :=
  repeat first
    [ constructor
    | apply Z.eqb_refl
    | apply Forall_cons; split; [reflexivity|]
    | apply Forall_app; split ].

Section Discipline.
Variable CONFIG : Config.

Lemma startBinaryProcess_allowed (ev : event) (binaryPath : string)
    (useWrapper : bool) (sp : SpawnEnv) (fresh : nat) :
  (is_start ev = true \/ exists t s n, ev = TimerFires t s n) ->
  Forall (fun e => allowed CONFIG ev e = true)
         (startBinaryProcess CONFIG binaryPath useWrapper sp fresh).2.
Proof.
  intros Hev. unfold startBinaryProcess.
  assert (Hk : forall c, allowed CONFIG ev (SpawnKey c) = true).
  { intros c. destruct Hev as [Hs | (t & s & n & ->)]; [by destruct ev | done]. }
  assert (Hs : forall c cmd, allowed CONFIG ev (Spawn c cmd) = true).
  { intros c cmd. destruct Hev as [Hs | (t & s & n & ->)]; [by destruct ev | done]. }
  assert (Hl : forall l msg, allowed CONFIG ev (Log l msg) = true) by (by destruct ev).
  destruct useWrapper; cbn [negb snd].
  - repeat (apply Forall_cons; split; [auto|]). constructor.
  - destruct (keyExit sp) as [[| |]|]; cbn [snd];
      repeat (apply Forall_cons; split; [auto|]); constructor.
Qed.

Lemma checkBinaryHealth_allowed (ev : event) (env : HealthEnv) (st : ProcessState) :
  (exists e, ev = GraceElapsed e \/ ev = Health e) ->
  Forall (fun e => allowed CONFIG ev e = true) (checkBinaryHealth CONFIG env st).2.
Proof.
  intros (e0 & Hev). unfold checkBinaryHealth.
  destruct (cache_lookup _ _ _); [constructor|].
  destruct (process st) as [child|]; [|constructor].
  destruct (truthy_pid child); [|constructor].
  destruct (negb (alive env)); cbn [snd].
  - destruct Hev as [-> | ->]; solve_allowed.
  - destruct (negb _ && _); destruct Hev as [-> | ->]; solve_allowed.
Qed.

Lemma poll_shutdown_allowed (env env' : StopEnv) (child : ChildProcess)
    (fuel i : nat) (elapsed : Z) (o : poll_outcome) (eff : list effect) :
  poll_shutdown CONFIG env child fuel i elapsed = Some (o, eff) ->
  Forall (fun e => allowed CONFIG (Stop env') e = true) eff.
Proof.
  revert i elapsed o eff.
  induction fuel as [|fuel IH]; intros i elapsed o eff Hrun; [discriminate|].
  cbn [poll_shutdown] in Hrun.
  destruct (elapsed <? _)%Z; [|injection Hrun as <- <-; constructor].
  destruct (truthy_pid child); [|injection Hrun as <- <-; constructor].
  destruct (alive_at env i); [|injection Hrun as <- <-; solve_allowed].
  destruct (poll_shutdown CONFIG env child fuel (S i) _) as [[o' eff']|] eqn:Hrec;
    [|discriminate].
  injection Hrun as <- <-.
  apply Forall_cons; split; [done|]. apply Forall_cons; split; [done|].
  by eapply IH.
Qed.

Lemma stop_after_loop_allowed (ev : event) (b : bool) (w : option string)
    (st : ProcessState) :
  (exists t n a, ev = StopCalled t n a) \/ (exists c n a, ev = StopPolls c n a) ->
  Forall (fun e => allowed CONFIG ev e = true) (stop_after_loop CONFIG b w st).2.
Proof.
  intros Hev. unfold stop_after_loop, stop_returns, stop_thrown.
  assert (Hend : forall forced,
             Forall (fun e => allowed CONFIG ev e = true) forced ->
             Forall (fun e => allowed CONFIG ev e = true)
               (match w with
                | Some path =>
                    if String.eqb path (BINARY_PATH CONFIG)
                    then (Returned, reset_stopped st,
                          forced ++ [Log Info "Binary service stopped successfully"])
                    else (Suspended Unlinking, st, forced ++ [Unlink path])
                | None => (Returned, reset_stopped st,
                           forced ++ [Log Info "Binary service stopped successfully"])
                end).2).
  { intros forced Hforced. destruct w as [path|];
      [destruct (String.eqb path (BINARY_PATH CONFIG))|]; cbn [snd];
      (apply Forall_app; split; [done|]);
      destruct Hev as [(t & n & a & ->) | (c & n & a & ->)]; solve_allowed. }
  destruct b; [apply Hend; constructor|].
  destruct (process st) as [child|].
  - apply Hend. destruct (truthy_pid child);
      destruct Hev as [(t & n & a & ->) | (c & n & a & ->)]; solve_allowed.
  - destruct Hev as [(t & n & a & ->) | (c & n & a & ->)]; solve_allowed.
Qed.

Lemma stop_poll_allowed (ev : event) (t now : Z) (alive : bool)
    (w : option string) (st : ProcessState) :
  (exists t n a, ev = StopCalled t n a) \/ (exists c n a, ev = StopPolls c n a) ->
  Forall (fun e => allowed CONFIG ev e = true) (stop_poll CONFIG t now alive w st).2.
Proof.
  intros Hev. unfold stop_poll.
  destruct (now - t <? SHUTDOWN_TIMEOUT CONFIG)%Z;
    [|by apply stop_after_loop_allowed].
  destruct (process st) as [child|].
  - destruct (truthy_pid child) as [p|]; [|by apply stop_after_loop_allowed].
    destruct alive.
    + destruct Hev as [(t' & n & a & ->) | (c & n & a & ->)]; solve_allowed.
    + pose proof (stop_after_loop_allowed ev true w st Hev) as H.
      destruct (stop_after_loop CONFIG true w st) as [[r st1] eff]. cbn [snd] in *.
      apply Forall_cons; split; [|done].
      by destruct Hev as [(t' & n & a & ->) | (c & n & a & ->)].
  - destruct Hev as [(t' & n & a & ->) | (c & n & a & ->)]; solve_allowed.
Qed.

Lemma step_allowed (sys : System) (ev : event) :
  Forall (fun e => allowed CONFIG ev e = true) (step CONFIG sys ev).2.
Proof.
  destruct ev as [ok ne w | k now sp | env | env | env | t0 now alive
                  | call now alive | call ok | c line d
                  | c line | c now random | t sp now]; cbn [step].
  6: { unfold stop_called, stop_call.
       destruct (process (state sys)) as [child|]; [|solve_allowed].
       pose proof (stop_poll_allowed (StopCalled t0 now alive) t0 now alive
                     (binaryWrapperPath sys) (state sys)
                     (or_introl (ex_intro _ t0 (ex_intro _ now (ex_intro _ alive eq_refl)))))
         as H.
       destruct (stop_poll CONFIG _ _ _ _ _) as [[r st1] eff]. cbn [snd] in *.
       repeat (apply Forall_cons; split; [done|]). done. }
  6: { unfold stop_polls.
       destruct (stops sys !! call) as [[[t|]|]|]; try (by constructor).
       pose proof (stop_poll_allowed (StopPolls call now alive) t now alive
                     (binaryWrapperPath sys) (state sys)
                     (or_intror (ex_intro _ call (ex_intro _ now (ex_intro _ alive eq_refl)))))
         as H.
       by destruct (stop_poll CONFIG _ _ _ _ _) as [[r st1] eff]. }
  6: { unfold stop_unlinked.
       destruct (stops sys !! call) as [[[t|]|]|]; try (by constructor).
       unfold stop_after_unlink, stop_returns. destruct ok; solve_allowed. }
  - unfold installSecrets. destruct ok; [destruct ne, w|]; solve_allowed.
  - unfold start.
    match goal with
    | |- context [startBinaryProcess CONFIG ?b ?u sp ?f] =>
        pose proof (startBinaryProcess_allowed (Start k now sp) b u sp f
                      (or_introl eq_refl)) as Hsp;
        destruct (startBinaryProcess CONFIG b u sp f) as [[child|] eff]
    end; [destruct (truthy_pid child)|]; cbn [snd] in *;
      (apply Forall_cons; split; [done|]); apply Forall_app; split; try done;
      solve_allowed.
  - destruct (startups sys); [constructor|].
    unfold initial_health_check.
    pose proof (checkBinaryHealth_allowed (GraceElapsed env) env (state sys)
                  (ex_intro _ env (or_introl eq_refl))) as H.
    destruct (checkBinaryHealth CONFIG env (state sys)) as [[m st] eff].
    cbn [snd] in *. apply Forall_app; split; [done | solve_allowed].
  - unfold health.
    pose proof (checkBinaryHealth_allowed (Health env) env (state sys)
                  (ex_intro _ env (or_intror eq_refl))) as H.
    destruct (checkBinaryHealth CONFIG env (state sys)) as [[m st] eff].
    cbn [snd] in *. apply Forall_app; split; [done | solve_allowed].
  - unfold stop. destruct (process (state sys)) as [child|]; [|solve_allowed].
    destruct (poll_shutdown _ _ _ _ _ _) as [[o polled]|] eqn:Hpoll;
      [|constructor].
    apply (poll_shutdown_allowed env env) in Hpoll. cbn [snd].
    repeat (apply Forall_cons; split; [done|]).
    apply Forall_app; split; [done|].
    apply Forall_app; split.
    { unfold force_kill. destruct o, (truthy_pid child); solve_allowed. }
    apply Forall_app; split; [|solve_allowed].
    unfold cleanup_wrapper. destruct (binaryWrapperPath sys); [|constructor].
    destruct (String.eqb _ _); [constructor|].
    destruct (unlink_ok env); solve_allowed.
  - destruct (is_monitored c sys); solve_allowed.
  - destruct (is_monitored c sys); [|constructor].
    unfold on_stderr_line. cbn [snd].
    apply Forall_cons; split; [done|].
    destruct (invalid_secret line); [|constructor].
    apply Forall_cons; split; [done|].
    apply Forall_cons; split; [cbn; apply Nat.eqb_refl | constructor].
  - unfold child_exit.
    destruct (children sys !! c) as [info|]; [|constructor].
    destruct (exited info); [constructor|].
    destruct (exitObserver info); [|constructor].
    unfold on_exit. cbn.
    destruct (restartCount (state sys) <? MAX_RESTART_ATTEMPTS CONFIG)%Z;
      solve_allowed.
  - unfold timer_fires.
    destruct (timers sys !! t) as [[closure|]|]; [|constructor..].
    unfold on_restart_timer.
    match goal with
    | |- context [startBinaryProcess CONFIG ?b ?u sp ?f] =>
        pose proof (startBinaryProcess_allowed (TimerFires t sp now) b u sp f
                      (or_intror (ex_intro _ t (ex_intro _ sp (ex_intro _ now eq_refl)))))
          as Hsp;
        destruct (startBinaryProcess CONFIG b u sp f) as [[child|] eff]
    end; cbn [snd] in *; [done|].
    apply Forall_app; split; [done | solve_allowed].
Qed.

End Discipline.

(** X11. In every run, each effect comes from an event whose handler may
    have it: only [stop] ever sends SIGKILL or unlinks; the only sleeps are
    the 100 ms of the loop of [stop] and the grace period of [start]; only
    [installSecrets] tests and writes files; health evaluations only log,
    probe and scan; a stderr line sends at most SIGTERM, and to its own
    child; only [start] and the restart timer spawn; only the exit of a
    child sets a timer. *)
Theorem effects_come_from_their_handlers (CONFIG : Config) (sys : System)
    (evs : list event) (e : effect) :
  e ∈ (run_events CONFIG sys evs).2 ->
  exists ev, ev ∈ evs /\ allowed CONFIG ev e = true.
Proof.
  revert sys. induction evs as [|ev evs IH]; intros sys; cbn [run_events].
  - intros H. by apply elem_of_nil in H.
  - pose proof (step_allowed CONFIG sys ev) as Hstep.
    destruct (step CONFIG sys ev) as [sys1 eff1].
    specialize (IH sys1).
    destruct (run_events CONFIG sys1 evs) as [sys2 eff2].
    cbn [snd] in *. intros Hin. apply elem_of_app in Hin as [Hin|Hin].
    + exists ev. split; [left|].
      by apply (proj1 (Forall_forall _ _) Hstep).
    + destruct (IH Hin) as (ev' & Hev' & Hall).
      exists ev'. split; [by right | done].
Qed.

(** An instance of X11: the SIGKILL of a run comes from its [stop]. *)
Lemma effects_come_from_their_handlers_witness :
  let sp := {| keyExit := Some 0%Z; newPid := Some 4242%Z |} in
  exists ev, ev ∈ [Start false 1000 sp; StopCalled 2000 2000 true;
                   StopPolls 0 12000 true] /\
             allowed default_config ev (Kill 0 SIGKILL) = true.
Proof.
  cbv zeta.
  apply (effects_come_from_their_handlers default_config
           (initial_system default_config)).
  apply list_elem_of_In. vm_compute.
  repeat first [left; reflexivity | right].
Defined.

(** ** What [stop] deletes *)

Section Cleanup.
Variable CONFIG : Config.

Lemma poll_shutdown_no_unlink (env : StopEnv) (child : ChildProcess)
    (fuel i : nat) (elapsed : Z) (o : poll_outcome) (eff : list effect) :
  poll_shutdown CONFIG env child fuel i elapsed = Some (o, eff) ->
  forall path, Unlink path ∉ eff.
Proof.
  revert i elapsed o eff.
  induction fuel as [|fuel IH]; intros i elapsed o eff Hrun path; [discriminate|].
  cbn [poll_shutdown] in Hrun.
  destruct (elapsed <? _)%Z; [|injection Hrun as <- <-; apply not_elem_of_nil].
  destruct (truthy_pid child); [|injection Hrun as <- <-; apply not_elem_of_nil].
  destruct (alive_at env i).
  - destruct (poll_shutdown CONFIG env child fuel (S i) _) as [[o' eff']|] eqn:Hrec;
      [|discriminate].
    injection Hrun as <- <-. intros Hin.
    apply elem_of_cons in Hin as [Hin|Hin]; [discriminate|].
    apply elem_of_cons in Hin as [Hin|Hin]; [discriminate|].
    by eapply IH.
  - injection Hrun as <- <-. intros Hin.
    apply list_elem_of_singleton in Hin. discriminate.
Qed.

(** A step unlinks only the recorded wrapper path, and only when that is
    not the path of the binary. *)
Lemma step_unlink (sys : System) (ev : event) (path : string) :
  Unlink path ∈ (step CONFIG sys ev).2 ->
  binaryWrapperPath sys = Some path /\ path <> BINARY_PATH CONFIG.
Proof.
  intros Hin.
  assert (Hstretch := stop_stretch_frame CONFIG sys ev).
  pose proof (proj1 (Forall_forall _ _) (step_allowed CONFIG sys ev) _ Hin) as Hall.
  destruct ev; try discriminate; clear Hall;
    try (destruct (Hstretch I) as (_ & _ & _ & _ & _ & Heff);
         by apply (proj1 (Forall_forall _ _) Heff) in Hin).
  clear Hstretch. cbn [step] in Hin. unfold stop in Hin.
  destruct (process (state sys)) as [child|].
  - destruct (poll_shutdown _ _ _ _ _ _) as [[o polled]|] eqn:Hpoll;
      [|by apply elem_of_nil in Hin].
    cbn [snd] in Hin.
    repeat (apply elem_of_cons in Hin as [Hin|Hin]; [discriminate|]).
    apply elem_of_app in Hin as [Hin|Hin];
      [by apply (poll_shutdown_no_unlink _ _ _ _ _ _ _ Hpoll) in Hin|].
    apply elem_of_app in Hin as [Hin|Hin].
    { unfold force_kill in Hin. destruct o, (truthy_pid child);
        repeat (apply elem_of_cons in Hin as [Hin|Hin]; [discriminate|]);
        by apply elem_of_nil in Hin. }
    apply elem_of_app in Hin as [Hin|Hin];
      [|apply list_elem_of_singleton in Hin; discriminate].
    unfold cleanup_wrapper in Hin.
    destruct (binaryWrapperPath sys) as [w|]; [|by apply elem_of_nil in Hin].
    destruct (String.eqb_spec w (BINARY_PATH CONFIG)) as [Heq|Hne];
      [by apply elem_of_nil in Hin|].
    destruct (unlink_ok env);
      (apply elem_of_cons in Hin as [Hin|Hin];
       [by injection Hin as -> | apply list_elem_of_singleton in Hin; discriminate]).
  - cbn [snd] in Hin.
    repeat (apply elem_of_cons in Hin as [Hin|Hin]; [discriminate|]).
    by apply elem_of_nil in Hin.
Qed.

Lemma step_wrapper_path_known (sys : System) (ev : event) :
  wrapper_path_known CONFIG sys -> wrapper_path_known CONFIG (step CONFIG sys ev).1.
Proof.
  intros Hknown.
  assert (Hstretch := stop_stretch_frame CONFIG sys ev).
  destruct ev as [ok ne w | k now sp | env | env | env | t0 now alive
                  | call now alive | call ok | c line d
                  | c line | c now random | t sp now];
    try (destruct (Hstretch I) as (_ & Hw & _);
         unfold wrapper_path_known; by rewrite Hw);
    clear Hstretch; cbn [step].
  - unfold installSecrets. destruct ok; [|done].
    intros path [= <-]. destruct w; auto.
  - unfold start.
    destruct (startBinaryProcess CONFIG _ _ sp _) as [[child|] eff];
      [destruct (truthy_pid child)|]; done.
  - destruct (startups sys); [done|]. unfold initial_health_check.
    by destruct (checkBinaryHealth CONFIG env (state sys)) as [[m st] eff].
  - unfold health.
    by destruct (checkBinaryHealth CONFIG env (state sys)) as [[m st] eff].
  - by destruct (stop CONFIG _ env (state sys)) as [[st eff]|].
  - by destruct (is_monitored c sys).
  - by destruct (is_monitored c sys).
  - unfold child_exit.
    destruct (children sys !! c) as [info|]; [|done].
    destruct (exited info); [done|].
    destruct (exitObserver info); [|done].
    by destruct (on_exit CONFIG now random (state sys)).
  - unfold timer_fires.
    destruct (timers sys !! t) as [[closure|]|]; [|done..].
    by destruct (on_restart_timer CONFIG _ _ sp now _ (state sys)) as [[child st] eff].
Qed.

End Cleanup.

(** X12. [stop] never deletes the binary: in every run from the initial
    state, whatever [installSecrets] recorded, each file that is unlinked
    is the wrapper script "/app/binary-wrapper.sh", and its path differs
    from the path of the binary. *)
Theorem stop_never_unlinks_the_binary (CONFIG : Config) (evs : list event)
    (path : string) :
  Unlink path ∈ (run_events CONFIG (initial_system CONFIG) evs).2 ->
  path = "/app/binary-wrapper.sh" /\ path <> BINARY_PATH CONFIG.
Proof.
  assert (Hgen : forall sys, wrapper_path_known CONFIG sys ->
            Unlink path ∈ (run_events CONFIG sys evs).2 ->
            path = "/app/binary-wrapper.sh" /\ path <> BINARY_PATH CONFIG).
  { induction evs as [|ev evs IH]; intros sys Hknown; cbn [run_events].
    - intros H. by apply elem_of_nil in H.
    - pose proof (step_unlink CONFIG sys ev path) as Hstep.
      pose proof (step_wrapper_path_known CONFIG sys ev Hknown) as Hnext.
      destruct (step CONFIG sys ev) as [sys1 eff1].
      specialize (IH sys1 Hnext).
      destruct (run_events CONFIG sys1 evs) as [sys2 eff2].
      cbn [fst snd] in *. intros Hin. apply elem_of_app in Hin as [Hin|Hin].
      + destruct (Hstep Hin) as [Hw Hne]. split; [|done].
        by destruct (Hknown path Hw).
      + by apply IH. }
  apply Hgen. intros p. discriminate.
Qed.

(** An instance of X12: install the wrapper, start, stop. *)
Lemma stop_never_unlinks_the_binary_witness :
  "/app/binary-wrapper.sh" <> BINARY_PATH default_config.
Proof.
  apply (stop_never_unlinks_the_binary default_config
           [InstallSecrets true true true;
            Start false 1000 {| keyExit := Some 0%Z; newPid := Some 4242%Z |};
            StopCalled 2000 2000 false; StopUnlinked 0 true]
           "/app/binary-wrapper.sh").
  apply list_elem_of_In. vm_compute.
  repeat first [left; reflexivity | right].
Defined.

(** ** The delay of a restart *)

(** When the exit handler schedules a restart, the counter was below the
    maximum, and the delay of the timer, for a restart delay and a counter
    that are not negative and [Math.random()] in [0, 1), is at least the
    smaller of RESTART_DELAY and 30000 ms and at most 39000 ms. *)
Lemma on_exit_delay_bounds (CONFIG : Config) (now : Z) (random : Q)
    (st : ProcessState) (ms : Z) :
  (0 <= RESTART_DELAY CONFIG)%Z -> (0 <= restartCount st)%Z ->
  (0 <= random)%Q -> (random < 1)%Q ->
  SetTimeout ms ∈ (on_exit CONFIG now random st).2 ->
  (restartCount st < MAX_RESTART_ATTEMPTS CONFIG)%Z /\
  (Z.min (RESTART_DELAY CONFIG) 30000 <= ms <= 39000)%Z.
Proof.
  intros Hrd Hrc Hr0 Hr1. unfold on_exit. cbn [restartCount set_isHealthy].
  destruct (restartCount st <? MAX_RESTART_ATTEMPTS CONFIG)%Z eqn:Hlt; cbn [snd].
  - intros Hin.
    repeat (apply elem_of_cons in Hin as [Hin|Hin]; [discriminate|]).
    apply list_elem_of_singleton in Hin. injection Hin as ->.
    apply Z.ltb_lt in Hlt. split; [done|].
    cbn [restartCount set_restartCount].
    replace (restartCount st + 1 - 1)%Z with (restartCount st) by lia.
    by apply restart_timer_bounds.
  - intros Hin.
    repeat (apply elem_of_cons in Hin as [Hin|Hin]; [discriminate|]).
    by apply elem_of_nil in Hin.
Qed.

(** X13. In every run from the initial state the restart counter stays
    between zero and the configured maximum (zero when the maximum is
    negative). Hence, whenever the exit of a child schedules a restart, the
    counter was below the maximum and the delay of the timer, for a restart
    delay that is not negative and [Math.random()] in [0, 1), is at least
    the smaller of RESTART_DELAY and 30000 ms and at most 39000 ms. *)
Theorem restart_delay_in_every_run (CONFIG : Config) (evs : list event)
    (c : nat) (now : Z) (random : Q) (ms : Z) :
  (0 <= RESTART_DELAY CONFIG)%Z -> (0 <= random)%Q -> (random < 1)%Q ->
  let sys := (run_events CONFIG (initial_system CONFIG) evs).1 in
  (0 <= restartCount (state sys) <= Z.max 0 (MAX_RESTART_ATTEMPTS CONFIG))%Z /\
  (SetTimeout ms ∈ (step CONFIG sys (ChildExit c now random)).2 ->
   (restartCount (state sys) < MAX_RESTART_ATTEMPTS CONFIG)%Z /\
   (Z.min (RESTART_DELAY CONFIG) 30000 <= ms <= 39000)%Z).
Proof.
  intros Hrd Hr0 Hr1. cbv zeta.
  pose proof (run_accounted CONFIG evs (initial_system CONFIG) ltac:(done))
    as (H0 & H1 & _).
  set (sys := (run_events CONFIG (initial_system CONFIG) evs).1) in *.
  split; [split; [done|]; apply H1; simpl; lia|].
  cbn [step]. unfold child_exit.
  destruct (children sys !! c) as [info|]; [|by intros ?%elem_of_nil].
  destruct (exited info); [by intros ?%elem_of_nil|].
  destruct (exitObserver info) as [closure|]; [|by intros ?%elem_of_nil].
  pose proof (on_exit_delay_bounds CONFIG now random (state sys) ms Hrd H0 Hr0 Hr1)
    as Hb.
  destruct (on_exit CONFIG now random (state sys)) as [st eff]. exact Hb.
Qed.

(** An instance of X13: the first exit after a [start] under the default
    configuration, with [Math.random()] = 1/2. *)
Lemma restart_delay_in_every_run_witness :
  (restartCount started_state < MAX_RESTART_ATTEMPTS default_config)%Z /\
  (Z.min (RESTART_DELAY default_config) 30000 <= 2300 <= 39000)%Z.
Proof.
  apply (restart_delay_in_every_run default_config
           [Start false 1000 {| keyExit := Some 0%Z; newPid := Some 4242%Z |}]
           0 9000 (1 # 2) 2300).
  - vm_compute. discriminate.
  - discriminate.
  - reflexivity.
  - apply list_elem_of_In. vm_compute.
    repeat first [left; reflexivity | right].
Defined.

(** ** After [stop], and other edges of the hooks *)

(** X14. After a [stop] that found a child, the supervisor is idle: every
    health evaluation answers false without probing or scanning, and
    another [stop] sends no signal and changes nothing. *)
Theorem idle_after_stop (CONFIG : Config) (wrapper : option string)
    (env : StopEnv) (st : ProcessState) (child : ChildProcess) :
  process st = Some child ->
  exists (st' : ProcessState) (eff : list effect),
    stop CONFIG wrapper env st = Some (st', eff) /\
    (forall henv,
        (health CONFIG henv st').1.1 = false /\
        (health CONFIG henv st').2 = [Log Info "Health check completed"]) /\
    (forall wrapper' env',
        stop CONFIG wrapper' env' st'
        = Some (st', [Log Info "Stopping binary service";
                      Log Warn "No process to stop"])).
Proof.
  intros Hproc.
  destruct (poll_shutdown_total CONFIG env child) as [[o polled] Hpoll].
  unfold stop at 1. rewrite Hproc, Hpoll.
  eexists _, _. split; [reflexivity|]. split.
  - intros henv. by unfold health, checkBinaryHealth, cache_lookup.
  - intros wrapper' env'. by unfold stop.
Qed.

(** An instance of X14: stopping the child of [started_state]. *)
Lemma idle_after_stop_witness :
  exists (st' : ProcessState) (eff : list effect),
    stop default_config None
      {| alive_at := fun _ => false; overrun := fun _ => 0; unlink_ok := true |}
      started_state = Some (st', eff) /\
    (forall henv, (health default_config henv st').1.1 = false).
Proof.
  destruct (idle_after_stop default_config None
              {| alive_at := fun _ => false; overrun := fun _ => 0;
                 unlink_ok := true |}
              started_state {| cid := 0; pid := Some 4242%Z |})
    as (st' & eff & Hstop & Hhealth & _); [vm_compute; reflexivity|].
  exists st', eff. split; [exact Hstop|]. intros henv. apply Hhealth.
Defined.

(** X15. A [start] whose key-setting step fails (no wrapper, exit code of
    the key process not 0) spawns no binary and registers nothing, keeps
    the child handle it found, and has all the same reset the state:
    counter 0, health flag false, no snapshot, empty buffer. *)
Theorem start_with_rejected_key (CONFIG : Config) (now : Z) (sp : SpawnEnv)
    (sys : System) :
  AUTO_KEY_INJECTION CONFIG = false -> keyExit sp <> Some 0%Z ->
  let r := start CONFIG false now sp sys in
  count is_spawn r.2 = 0 /\
  children r.1 = children sys /\ timers r.1 = timers sys /\
  startups r.1 = startups sys /\
  process (state r.1) = process (state sys) /\
  restartCount (state r.1) = 0%Z /\ isHealthy (state r.1) = false /\
  healthCache (state r.1) = None /\ lastUptime (state r.1) = Num 0 /\
  startTime (state r.1) = now /\
  CircularBuffer.getAll (logs (state r.1)) = [].
Proof.
  intros Hauto Hkey. cbv zeta. unfold start, startBinaryProcess.
  rewrite Hauto. cbn [orb negb].
  destruct (keyExit sp) as [[| |]|]; try done.
Qed.

(** An instance of X15: the key process exits with code 1. *)
Lemma start_with_rejected_key_witness :
  count is_spawn
    (start default_config false 1000 {| keyExit := Some 1%Z; newPid := None |}
       (initial_system default_config)).2 = 0.
Proof.
  apply (start_with_rejected_key default_config 1000
           {| keyExit := Some 1%Z; newPid := None |}
           (initial_system default_config)).
  - reflexivity.
  - discriminate.
Defined.

(** X16. A child handle without a pid is never probed and never killed by
    force: [stop] sends it SIGTERM, skips the polling loop and resets the
    state. *)
Theorem stop_child_without_pid (CONFIG : Config) (wrapper : option string)
    (env : StopEnv) (st : ProcessState) (child : ChildProcess) :
  process st = Some child -> truthy_pid child = None ->
  stop CONFIG wrapper env st
  = Some (reset_stopped st,
          [Log Info "Stopping binary service"; Kill (cid child) SIGTERM;
           Log Info "Sent SIGTERM to binary process"]
          ++ cleanup_wrapper CONFIG wrapper env
          ++ [Log Info "Binary service stopped successfully"]).
Proof.
  intros Hproc Hpid.
  destruct (poll_shutdown_total CONFIG env child) as [[o polled] Hpoll].
  destruct (poll_shutdown_no_pid CONFIG env child _ _ _ _ _ Hpid Hpoll) as [-> Hf].
  unfold stop. by rewrite Hproc, Hpoll, Hf.
Qed.

(** An instance of X16: a handle whose pid is undefined. *)
Lemma stop_child_without_pid_witness :
  (stop default_config None
     {| alive_at := fun _ => true; overrun := fun _ => 0; unlink_ok := true |}
     (set_process (Some {| cid := 0; pid := None |}) started_state))
  = Some (reset_stopped started_state,
          [Log Info "Stopping binary service"; Kill 0 SIGTERM;
           Log Info "Sent SIGTERM to binary process";
           Log Info "Binary service stopped successfully"]).
Proof.
  apply (stop_child_without_pid default_config None _
           (set_process (Some {| cid := 0; pid := None |}) started_state)
           {| cid := 0; pid := None |}); reflexivity.
Defined.

(** X17. An evaluation that misses the cache and finds the child running
    reports [uptimeIncreasing] exactly when the extracted uptime is above
    the last observed one, which it then replaces; otherwise the last
    observed uptime stays: it never decreases. *)
Theorem uptime_trend (CONFIG : Config) (env : HealthEnv) (st : ProcessState)
    (child : ChildProcess) (p : Z) (a : Q) :
  cache_lookup CONFIG (now_check env) st = None ->
  process st = Some child -> truthy_pid child = Some p -> alive env = true ->
  lastUptime st = Num a ->
  let r := checkBinaryHealth CONFIG env st in
  exists q : Q,
    uptime r.1.1 = Num q /\
    (uptimeIncreasing r.1.1 = true <-> (a < q)%Q) /\
    ((a < q)%Q -> lastUptime r.1.2 = Num q) /\
    ((q <= a)%Q -> lastUptime r.1.2 = Num a).
Proof.
  intros Hmiss Hproc Hpid Halive Hlast. cbv zeta.
  unfold checkBinaryHealth. rewrite Hmiss, Hproc, Hpid, Halive. cbn [negb fst snd].
  destruct (extractUptime_number (logs st)) as (q & Hq & _).
  rewrite Hq, Hlast. exists q. cbn [uptime uptimeIncreasing].
  split; [done|]. split; [apply gtb_true|].
  destruct (Number.gtb (Num q) (Num a)) eqn:Hgt.
  - apply gtb_true in Hgt. split; [done|]. intros Hle. exfalso. lra.
  - apply gtb_false in Hgt. split; [|by rewrite <- Hlast].
    intros Hlt. exfalso. lra.
Qed.

(** An instance of X17: the first uptime line after [start]. *)
Lemma uptime_trend_witness :
  let st := (on_stdout_line "uptime: 3 seconds" 0 started_state).1 in
  let env := {| now_check := 7000; alive := true; now_grace := 7000;
                now_store := 7000; duration := 1; heapUsed := 0 |} in
  exists q : Q, uptime (checkBinaryHealth default_config env st).1.1 = Num q.
Proof.
  cbv zeta.
  destruct (uptime_trend default_config
              {| now_check := 7000; alive := true; now_grace := 7000;
                 now_store := 7000; duration := 1; heapUsed := 0 |}
              (on_stdout_line "uptime: 3 seconds" 0 started_state).1
              {| cid := 0; pid := Some 4242%Z |} 4242 0)
    as (q & Hq & _); try reflexivity.
  by exists q.
Defined.

(** ** The log buffer of the supervisor *)

Section LogBuffer.
Variable CONFIG : Config.

(** A step leaves the log buffer alone, pushes one line, or clears it. *)
Lemma step_logs_evolve (sys : System) (ev : event) :
  let l := logs (state sys) in
  let l' := logs (state (step CONFIG sys ev).1) in
  l' = l \/ (exists x, l' = CircularBuffer.push x l) \/ l' = CircularBuffer.clear l.
Proof.
  cbv zeta.
  assert (Hstretch := stop_stretch_frame CONFIG sys ev).
  destruct ev as [ok ne w | k now sp | env | env | env | t0 now alive
                  | call now alive | call ok | c line d
                  | c line | c now random | t sp now];
    try (destruct (Hstretch I) as ([-> | ->] & _);
         [by left | by right; right]);
    clear Hstretch; cbn [step].
  - unfold installSecrets. destruct ok; by left.
  - unfold start.
    destruct (startBinaryProcess CONFIG _ _ sp _) as [[child|] eff];
      [destruct (truthy_pid child)|]; right; right; reflexivity.
  - destruct (startups sys); [by left|]. unfold initial_health_check.
    pose proof (checkBinaryHealth_logs CONFIG env (state sys)) as Hlogs.
    destruct (checkBinaryHealth CONFIG env (state sys)) as [[m st] eff]. by left.
  - unfold health.
    pose proof (checkBinaryHealth_logs CONFIG env (state sys)) as Hlogs.
    destruct (checkBinaryHealth CONFIG env (state sys)) as [[m st] eff]. by left.
  - destruct (stop CONFIG _ env (state sys)) as [[st eff]|] eqn:Hstop; [|by left].
    apply stop_logs in Hstop as [Hsame|Hclear]; [by left | by right; right].
  - destruct (is_monitored c sys); [|by left]. right; left. by eexists.
  - destruct (is_monitored c sys); [|by left]. right; left. by eexists.
  - unfold child_exit.
    destruct (children sys !! c) as [info|]; [|by left].
    destruct (exited info); [by left|].
    destruct (exitObserver info); [|by left].
    unfold on_exit. cbn.
    destruct (restartCount (state sys) <? MAX_RESTART_ATTEMPTS CONFIG)%Z; by left.
  - unfold timer_fires.
    destruct (timers sys !! t) as [[closure|]|]; [|by left..].
    unfold on_restart_timer.
    destruct (startBinaryProcess CONFIG _ _ sp _) as [[child|] eff];
      [by right; right | by left].
Qed.

End LogBuffer.

(** X18. The memory of the log buffer is bounded: in every run from the
    initial state, for every value of MAX_LOG_LINES, the buffer keeps its
    capacity MAX_LOG_LINES and holds, and returns, at most that many
    lines. *)
Theorem log_buffer_bounded (CONFIG : Config) (evs : list event) :
  let b := logs (state (run_events CONFIG (initial_system CONFIG) evs).1) in
  CircularBuffer.capacity b = MAX_LOG_LINES CONFIG /\
  CircularBuffer.size b <= MAX_LOG_LINES CONFIG /\
  length (CircularBuffer.getAll b) <= MAX_LOG_LINES CONFIG.
Proof.
  cbv zeta.
  assert (Hgen : forall sys,
            CircularBuffer.capacity (logs (state sys)) = MAX_LOG_LINES CONFIG /\
            CircularBuffer.size (logs (state sys)) <= MAX_LOG_LINES CONFIG ->
            let b := logs (state (run_events CONFIG sys evs).1) in
            CircularBuffer.capacity b = MAX_LOG_LINES CONFIG /\
            CircularBuffer.size b <= MAX_LOG_LINES CONFIG).
  { induction evs as [|ev evs IH]; intros sys Hinv; [done|].
    cbn [run_events].
    pose proof (step_logs_evolve CONFIG sys ev) as Hstep. cbv zeta in Hstep.
    destruct (step CONFIG sys ev) as [sys1 eff1]. cbn [fst] in Hstep.
    assert (Hinv1 : CircularBuffer.capacity (logs (state sys1)) = MAX_LOG_LINES CONFIG /\
                    CircularBuffer.size (logs (state sys1)) <= MAX_LOG_LINES CONFIG).
    { destruct Hinv as [Hc Hs].
      destruct Hstep as [-> | [[x ->] | ->]]; cbn; [done | lia | lia]. }
    specialize (IH sys1 Hinv1). cbv zeta in IH.
    by destruct (run_events CONFIG sys1 evs) as [sys2 eff2]. }
  destruct (Hgen (initial_system CONFIG)) as [Hc Hs]; [cbn; lia|].
  split_and!; [done | done |].
  etrans; [apply length_getAll_le | done].
Qed.

(** ** From [start] to the first verdict *)

Lemma getRecent_from_empty {T : Type} (cap n : nat) (ys : list T)
    (b : CircularBuffer.t T) :
  0 < cap -> represents cap [] b -> 1 <= n ->
  CircularBuffer.getRecent n (CircularBuffer.push_all ys b)
  = drop (length ys - min n cap) ys.
Proof.
  intros Hcap Hrep Hn.
  pose proof (represents_push_all_from cap [] ys b Hcap Hrep) as Hrep'.
  unfold CircularBuffer.getRecent.
  rewrite (getAll_represents cap ([] ++ ys)) by done. cbn [app].
  destruct n as [|n]; [lia|]. unfold JS.slice_neg.
  rewrite drop_drop, length_drop. f_equal. lia.
Qed.

Section StartToVerdict.
Variable CONFIG : Config.

Lemma run_events_app (sys : System) (evs1 evs2 : list event) :
  (run_events CONFIG sys (evs1 ++ evs2)).1
  = (run_events CONFIG (run_events CONFIG sys evs1).1 evs2).1.
Proof.
  revert sys. induction evs1 as [|ev evs1 IH]; intros sys; [done|].
  cbn [app run_events]. destruct (step CONFIG sys ev) as [sys1 eff1].
  specialize (IH sys1).
  destruct (run_events CONFIG sys1 (evs1 ++ evs2)) as [sys2 eff2].
  destruct (run_events CONFIG sys1 evs1) as [sys3 eff3]. cbn [fst] in *.
  by destruct (run_events CONFIG sys3 evs2).
Qed.

Lemma start_success (k : bool) (now : Z) (sp : SpawnEnv) (sys : System) (p : Z) :
  keyExit sp = Some 0%Z -> newPid sp = Some p -> p <> 0%Z ->
  let r := start CONFIG k now sp sys in
  state r.1
  = monitorProcessLogs
      (set_process (Some (started_child sys p))
         (reset_for_start now (state sys))) /\
  startups r.1 = S (startups sys) /\
  exists closure,
    children r.1
    = children sys ++ [{| handle := started_child sys p;
                          exitObserver := Some closure;
                          monitored := true; exited := false |}].
Proof.
  intros Hkey Hpid Hp. cbv zeta. unfold start, startBinaryProcess, started_child.
  rewrite Hkey, Hpid.
  assert (Ht : truthy_pid {| cid := length (children sys); pid := Some p |} = Some p).
  { unfold truthy_pid. cbn. by rewrite (proj2 (Z.eqb_neq p 0) Hp). }
  destruct (AUTO_KEY_INJECTION CONFIG || k); cbn [negb]; rewrite Ht; cbn [fst];
    (split_and!; [done | done | by eexists]).
Qed.

(** Lines on the stdout of a monitored child are pushed in order, and
    nothing else that the verdict depends on changes. *)
Lemma run_stdout_lines (c : nat) (ys : list string) (sys : System) :
  is_monitored c sys = true ->
  let sys' := (run_events CONFIG sys (map (fun l => StdoutLine c l 0) ys)).1 in
  logs (state sys') = CircularBuffer.push_all ys (logs (state sys)) /\
  process (state sys') = process (state sys) /\
  lastUptime (state sys') = lastUptime (state sys) /\
  healthCache (state sys') = healthCache (state sys) /\
  children sys' = children sys /\ startups sys' = startups sys.
Proof.
  revert sys. induction ys as [|y ys IH]; intros sys Hmon; [done|].
  cbn [map run_events step]. rewrite Hmon. cbn.
  specialize (IH (with_state
                    (on_stdout_line y 0 (state sys)).1 sys) Hmon).
  cbv zeta in IH. unfold on_stdout_line in IH. cbn [fst] in IH.
  destruct (run_events CONFIG _ (map _ ys)) as [sys2 eff2].
  cbn [fst] in *. destruct IH as (Hl & Hp & Hu & Hc & Hk & Hs).
  rewrite Hl, Hp, Hu, Hc, Hk, Hs. done.
Qed.

(** What an evaluation leaves alone, and the snapshot it may store. *)
Lemma checkBinaryHealth_frame (env : HealthEnv) (st : ProcessState) :
  let st' := (checkBinaryHealth CONFIG env st).1.2 in
  process st' = process st /\
  (healthCache st' = healthCache st \/
   exists m, healthCache st'
             = Some {| entry_metrics := m; entry_timestamp := now_store env |}).
Proof.
  cbv zeta. unfold checkBinaryHealth.
  destruct (cache_lookup CONFIG (now_check env) st); [by split; [|left]|].
  destruct (process st) as [child|] eqn:Hproc; [|by split; [|left]].
  destruct (truthy_pid child); [|by split; [|left]].
  destruct (alive env); cbn [negb]; [|by split; [|left]].
  cbn [fst snd]. split; [|right; by eexists].
  by destruct (Number.gtb _ _).
Qed.

End StartToVerdict.

(** X19. From [start] to the verdict. A [start] obtains a child with a
    pid (on a buffer of capacity MAX_LOG_LINES > 0, as it is in every
    reachable state); the child writes the lines [ys1] on its stdout; the
    grace period ends and [start] makes its initial evaluation; the child
    writes the lines [ys2]. Then a [health] call that comes at least
    HEALTH_CACHE_TTL after the initial evaluation and finds the child
    running answers true exactly when, among the last 50 of the lines
    written (or MAX_LOG_LINES, if that is less), the most recent uptime
    line reports more than 0 and no line contains an error keyword. *)
Theorem health_after_start (CONFIG : Config) (k : bool) (now : Z)
    (sp : SpawnEnv) (sys : System) (p : Z) (ys1 ys2 : list string)
    (env0 env : HealthEnv) :
  0 < MAX_LOG_LINES CONFIG ->
  CircularBuffer.capacity (logs (state sys)) = MAX_LOG_LINES CONFIG ->
  keyExit sp = Some 0%Z -> newPid sp = Some p -> p <> 0%Z ->
  (HEALTH_CACHE_TTL CONFIG <= now_check env - now_store env0)%Z ->
  alive env = true ->
  let stdout := map (fun l => StdoutLine (length (children sys)) l 0) in
  let evs := Start k now sp :: stdout ys1 ++ GraceElapsed env0 :: stdout ys2 in
  let st := state (run_events CONFIG sys evs).1 in
  let ys := ys1 ++ ys2 in
  let recent := drop (length ys - min 50 (MAX_LOG_LINES CONFIG)) ys in
  (health CONFIG env st).1.1 = true <->
  (exists q, scan_newest_first (rev recent) = Num q /\ (0 < q)%Q) /\
  (forall l kw, l ∈ recent -> kw ∈ ERROR_KEYWORDS ->
                JSString.includes kw (JSString.toLowerCase l) = false).
Proof.
  intros Hcap Hcapacity Hkey Hpid Hp Hstale Halive. cbv zeta.
  set (c := length (children sys)).
  change (Start k now sp :: ?l) with ([Start k now sp] ++ l).
  change (map (fun l => StdoutLine c l 0) ys1
          ++ GraceElapsed env0 :: map (fun l => StdoutLine c l 0) ys2)
    with (map (fun l => StdoutLine c l 0) ys1
          ++ [GraceElapsed env0] ++ map (fun l => StdoutLine c l 0) ys2).
  rewrite !run_events_app.
  destruct (start_success CONFIG k now sp sys p Hkey Hpid Hp)
    as (Hstate & Hstartups & closure & Hkids).
  cbv zeta in Hstate, Hstartups, Hkids.
  assert (Hsys1 : (run_events CONFIG sys [Start k now sp]).1
                  = (start CONFIG k now sp sys).1).
  { cbn [run_events step]. by destruct (start CONFIG k now sp sys). }
  rewrite Hsys1.
  set (sys1 := (start CONFIG k now sp sys).1) in *.
  assert (Hmon1 : is_monitored c sys1 = true).
  { unfold is_monitored, c. by rewrite Hkids, list_lookup_middle. }
  destruct (run_stdout_lines CONFIG c ys1 sys1 Hmon1)
    as (Hl2 & Hp2 & Hu2 & Hc2 & Hk2 & Hs2).
  cbv zeta in Hl2, Hp2, Hu2, Hc2, Hk2, Hs2.
  set (sys2 := (run_events CONFIG sys1 _).1) in *.
  rewrite Hstate in Hl2, Hp2, Hu2, Hc2. cbn in Hp2, Hu2, Hc2.
  (* the initial evaluation of [start] *)
  assert (Hsys3 : exists sys3,
             (run_events CONFIG sys2 [GraceElapsed env0]).1 = sys3 /\
             state sys3 = (initial_health_check CONFIG env0 (state sys2)).1 /\
             children sys3 = children sys2).
  { cbn [run_events step]. rewrite Hs2, Hstartups.
    destruct (initial_health_check CONFIG env0 (state sys2)) as [st3 eff3].
    eexists. split; [reflexivity|]. done. }
  destruct Hsys3 as (sys3 & -> & Hst3 & Hk3).
  assert (Hcheck : state sys3
                   = set_isHealthy (isHealthy (state sys3))
                       (checkBinaryHealth CONFIG env0 (state sys2)).1.2).
  { rewrite Hst3. unfold initial_health_check.
    by destruct (checkBinaryHealth CONFIG env0 (state sys2)) as [[h st'] eff]. }
  pose proof (checkBinaryHealth_frame CONFIG env0 (state sys2)) as (Hp3 & Hc3).
  pose proof (checkBinaryHealth_logs CONFIG env0 (state sys2)) as Hl3.
  assert (Hord3 : uptime_in_order (state sys3)).
  { rewrite Hcheck.
    apply (uptime_in_order_same
             (checkBinaryHealth CONFIG env0 (state sys2)).1.2); [done | done |].
    apply checkBinaryHealth_uptime_in_order.
    by apply uptime_in_order_reset. }
  assert (Hmon3 : is_monitored c sys3 = true).
  { unfold is_monitored. rewrite Hk3, Hk2. exact Hmon1. }
  destruct (run_stdout_lines CONFIG c ys2 sys3 Hmon3)
    as (Hl4 & Hp4 & Hu4 & Hc4 & _).
  cbv zeta in Hl4, Hp4, Hu4, Hc4.
  set (sys4 := (run_events CONFIG sys3 _).1) in *.
  set (child := started_child sys p) in *.
  assert (Hproc : process (state sys4) = Some child).
  { rewrite Hp4, Hcheck. cbn. by rewrite Hp3, Hp2. }
  assert (Hlogs : logs (state sys4)
                  = CircularBuffer.push_all (ys1 ++ ys2)
                      (CircularBuffer.clear
                         (CircularBuffer.clear (logs (state sys))))).
  { rewrite Hl4, Hcheck. cbn [logs set_isHealthy]. rewrite Hl3, Hl2.
    unfold CircularBuffer.push_all. by rewrite foldl_app. }
  assert (Hmiss : cache_lookup CONFIG (now_check env) (state sys4) = None).
  { assert (Hentry : healthCache (state sys4)
                     = healthCache (checkBinaryHealth CONFIG env0 (state sys2)).1.2).
    { by rewrite Hc4, Hcheck. }
    destruct Hc3 as [Hsame | [m Hm]].
    - unfold cache_lookup. by rewrite Hentry, Hsame, Hc2.
    - rewrite Hm in Hentry. by apply (cache_lookup_stale CONFIG _ _ _ Hentry). }
  destruct Hord3 as (a & Ha & Ha0 & _).
  assert (Ht : truthy_pid child = Some p).
  { unfold truthy_pid, child, started_child. cbn.
    by rewrite (proj2 (Z.eqb_neq p 0) Hp). }
  assert (Hrecent : CircularBuffer.getRecent 50 (logs (state sys4))
                    = drop (length (ys1 ++ ys2) - min 50 (MAX_LOG_LINES CONFIG))
                        (ys1 ++ ys2)).
  { rewrite Hlogs. apply getRecent_from_empty; [done | | lia].
    apply represents_clear. cbn. done. }
  rewrite (health_verdict_iff CONFIG env (state sys4) child p a);
    [ | done | done | done | done | by rewrite Hu4 | done ].
  unfold extractUptimeFromLogs. by rewrite Hrecent.
Qed.

(** An instance of X19: the child reports its uptime before and after the
    initial evaluation, and [health] is called 6 s after it. *)
Lemma health_after_start_witness :
  let sp := {| keyExit := Some 0%Z; newPid := Some 4242%Z |} in
  let env0 := {| now_check := 6000; alive := true; now_grace := 6000;
                 now_store := 6000; duration := 1; heapUsed := 0 |} in
  let env := {| now_check := 12000; alive := true; now_grace := 12000;
                now_store := 12000; duration := 1; heapUsed := 0 |} in
  (health default_config env
     (state (run_events default_config (initial_system default_config)
               [Start false 1000 sp;
                StdoutLine 0 "starting" 0; StdoutLine 0 "uptime: 4 seconds" 0;
                GraceElapsed env0;
                StdoutLine 0 "uptime: 10 seconds" 0]).1)).1.1 = true.
Proof.
  cbv zeta.
  apply (health_after_start default_config false 1000
           {| keyExit := Some 0%Z; newPid := Some 4242%Z |}
           (initial_system default_config) 4242
           ["starting"; "uptime: 4 seconds"] ["uptime: 10 seconds"]
           {| now_check := 6000; alive := true; now_grace := 6000;
              now_store := 6000; duration := 1; heapUsed := 0 |}
           {| now_check := 12000; alive := true; now_grace := 12000;
              now_store := 12000; duration := 1; heapUsed := 0 |}).
  - cbn. lia.
  - reflexivity.
  - reflexivity.
  - reflexivity.
  - discriminate.
  - vm_compute. discriminate.
  - reflexivity.
  - split.
    + exists 10%Q. split; [vm_compute; reflexivity | reflexivity].
    + intros l kw Hl Hkw. cbn in Hl.
      unfold ERROR_KEYWORDS in Hkw.
      repeat (apply elem_of_cons in Hl as [->|Hl];
              [repeat (apply elem_of_cons in Hkw as [->|Hkw];
                       [vm_compute; reflexivity|]);
               by apply elem_of_nil in Hkw|]).
      by apply elem_of_nil in Hl.
Defined.

(** ** Lines that the uptime patterns do read *)

Section Reading.

Lemma run_seq (r1 r2 : regex) (s : list ascii) (cap : captures)
    (k : list ascii -> captures -> option captures) :
  Regex.run (Seq r1 r2) s cap k
  = Regex.run r1 s cap (fun s' cap' => Regex.run r2 s' cap' k).
Proof. reflexivity. Qed.

Lemma run_class_cons (p : ascii -> bool) (x : ascii) (s : list ascii)
    (cap : captures) (k : list ascii -> captures -> option captures) :
  p x = true -> Regex.run (Class p) (x :: s) cap k = k s cap.
Proof. intros Hx. cbn [Regex.run]. by rewrite Hx. Qed.

Lemma run_lit_chars (cs u rest : list ascii) (cap : captures)
    (k : list ascii -> captures -> option captures) :
  map JSString.lower_char u = map JSString.lower_char cs ->
  Regex.run (lit_chars cs) (u ++ rest) cap k = k rest cap.
Proof.
  revert u. induction cs as [|c cs IH]; intros [|x u] Heq; try discriminate.
  - reflexivity.
  - injection Heq as Hx Hu. cbn [lit_chars app]. rewrite run_seq.
    cbn [Regex.run]. unfold same_char_i. rewrite bool_decide_eq_true_2 by done.
    by apply IH.
Qed.

(** The greedy star over a character class takes the whole run of
    characters of the class when the rest of the match succeeds from
    there. *)
Lemma run_star_class (p : ascii -> bool) (u rest : list ascii) (cap : captures)
    (k : list ascii -> captures -> option captures) (res : captures) :
  Forall (fun x => p x = true) u ->
  match rest with [] => True | x :: _ => p x = false end ->
  k rest cap = Some res ->
  Regex.run (Star (Class p)) (u ++ rest) cap k = Some res.
Proof.
  intros Hu Hrest Hk. cbn [Regex.run].
  assert (Hfuel : length u <= length (u ++ rest)) by (rewrite length_app; lia).
  revert Hfuel. generalize (length (u ++ rest)). intros fuel.
  revert fuel. induction Hu as [|x u Hx _ IH]; intros fuel Hfuel.
  - cbn [app]. destruct fuel as [|fuel]; [done|].
    destruct rest as [|y rest]; [done|]. by rewrite Hrest.
  - destruct fuel as [|fuel]; [cbn in Hfuel; lia|].
    cbn [app]. rewrite Hx.
    destruct (decide (length (u ++ rest) < length (x :: u ++ rest))) as [_|Hn];
      [|cbn in Hn; lia].
    rewrite IH by (cbn in Hfuel; lia). done.
Qed.

Lemma run_plus_class (p : ascii -> bool) (u rest : list ascii) (cap : captures)
    (k : list ascii -> captures -> option captures) (res : captures) :
  u <> [] -> Forall (fun x => p x = true) u ->
  match rest with [] => True | x :: _ => p x = false end ->
  k rest cap = Some res ->
  Regex.run (Plus (Class p)) (u ++ rest) cap k = Some res.
Proof.
  intros Hne Hu Hrest Hk. destruct u as [|x u]; [done|].
  apply Forall_cons in Hu as [Hx Hu].
  unfold Plus. rewrite run_seq. cbn [app]. rewrite run_class_cons by done.
  by apply run_star_class.
Qed.

Lemma head_of_app (P : ascii -> Prop) (sp : list ascii) (x : ascii)
    (tail : list ascii) :
  Forall P sp -> P x ->
  match sp ++ x :: tail with [] => True | y :: _ => P y end.
Proof. intros Hsp Hx. destruct Hsp; done. Qed.

Lemma digit_not_separator (c : ascii) :
  is_digit c = true -> is_colon_or_space c = false.
Proof. destruct c as [[] [] [] [] [] [] [] []]; vm_compute; congruence. Qed.

Lemma space_not_number (c : ascii) :
  is_space c = true -> is_digit c = false /\ same_char_i c "." = false.
Proof. destruct c as [[] [] [] [] [] [] [] []]; vm_compute; by try split. Qed.

Lemma letter_s (x : ascii) :
  JSString.lower_char x = "s"%char ->
  is_digit x = false /\ is_space x = false /\
  same_char_i x "." = false /\ same_char_i x "s" = true.
Proof. destruct x as [[] [] [] [] [] [] [] []]; vm_compute; by try split_and!. Qed.

Lemma read_digits_all (ds : list ascii) (acc : Z) (k : nat) :
  all_digits ds ->
  Number.read_digits acc k ds
  = (fold_left (fun a c => (10 * a + default 0 (Number.digit c))%Z) ds acc,
     k + length ds, []).
Proof.
  intros Hds. revert acc k. induction Hds as [|d ds Hd _ IH]; intros acc k.
  - cbn. by rewrite Nat.add_0_r.
  - apply is_digit_value in Hd as (v & Hv & _).
    cbn [Number.read_digits fold_left length]. rewrite Hv, IH. cbn [default].
    do 2 f_equal. lia.
Qed.

Lemma parseFloat_digits (ds : list ascii) :
  ds <> [] -> all_digits ds ->
  Number.parseFloat ds = Num (inject_Z (decimal_value ds)).
Proof.
  intros Hne Hds. unfold Number.parseFloat. rewrite read_digits_all by done.
  destruct ds as [|d ds]; [done|]. reflexivity.
Qed.

(** A continuation that ends the match. *)
Lemma groupless_result (r : regex) (s : list ascii) (cap res : captures) :
  groupless r = true ->
  Regex.run r s cap (fun _ c => Some c) = Some res -> res = cap.
Proof.
  intros Hg Hrun.
  apply run_sound in Hrun as (u & s' & c' & _ & Hm & [= <-]).
  by apply (Matches_groupless r u cap c').
Qed.

Lemma run_seconds_unit (sp : list ascii) (x : ascii) (tail : list ascii)
    (cap : captures) :
  Forall (fun c => is_space c = true) sp -> JSString.lower_char x = "s"%char ->
  Regex.run seconds_unit (sp ++ x :: tail) cap (fun _ c => Some c) = Some cap.
Proof.
  intros Hsp Hx. destruct (letter_s x Hx) as (_ & Hxs & _ & Hs).
  unfold seconds_unit. rewrite run_seq.
  apply run_star_class; [done | exact Hxs |].
  change (Regex.run (Alt ?a ?b) ?s ?c ?k)
    with (match Regex.run a s c k with
          | Some res => Some res
          | None => Regex.run b s c k
          end).
  destruct (Regex.run (Seq (lit "second") (Opt (Chr "s"))) (x :: tail) cap _)
    as [res|] eqn:Hfirst.
  - f_equal. by apply groupless_result in Hfirst.
  - cbn [Regex.run]. by rewrite Hs.
Qed.

Lemma run_number_group (ds sp : list ascii) (x : ascii) (tail : list ascii)
    (cap : captures) :
  ds <> [] -> all_digits ds ->
  Forall (fun c => is_space c = true) sp -> JSString.lower_char x = "s"%char ->
  Regex.run (Seq number_group seconds_unit) (ds ++ sp ++ x :: tail) cap
            (fun _ c => Some c)
  = Some (Some ds).
Proof.
  intros Hne Hds Hsp Hx. destruct (letter_s x Hx) as (Hxd & _ & Hxdot & _).
  rewrite run_seq. unfold number_group.
  change (Regex.run (Group ?r) ?s ?c ?k)
    with (Regex.run r s c
            (fun s' _ => k s' (Some (take (length s - length s') s)))).
  rewrite run_seq.
  apply run_plus_class; [done | done | |].
  - apply (head_of_app (fun y => is_digit y = false)); [|done].
    eapply Forall_impl; [exact Hsp|]. intros c Hc. by apply space_not_number.
  - unfold Opt.
    change (Regex.run (Alt ?a ?b) ?s ?c ?k)
      with (match Regex.run a s c k with
            | Some res => Some res
            | None => Regex.run b s c k
            end).
    assert (Hdot : forall k,
               Regex.run (Seq (Chr ".") (Plus (Class is_digit)))
                         (sp ++ x :: tail) cap k = None).
    { intros k. rewrite run_seq.
      destruct Hsp as [|c sp Hc Hsp]; cbn [app Regex.run].
      - by rewrite Hxdot.
      - by rewrite (proj2 (space_not_number c Hc)). }
    rewrite Hdot. cbn [Regex.run].
    rewrite length_app, Nat.add_sub, take_app_length.
    by apply run_seconds_unit.
Qed.

(** A line that starts with the word and continues with separators, an
    integer and the unit is matched at its start by the pattern of the
    word, the integer being captured. *)
Lemma exec_word_pattern (word : string) (head sep ds sp : list ascii) (x : ascii)
    (tail : list ascii) :
  map JSString.lower_char head
  = map JSString.lower_char (String.list_ascii_of_string word) ->
  sep <> [] -> Forall (fun c => is_colon_or_space c = true) sep ->
  ds <> [] -> all_digits ds ->
  Forall (fun c => is_space c = true) sp -> JSString.lower_char x = "s"%char ->
  Regex.exec_chars
    (Seq (lit word)
         (Seq (Plus (Class is_colon_or_space)) (Seq number_group seconds_unit)))
    (head ++ sep ++ ds ++ sp ++ x :: tail)
  = Some (Some ds).
Proof.
  intros Hhead Hsep1 Hsep Hne Hds Hsp Hx.
  assert (Hhere :
    Regex.match_here
      (Seq (lit word)
           (Seq (Plus (Class is_colon_or_space)) (Seq number_group seconds_unit)))
      (head ++ sep ++ ds ++ sp ++ x :: tail) = Some (Some ds)).
  { unfold Regex.match_here, lit. rewrite run_seq, run_lit_chars by done.
    rewrite run_seq.
    apply run_plus_class; [done | done | |].
    - destruct ds as [|d ds]; [done|]. cbn [app].
      apply Forall_cons in Hds as [Hd _]. by apply digit_not_separator.
    - by apply run_number_group. }
  destruct (head ++ sep ++ ds ++ sp ++ x :: tail) as [|y l];
    cbn [Regex.exec_chars]; by rewrite Hhere.
Qed.

End Reading.

(** X21. A line that consists of the word "uptime" in any case, one or
    more colons or blanks, a decimal integer of at most 15 digits (which a
    double holds exactly), any number of blanks and then a letter s (the
    start of "s", "second" or "seconds"), whatever follows, gives the value
    of the integer; once such a line is the newest line of the buffer, that
    value is the extracted uptime. *)
Theorem uptime_line_is_read (head sep ds sp : list ascii) (x : ascii)
    (tail : list ascii) :
  map JSString.lower_char head = String.list_ascii_of_string "uptime" ->
  sep <> [] -> Forall (fun c => is_colon_or_space c = true) sep ->
  ds <> [] -> all_digits ds -> length ds <= 15 ->
  Forall (fun c => is_space c = true) sp -> JSString.lower_char x = "s"%char ->
  let line := String.string_of_list_ascii (head ++ sep ++ ds ++ sp ++ x :: tail) in
  match_uptime UPTIME_PATTERNS line = Some (Num (inject_Z (decimal_value ds))) /\
  (forall (cap : nat) (xs : list string) (b : CircularBuffer.t string),
      0 < cap -> represents cap xs b ->
      extractUptimeFromLogs (CircularBuffer.push line b)
      = Num (inject_Z (decimal_value ds))).
Proof.
  intros Hhead Hsep1 Hsep Hne Hds _ Hsp Hx. cbv zeta.
  assert (Hline :
    match_uptime UPTIME_PATTERNS
      (String.string_of_list_ascii (head ++ sep ++ ds ++ sp ++ x :: tail))
    = Some (Num (inject_Z (decimal_value ds)))).
  { unfold UPTIME_PATTERNS. cbn [match_uptime]. unfold Regex.exec.
    rewrite String.list_ascii_of_string_of_list_ascii.
    rewrite (exec_word_pattern "uptime") by done.
    by rewrite parseFloat_digits. }
  split; [exact Hline|].
  intros cap xs b Hcap Hrep. unfold extractUptimeFromLogs.
  rewrite scan_newest_first_last.
  pose proof (getRecent_push_last cap 50 xs b
                (String.string_of_list_ascii (head ++ sep ++ ds ++ sp ++ x :: tail))
                Hcap Hrep) as Hlast.
  destruct (CircularBuffer.getRecent 50 _) as [|l ls] using rev_ind;
    [discriminate|].
  rewrite last_snoc in Hlast. injection Hlast as ->.
  rewrite omap_app. cbn [omap list_omap]. rewrite Hline.
  by rewrite last_snoc.
Qed.

(** An instance of X21: the line "Uptime: 12 seconds". *)
Lemma uptime_line_is_read_witness :
  match_uptime UPTIME_PATTERNS "Uptime: 12 seconds" = Some (Num 12).
Proof.
  apply (uptime_line_is_read
           (String.list_ascii_of_string "Uptime") (String.list_ascii_of_string ": ")
           (String.list_ascii_of_string "12") (String.list_ascii_of_string " ")
           "s"%char (String.list_ascii_of_string "econds")).
  - reflexivity.
  - discriminate.
  - repeat constructor.
  - discriminate.
  - repeat constructor.
  - cbn. lia.
  - repeat constructor.
  - reflexivity.
Defined.

(** ** A restart that is pending when [stop] is called *)

(** X22. [stop] does not cancel a restart that an exit has scheduled: the
    timer stays pending, and when it fires after the [stop] (the key step
    succeeding, or the wrapper being in use) it spawns the binary again
    and makes the new child the current one, with the line readers
    attached. *)
Theorem restart_survives_stop (CONFIG : Config) (sys : System) (t : nat)
    (closure : Closure) (senv : StopEnv) (sp : SpawnEnv) (now : Z) :
  timers sys !! t = Some (Some closure) ->
  captured_useWrapper closure = true \/ keyExit sp = Some 0%Z ->
  let stopped := (step CONFIG sys (Stop senv)).1 in
  let r := step CONFIG stopped (TimerFires t sp now) in
  let child := {| cid := length (children sys); pid := newPid sp |} in
  timers stopped = timers sys /\
  (forall c, process (state sys) = Some c -> process (state stopped) = None) /\
  process (state r.1) = Some child /\
  count is_spawn r.2 = 1 /\
  is_monitored (cid child) r.1 = true /\
  timers r.1 = <[ t := None ]> (timers sys).
Proof.
  intros Htimer Hspawn. cbv zeta.
  assert (Hstop : timers (step CONFIG sys (Stop senv)).1 = timers sys /\
                  children (step CONFIG sys (Stop senv)).1 = children sys /\
                  (forall c, process (state sys) = Some c ->
                             process (state (step CONFIG sys (Stop senv)).1) = None)).
  { cbn [step]. unfold stop.
    destruct (process (state sys)) as [c|] eqn:Hproc; [|done].
    destruct (poll_shutdown_total CONFIG senv c) as [[o polled] Hpoll].
    rewrite Hpoll. done. }
  destruct Hstop as (Ht & Hk & Hp).
  set (stopped := (step CONFIG sys (Stop senv)).1) in *.
  split; [done|]. split; [done|].
  cbn [step]. unfold timer_fires. rewrite Ht, Htimer, Hk.
  unfold on_restart_timer, startBinaryProcess.
  assert (Hmid : forall (l : list ChildInfo) x, is_monitored (length l)
            {| state := state stopped; binaryWrapperPath := binaryWrapperPath stopped;
               children := l ++ [{| handle := x; exitObserver := None;
                                    monitored := true; exited := false |}];
               timers := <[t:=None]> (timers sys);
               startups := startups stopped; stops := stops stopped |} = true).
  { intros l x. unfold is_monitored. cbn [children].
    by rewrite list_lookup_middle. }
  destruct (captured_useWrapper closure) eqn:Hw; cbn [negb].
  - cbn. split_and!; try done. apply Hmid.
  - destruct Hspawn as [Hfalse | Hkey]; [discriminate|]. rewrite Hkey.
    cbn. split_and!; try done. apply Hmid.
Qed.

(** An instance of X22: the child exits, [stop] is called before the
    restart timer fires, and the timer fires afterwards. *)
Lemma restart_survives_stop_witness :
  let sp := {| keyExit := Some 0%Z; newPid := Some 4242%Z |} in
  let sp' := {| keyExit := Some 0%Z; newPid := Some 4343%Z |} in
  let senv := {| alive_at := fun _ => false; overrun := fun _ => 0;
                 unlink_ok := true |} in
  let sys := (run_events default_config (initial_system default_config)
                [Start false 1000 sp; ChildExit 0 9000 (1 # 2)]).1 in
  process (state (step default_config (step default_config sys (Stop senv)).1
                       (TimerFires 0 sp' 12000)).1)
  = Some {| cid := 1; pid := Some 4343%Z |}.
Proof.
  cbv zeta.
  apply (restart_survives_stop default_config
           (run_events default_config (initial_system default_config)
              [Start false 1000 {| keyExit := Some 0%Z; newPid := Some 4242%Z |};
               ChildExit 0 9000 (1 # 2)]).1
           0 {| captured_binaryPath := BINARY_PATH default_config;
                captured_useWrapper := false |}
           {| alive_at := fun _ => false; overrun := fun _ => 0;
              unlink_ok := true |}
           {| keyExit := Some 0%Z; newPid := Some 4343%Z |} 12000).
  - vm_compute. reflexivity.
  - right. reflexivity.
Defined.

(** ** A call of [stop] among the other handlers *)

Section StopCalls.
Variable CONFIG : Config.

Lemma quiet_frame (sys : System) (ev : event) :
  quiet ev = true ->
  let r := step CONFIG sys ev in
  process (state r.1) = process (state sys) /\
  binaryWrapperPath r.1 = binaryWrapperPath sys /\ stops r.1 = stops sys.
Proof.
  destruct ev as [| | env | env | | | | | c line d | c line | c now random |];
    try discriminate; intros _; cbv zeta; cbn [step].
  - destruct (startups sys); [done|]. unfold initial_health_check.
    pose proof (checkBinaryHealth_frame CONFIG env (state sys)) as [Hp _].
    by destruct (checkBinaryHealth CONFIG env (state sys)) as [[h st] eff].
  - unfold health.
    pose proof (checkBinaryHealth_frame CONFIG env (state sys)) as [Hp _].
    by destruct (checkBinaryHealth CONFIG env (state sys)) as [[h st] eff].
  - by destruct (is_monitored c sys).
  - by destruct (is_monitored c sys).
  - unfold child_exit.
    destruct (children sys !! c) as [info|]; [|done].
    destruct (exited info); [done|].
    destruct (exitObserver info); [|done].
    unfold on_exit. cbn.
    by destruct (restartCount (state sys) <? MAX_RESTART_ATTEMPTS CONFIG)%Z.
Qed.

Lemma quiet_run_frame (evs : list event) (sys : System) :
  Forall (fun ev => quiet ev = true) evs ->
  let r := run_events CONFIG sys evs in
  process (state r.1) = process (state sys) /\
  binaryWrapperPath r.1 = binaryWrapperPath sys /\ stops r.1 = stops sys.
Proof.
  intros Hq. revert sys. induction Hq as [|ev evs Hev _ IH]; intros sys; [done|].
  cbv zeta. cbn [run_events].
  pose proof (quiet_frame sys ev Hev) as (Hp & Hw & Hs). cbv zeta in Hp, Hw, Hs.
  destruct (step CONFIG sys ev) as [sys1 eff1]. cbn [fst] in *.
  specialize (IH sys1). cbv zeta in IH.
  destruct (run_events CONFIG sys1 evs) as [sys2 eff2]. cbn [fst] in *.
  destruct IH as (Hp2 & Hw2 & Hs2). by rewrite Hp2, Hw2, Hs2.
Qed.

Lemma quiet_run_pending (evs : list event) (sys : System) (call : nat)
    (t0 : Z) (child : ChildProcess) (w : option string) :
  Forall (fun ev => quiet ev = true) evs ->
  stop_pending sys call t0 child w ->
  stop_pending (run_events CONFIG sys evs).1 call t0 child w.
Proof.
  intros Hq (Hs & Hp & Hw).
  destruct (quiet_run_frame evs sys Hq) as (Hp' & Hw' & Hs').
  unfold stop_pending. by rewrite Hp', Hw', Hs'.
Qed.

(** A test after which the loop goes on: one probe, one sleep. *)
Lemma stop_poll_continues (t0 : Z) (r : PollRound) (w : option string)
    (st : ProcessState) (child : ChildProcess) (p : Z) :
  process st = Some child -> truthy_pid child = Some p ->
  continues CONFIG t0 r = true ->
  stop_poll CONFIG t0 (clock r) (answer r) w st
  = (Suspended (Polling t0), st, [Probe p; Sleep 100]).
Proof.
  intros Hproc Hpid Hc. unfold continues in Hc.
  apply andb_true_iff in Hc as [Hlt Ha].
  unfold stop_poll. by rewrite Hlt, Hproc, Hpid, Ha.
Qed.

(** The test that ends the loop: the probe that finds the child gone, or
    the timeout, which is followed by SIGKILL without a probe. *)
Lemma stop_poll_ends (t0 : Z) (r : PollRound) (w : option string)
    (st : ProcessState) (child : ChildProcess) (p : Z) :
  process st = Some child -> truthy_pid child = Some p ->
  continues CONFIG t0 r = false ->
  let ending :=
    if (SHUTDOWN_TIMEOUT CONFIG <=? clock r - t0)%Z
    then [Log Warn "Graceful shutdown timeout, forcing kill";
          Kill (cid child) SIGKILL]
    else [Probe p] in
  stop_poll CONFIG t0 (clock r) (answer r) w st
  = match w with
    | Some path =>
        if String.eqb path (BINARY_PATH CONFIG)
        then (Returned, reset_stopped st,
              ending ++ [Log Info "Binary service stopped successfully"])
        else (Suspended Unlinking, st, ending ++ [Unlink path])
    | None => (Returned, reset_stopped st,
               ending ++ [Log Info "Binary service stopped successfully"])
    end.
Proof.
  intros Hproc Hpid Hc. cbv zeta. unfold continues in Hc.
  unfold stop_poll, stop_after_loop, stop_returns.
  destruct (clock r - t0 <? SHUTDOWN_TIMEOUT CONFIG)%Z eqn:Hlt.
  - cbn [andb] in Hc. rewrite Hproc, Hpid, Hc.
    apply Z.ltb_lt in Hlt. rewrite (proj2 (Z.leb_gt _ _) Hlt).
    destruct w as [path|]; [|done].
    by destruct (String.eqb path (BINARY_PATH CONFIG)).
  - apply Z.ltb_ge in Hlt. rewrite (proj2 (Z.leb_le _ _) Hlt).
    rewrite Hproc, Hpid.
    destruct w as [path|]; [|done].
    by destruct (String.eqb path (BINARY_PATH CONFIG)).
Qed.

(** The waits after which the loop goes on. *)
Lemma polls_run_continue (call : nat) (t0 : Z) (child : ChildProcess) (p : Z)
    (w : option string) (waits : list PollRound) (sys : System) :
  truthy_pid child = Some p ->
  stop_pending sys call t0 child w ->
  Forall (fun r => Forall (fun ev => quiet ev = true) (during r)) waits ->
  Forall (fun r => continues CONFIG t0 r = true) waits ->
  let run := polls_run CONFIG call sys waits in
  stop_pending run.1 call t0 child w /\
  run.2 = flat_map (fun _ => [Probe p; Sleep 100]) waits.
Proof.
  intros Hpid. revert sys.
  induction waits as [|r waits IH]; intros sys Hpend Hq Hc; [done|].
  apply Forall_cons in Hq as [Hq Hqs]. apply Forall_cons in Hc as [Hc Hcs].
  cbv zeta. cbn [polls_run flat_map].
  pose proof (quiet_run_pending _ sys call t0 child w Hq Hpend) as (Hs & Hp & Hw).
  set (sys1 := (run_events CONFIG sys (during r)).1) in *.
  assert (Hstep : step CONFIG sys1 (StopPolls call (clock r) (answer r))
                  = ({| state := state sys1;
                        binaryWrapperPath := binaryWrapperPath sys1;
                        children := children sys1; timers := timers sys1;
                        startups := startups sys1;
                        stops := <[ call := Some (Polling t0) ]> (stops sys1) |},
                     [Probe p; Sleep 100])).
  { cbn [step]. unfold stop_polls. rewrite Hs.
    by rewrite (stop_poll_continues t0 r _ _ child p). }
  rewrite Hstep. cbn [fst snd].
  match goal with
  | |- context [polls_run CONFIG call ?s waits] =>
      destruct (IH s) as [Hpend' Heff]; [|done|done|]
  end.
  { unfold stop_pending. cbn. split_and!; [|done|done].
    apply list_lookup_insert_eq. by eapply lookup_lt_Some. }
  split; [done|]. cbn [app]. by rewrite Heff.
Qed.

Lemma polls_run_app (call : nat) (sys : System) (a b : list PollRound) :
  polls_run CONFIG call sys (a ++ b)
  = let first := polls_run CONFIG call sys a in
    let rest := polls_run CONFIG call first.1 b in
    (rest.1, first.2 ++ rest.2).
Proof.
  revert sys. induction a as [|r a IH]; intros sys.
  - cbn. by destruct (polls_run CONFIG call sys b).
  - cbn [app polls_run]. rewrite IH. cbv zeta. cbn [fst snd].
    by rewrite app_assoc.
Qed.

Lemma stopped_reset (st : ProcessState) : stopped (reset_stopped st).
Proof. by split_and!. Qed.

(** Once [fs.unlink] has settled, whatever its outcome and whatever the
    quiet handlers did meanwhile, the call logs the outcome, resets the
    state and returns. *)
Lemma unlink_settles (sys : System) (call : nat) (evs : list event) (ok : bool) :
  stops sys !! call = Some (Some Unlinking) ->
  Forall (fun ev => quiet ev = true) evs ->
  let settled :=
    step CONFIG (run_events CONFIG sys evs).1 (StopUnlinked call ok) in
  settled.2 = [if ok then Log Info "Cleaned up binary wrapper"
               else Log Warn "Failed to clean up wrapper";
               Log Info "Binary service stopped successfully"] /\
  stops settled.1 !! call = Some None /\ stopped (state settled.1).
Proof.
  intros Hs Hq. cbv zeta.
  destruct (quiet_run_frame evs sys Hq) as (_ & _ & Hs').
  set (sys1 := (run_events CONFIG sys evs).1) in *.
  cbn [step]. unfold stop_unlinked. rewrite Hs', Hs.
  unfold stop_after_unlink, stop_returns. cbn.
  split_and!; [done | | apply stopped_reset].
  apply list_lookup_insert_eq. by eapply lookup_lt_Some.
Qed.

End StopCalls.

(** The closed form of a call of [stop] that finds a child with a pid,
    while only quiet handlers run during its waits. *)
Lemma stop_call_run_closed_form (CONFIG : Config) (sys : System)
    (child : ChildProcess) (p startTime : Z)
    (waits : list PollRound) (last : PollRound) :
  process (state sys) = Some child -> truthy_pid child = Some p ->
  Forall (fun r => Forall (fun ev => quiet ev = true) (during r))
         (waits ++ [last]) ->
  Forall (fun r => continues CONFIG startTime r = true) waits ->
  continues CONFIG startTime last = false ->
  let run := stop_call_run CONFIG startTime sys (waits ++ [last]) in
  let call := length (stops sys) in
  let timeout := (SHUTDOWN_TIMEOUT CONFIG <=? clock last - startTime)%Z in
  let unlinks :=
    match binaryWrapperPath sys with
    | Some path =>
        if String.eqb path (BINARY_PATH CONFIG) then None else Some path
    | None => None
    end in
  run.2
  = [Log Info "Stopping binary service"; Kill (cid child) SIGTERM;
     Log Info "Sent SIGTERM to binary process"]
    ++ flat_map (fun _ => [Probe p; Sleep 100]) waits
    ++ (if timeout
        then [Log Warn "Graceful shutdown timeout, forcing kill";
              Kill (cid child) SIGKILL]
        else [Probe p])
    ++ match unlinks with
       | Some path => [Unlink path]
       | None => [Log Info "Binary service stopped successfully"]
       end /\
  match unlinks with
  | None => stops run.1 !! call = Some None /\ stopped (state run.1)
  | Some path =>
      stops run.1 !! call = Some (Some Unlinking) /\
      forall (evs : list event) (ok : bool),
        Forall (fun ev => quiet ev = true) evs ->
        let settled :=
          step CONFIG (run_events CONFIG run.1 evs).1 (StopUnlinked call ok) in
        settled.2 = [if ok then Log Info "Cleaned up binary wrapper"
                     else Log Warn "Failed to clean up wrapper";
                     Log Info "Binary service stopped successfully"] /\
        stops settled.1 !! call = Some None /\ stopped (state settled.1)
  end.
Proof.
  intros Hproc Hpid Hq Hc Hlast.
  (* the test that ends the loop, made by a call that waits in it *)
  assert (Hend : forall (s : System) (c : nat),
            stop_pending s c startTime child (binaryWrapperPath sys) ->
            let woken :=
              step CONFIG (run_events CONFIG s (during last)).1
                   (StopPolls c (clock last) (answer last)) in
            woken.2
            = (if (SHUTDOWN_TIMEOUT CONFIG <=? clock last - startTime)%Z
               then [Log Warn "Graceful shutdown timeout, forcing kill";
                     Kill (cid child) SIGKILL]
               else [Probe p])
              ++ match binaryWrapperPath sys with
                 | Some path =>
                     if String.eqb path (BINARY_PATH CONFIG)
                     then [Log Info "Binary service stopped successfully"]
                     else [Unlink path]
                 | None => [Log Info "Binary service stopped successfully"]
                 end /\
            match binaryWrapperPath sys with
            | Some path =>
                if String.eqb path (BINARY_PATH CONFIG)
                then stops woken.1 !! c = Some None /\ stopped (state woken.1)
                else stops woken.1 !! c = Some (Some Unlinking)
            | None => stops woken.1 !! c = Some None /\ stopped (state woken.1)
            end).
  { intros s c Hpend. cbv zeta.
    apply Forall_app in Hq as [_ Hql]. apply Forall_cons in Hql as [Hql _].
    pose proof (quiet_run_pending CONFIG _ s c startTime child _ Hql Hpend)
      as (Hs & Hp & Hw).
    set (s1 := (run_events CONFIG s (during last)).1) in *.
    cbn [step]. unfold stop_polls. rewrite Hs.
    rewrite (stop_poll_ends CONFIG startTime last _ _ child p Hp Hpid Hlast).
    rewrite Hw.
    assert (Hlen : c < length (stops s1)) by (by eapply lookup_lt_Some).
    destruct (binaryWrapperPath sys) as [path|];
      [destruct (String.eqb path (BINARY_PATH CONFIG))|]; cbn;
      (split; [done|]); rewrite ?list_lookup_insert_eq by done;
      first [done | split; [done | apply stopped_reset]]. }
  cbv zeta.
  assert (Hfinish : forall (r : System * list effect) (c : nat),
            match binaryWrapperPath sys with
            | Some path =>
                if String.eqb path (BINARY_PATH CONFIG)
                then stops r.1 !! c = Some None /\ stopped (state r.1)
                else stops r.1 !! c = Some (Some Unlinking)
            | None => stops r.1 !! c = Some None /\ stopped (state r.1)
            end ->
            match
              match binaryWrapperPath sys with
              | Some path =>
                  if String.eqb path (BINARY_PATH CONFIG) then None else Some path
              | None => None
              end
            with
            | None => stops r.1 !! c = Some None /\ stopped (state r.1)
            | Some path =>
                stops r.1 !! c = Some (Some Unlinking) /\
                forall (evs : list event) (ok : bool),
                  Forall (fun ev => quiet ev = true) evs ->
                  let settled :=
                    step CONFIG (run_events CONFIG r.1 evs).1 (StopUnlinked c ok) in
                  settled.2 = [if ok then Log Info "Cleaned up binary wrapper"
                               else Log Warn "Failed to clean up wrapper";
                               Log Info "Binary service stopped successfully"] /\
                  stops settled.1 !! c = Some None /\ stopped (state settled.1)
            end).
  { intros r c H. destruct (binaryWrapperPath sys) as [path|]; [|done].
    destruct (String.eqb path (BINARY_PATH CONFIG)); [done|].
    split; [done|]. intros evs ok Hevs. by apply unlink_settles. }
  assert (Htail : match
                    match binaryWrapperPath sys with
                    | Some path =>
                        if String.eqb path (BINARY_PATH CONFIG)
                        then None else Some path
                    | None => None
                    end
                  with
                  | Some path => [Unlink path]
                  | None => [Log Info "Binary service stopped successfully"]
                  end
                  = match binaryWrapperPath sys with
                    | Some path =>
                        if String.eqb path (BINARY_PATH CONFIG)
                        then [Log Info "Binary service stopped successfully"]
                        else [Unlink path]
                    | None => [Log Info "Binary service stopped successfully"]
                    end).
  { destruct (binaryWrapperPath sys) as [path|]; [|done].
    by destruct (String.eqb path (BINARY_PATH CONFIG)). }
  rewrite Htail. clear Htail.
  destruct waits as [|first waits].
  - (* the call's own test ends the loop *)
    cbn [app stop_call_run polls_run flat_map fst snd].
    apply Forall_cons in Hq as [Hql _].
    destruct (quiet_run_frame CONFIG (during last) sys Hql) as (Hp & Hw & Hs).
    set (before := (run_events CONFIG sys (during last)).1) in *.
    rewrite app_nil_r.
    assert (Hcalled :
      step CONFIG before (StopCalled startTime (clock last) (answer last))
      = let '(r, st, eff) :=
          stop_poll CONFIG startTime (clock last) (answer last)
                    (binaryWrapperPath before) (state before) in
        ({| state := st; binaryWrapperPath := binaryWrapperPath before;
            children := children before; timers := timers before;
            startups := startups before;
            stops := stops before ++ [stop_suspend r] |},
         [Log Info "Stopping binary service"; Kill (cid child) SIGTERM;
          Log Info "Sent SIGTERM to binary process"] ++ eff)).
    { cbn [step]. unfold stop_called, stop_call. rewrite Hp, Hproc.
      by destruct (stop_poll CONFIG _ _ _ _ _) as [[r st] eff]. }
    rewrite Hcalled.
    rewrite (stop_poll_ends CONFIG startTime last _ _ child p); [|by rewrite Hp|done..].
    rewrite Hw. split.
    + destruct (binaryWrapperPath sys) as [path|];
        [destruct (String.eqb path (BINARY_PATH CONFIG))|]; done.
    + apply Hfinish.
      destruct (binaryWrapperPath sys) as [path|];
        [destruct (String.eqb path (BINARY_PATH CONFIG))|]; cbn;
        rewrite Hs, list_lookup_middle by done;
        first [done | split; [done | apply stopped_reset]].
  - (* the call is suspended in the loop *)
    apply Forall_cons in Hc as [Hc1 Hc].
    pose proof Hq as Hq'.
    apply Forall_cons in Hq' as [Hq1 Hqs].
    apply Forall_app in Hqs as [Hqw _].
    cbn [app stop_call_run]. cbv zeta.
    destruct (quiet_run_frame CONFIG (during first) sys Hq1) as (Hp & Hw & Hs).
    set (before := (run_events CONFIG sys (during first)).1) in *.
    assert (Hcalled :
      step CONFIG before (StopCalled startTime (clock first) (answer first))
      = ({| state := state before; binaryWrapperPath := binaryWrapperPath before;
            children := children before; timers := timers before;
            startups := startups before;
            stops := stops before ++ [Some (Polling startTime)] |},
         [Log Info "Stopping binary service"; Kill (cid child) SIGTERM;
          Log Info "Sent SIGTERM to binary process"] ++ [Probe p; Sleep 100])).
    { cbn [step]. unfold stop_called, stop_call. rewrite Hp, Hproc.
      rewrite (stop_poll_continues CONFIG startTime first _ _ child p);
        [done | by rewrite Hp | done | done]. }
    rewrite Hcalled. cbn [fst snd].
    rewrite polls_run_app. cbv zeta. cbn [fst snd].
    match goal with
    | |- context [polls_run CONFIG ?c ?s waits] =>
        destruct (polls_run_continue CONFIG c startTime child p
                    (binaryWrapperPath sys) waits s Hpid) as [Hpend Heff];
          [|done|done|]
    end.
    { unfold stop_pending. cbn. split_and!; [|by rewrite Hp|done].
      by rewrite list_lookup_middle. }
    rewrite Heff. cbn [polls_run fst snd].
    destruct (Hend _ _ Hpend) as [Heff2 Hst2]. cbv zeta in Heff2, Hst2.
    rewrite Hs in *. rewrite Heff2. split.
    + cbn [flat_map app]. by rewrite app_nil_r.
    + by apply Hfinish.
Qed.

(** C10, amended. A call of [stop] that finds a child with a pid, while
    only quiet handlers (health evaluations, line readers, exit handlers)
    run during its waits. SIGTERM goes out first. The loop then tests the
    clock and probes the child, sleeping 100 ms after every test that is
    within the timeout and finds the child; it ends with the first test
    that is not: by a probe that finds the child gone, or by the timeout,
    and exactly then SIGKILL follows, without a probe, whatever has become
    of the child. Then the wrapper, if it is not the binary, is unlinked,
    and once this has settled, with success or not, the call logs the
    outcome; on each path it ends by resetting the state (no child, not
    healthy, no line, no snapshot). *)
Theorem stop_graceful_then_forceful (CONFIG : Config) (sys : System)
    (child : ChildProcess) (p startTime : Z)
    (waits : list PollRound) (last : PollRound) :
  process (state sys) = Some child -> truthy_pid child = Some p ->
  Forall (fun r => Forall (fun ev => quiet ev = true) (during r))
         (waits ++ [last]) ->
  Forall (fun r => continues CONFIG startTime r = true) waits ->
  continues CONFIG startTime last = false ->
  let run := stop_call_run CONFIG startTime sys (waits ++ [last]) in
  let call := length (stops sys) in
  let timeout := (SHUTDOWN_TIMEOUT CONFIG <=? clock last - startTime)%Z in
  let unlinks :=
    match binaryWrapperPath sys with
    | Some path =>
        if String.eqb path (BINARY_PATH CONFIG) then None else Some path
    | None => None
    end in
  run.2
  = [Log Info "Stopping binary service"; Kill (cid child) SIGTERM;
     Log Info "Sent SIGTERM to binary process"]
    ++ flat_map (fun _ => [Probe p; Sleep 100]) waits
    ++ (if timeout
        then [Log Warn "Graceful shutdown timeout, forcing kill";
              Kill (cid child) SIGKILL]
        else [Probe p])
    ++ match unlinks with
       | Some path => [Unlink path]
       | None => [Log Info "Binary service stopped successfully"]
       end /\
  match unlinks with
  | None => stops run.1 !! call = Some None /\ stopped (state run.1)
  | Some path =>
      stops run.1 !! call = Some (Some Unlinking) /\
      forall (evs : list event) (ok : bool),
        Forall (fun ev => quiet ev = true) evs ->
        let settled :=
          step CONFIG (run_events CONFIG run.1 evs).1 (StopUnlinked call ok) in
        settled.2 = [if ok then Log Info "Cleaned up binary wrapper"
                     else Log Warn "Failed to clean up wrapper";
                     Log Info "Binary service stopped successfully"] /\
        stops settled.1 !! call = Some None /\ stopped (state settled.1)
  end.
Proof. apply stop_call_run_closed_form. Qed.


(** An instance of C10: the wrapper is installed, the child of a [start]
    writes a line while [stop] waits, and the third probe finds it gone. *)
Lemma stop_graceful_then_forceful_witness :
  let sp := {| keyExit := Some 0%Z; newPid := Some 4242%Z |} in
  let sys := (run_events default_config (initial_system default_config)
                [InstallSecrets true true true; Start false 1000 sp]).1 in
  (stop_call_run default_config 2000 sys
     [ {| during := []; clock := 2000; answer := true |};
       {| during := [StdoutLine 0 "shutting down" 0]; clock := 2100;
          answer := true |};
       {| during := []; clock := 2200; answer := false |} ]).2
  = [Log Info "Stopping binary service"; Kill 0 SIGTERM;
     Log Info "Sent SIGTERM to binary process";
     Probe 4242; Sleep 100; Probe 4242; Sleep 100; Probe 4242;
     Unlink "/app/binary-wrapper.sh"].
Proof.
  cbv zeta.
  destruct (stop_graceful_then_forceful default_config
              (run_events default_config (initial_system default_config)
                 [InstallSecrets true true true;
                  Start false 1000 {| keyExit := Some 0%Z; newPid := Some 4242%Z |}]).1
              {| cid := 0; pid := Some 4242%Z |} 4242 2000
              [ {| during := []; clock := 2000; answer := true |};
                {| during := [StdoutLine 0 "shutting down" 0]; clock := 2100;
                   answer := true |} ]
              {| during := []; clock := 2200; answer := false |})
    as [Hrun _].
  - reflexivity.
  - reflexivity.
  - repeat constructor.
  - repeat constructor.
  - reflexivity.
  - exact Hrun.
Defined.

(** C10 as stated does not hold: the forceful signal is sent on timeout
    without a look at the child. In this run under the default
    configuration the child ignores SIGTERM, is found alive by the hundred
    probes made 100 ms apart, and exits 50 ms before the timeout; the test
    at the timeout, where a probe would find no process, makes no probe,
    and SIGKILL is sent to the child that is gone. *)
Lemma sigkill_without_a_last_probe :
  let sp := {| keyExit := Some 0%Z; newPid := Some 4242%Z |} in
  let polls :=
    map (fun j => StopPolls 0 (2000 + 100 * Z.of_nat j) true) (seq 1 99) in
  let before :=
    run_events default_config (initial_system default_config)
      ([Start false 1000 sp; StopCalled 2000 2000 true] ++ polls
       ++ [ChildExit 0 11950 (1 # 2)]) in
  let last := step default_config before.1 (StopPolls 0 12000 false) in
  exited <$> children before.1 !! 0 = Some true /\
  count is_probe before.2 = 100 /\
  last.2 = [Log Warn "Graceful shutdown timeout, forcing kill";
            Kill 0 SIGKILL;
            Log Info "Binary service stopped successfully"].
Proof. vm_compute. by split_and!. Qed.

(** When the restart timer fires while [stop] waits, the call goes on with
    the new child. Here SIGTERM ends child 0, whose exit handler schedules
    a restart 50 ms later; the timer fires before the next test of the
    loop, which from then on probes child 1 and, at the timeout, sends
    SIGKILL to it, a child that got no SIGTERM. *)
Example stop_meets_a_restarted_child :
  let sp := {| keyExit := Some 0%Z; newPid := Some 4242%Z |} in
  let sp' := {| keyExit := Some 0%Z; newPid := Some 4343%Z |} in
  let cfg := {| BINARY_PATH := "/app/binary"; SECRET_KEY := "DEEEP_NETWORK";
                STARTUP_GRACE_PERIOD := 5000; MAX_RESTART_ATTEMPTS := 3;
                RESTART_DELAY := 50; AUTO_KEY_INJECTION := false;
                MAX_LOG_LINES := 1000; SHUTDOWN_TIMEOUT := 200;
                HEALTH_CACHE_TTL := 500 |} in
  let run :=
    run_events cfg (initial_system cfg)
      [Start false 1000 sp; StopCalled 2000 2000 true;
       ChildExit 0 2010 (1 # 2); TimerFires 0 sp' 2070;
       StopPolls 0 2100 true; StopPolls 0 2200 true] in
  List.filter (fun e => is_kill e || is_probe e) run.2
  = [Kill 0 SIGTERM; Probe 4242; Probe 4343; Kill 1 SIGKILL] /\
  process (state run.1) = None.
Proof. vm_compute. by split. Qed.

(** ** How long [stop] waits for a child that does not die *)

Lemma paced_lookup (least : Z) (rounds : list PollRound) (j : nat) (r : PollRound) :
  paced least rounds -> rounds !! j = Some r ->
  (least + 100 * Z.of_nat j <= clock r)%Z.
Proof.
  revert least j. induction rounds as [|r0 rounds IH]; intros least j Hp Hj;
    [done|].
  destruct Hp as [Hfirst Hrest]. destruct j as [|j].
  - injection Hj as ->. lia.
  - cbn in Hj. specialize (IH _ _ Hrest Hj). lia.
Qed.

Lemma filter_polls {A : Type} (f : effect -> bool) (p : Z) (l : list A) :
  List.filter f (flat_map (fun _ => [Probe p; Sleep 100]) l)
  = flat_map (fun _ => List.filter f [Probe p; Sleep 100]) l.
Proof.
  induction l as [|x l IH]; [done|].
  cbn [flat_map]. by rewrite List.filter_app, IH.
Qed.

Lemma length_flat_map_const {A B : Type} (l : list A) (c : list B) :
  length (flat_map (fun _ => c) l) = length l * length c.
Proof.
  induction l as [|x l IH]; [done|].
  cbn [flat_map length]. rewrite length_app, IH. lia.
Qed.

(** X20. A child with a pid that stays alive is killed by force, but not
    before the timeout. While only quiet handlers run during the waits of
    the call, every test finds the child, and every [delay(100)] lasts at
    least 100 ms: SIGTERM and then SIGKILL go to this child, SIGKILL at the
    first test whose clock has reached the timeout; before it there are as
    many probes as sleeps, one per test, and no more than the timeout
    divided by 100, rounded up. *)
Theorem stop_waits_before_force_kill (CONFIG : Config) (sys : System)
    (child : ChildProcess) (p startTime : Z)
    (waits : list PollRound) (last : PollRound) :
  process (state sys) = Some child -> truthy_pid child = Some p ->
  Forall (fun r => Forall (fun ev => quiet ev = true) (during r))
         (waits ++ [last]) ->
  Forall (fun r => answer r = true) (waits ++ [last]) ->
  Forall (fun r => (clock r - startTime < SHUTDOWN_TIMEOUT CONFIG)%Z) waits ->
  (SHUTDOWN_TIMEOUT CONFIG <= clock last - startTime)%Z ->
  paced startTime (waits ++ [last]) ->
  let run := stop_call_run CONFIG startTime sys (waits ++ [last]) in
  let n := length waits in
  List.filter is_kill run.2
  = [Kill (cid child) SIGTERM; Kill (cid child) SIGKILL] /\
  count is_probe run.2 = n /\ count is_sleep run.2 = n /\
  (n = 0 \/ (100 * (Z.of_nat n - 1) < SHUTDOWN_TIMEOUT CONFIG)%Z).
Proof.
  intros Hproc Hpid Hq Ha Hin Hout Hpaced. cbv zeta.
  apply Forall_app in Ha as [Haw Hal]. apply Forall_cons in Hal as [Hal _].
  assert (Hc : Forall (fun r => continues CONFIG startTime r = true) waits).
  { apply Forall_forall. intros r Hr. unfold continues.
    rewrite (proj1 (Forall_forall _ _) Haw r Hr), andb_true_r.
    apply Z.ltb_lt. by apply (proj1 (Forall_forall _ _) Hin r Hr). }
  assert (Hlast : continues CONFIG startTime last = false).
  { unfold continues. by rewrite (proj2 (Z.ltb_ge _ _) Hout). }
  destruct (stop_call_run_closed_form CONFIG sys child p startTime waits last
              Hproc Hpid Hq Hc Hlast) as [Hrun _].
  cbv zeta in Hrun. rewrite Hrun, (proj2 (Z.leb_le _ _) Hout).
  assert (Htail : forall f : effect -> bool,
             f (Log Info "Binary service stopped successfully") = false ->
             (forall path, f (Unlink path) = false) ->
             List.filter f
               match
                 match binaryWrapperPath sys with
                 | Some path =>
                     if String.eqb path (BINARY_PATH CONFIG)
                     then None else Some path
                 | None => None
                 end
               with
               | Some path => [Unlink path]
               | None => [Log Info "Binary service stopped successfully"]
               end = []).
  { intros f Hlog Hun. destruct (binaryWrapperPath sys) as [path|];
      [destruct (String.eqb path (BINARY_PATH CONFIG))|]; cbn;
      by rewrite ?Hlog, ?Hun. }
  split_and!.
  - rewrite !List.filter_app, filter_polls, (Htail is_kill) by done. cbn.
    assert (Hnone : forall l : list PollRound,
               flat_map (fun _ => @nil effect) l = [])
      by (intros l; induction l; done).
    by rewrite Hnone.
  - unfold count.
    rewrite !List.filter_app, filter_polls, (Htail is_probe) by done. cbn.
    rewrite !length_app, length_flat_map_const. cbn. lia.
  - unfold count.
    rewrite !List.filter_app, filter_polls, (Htail is_sleep) by done. cbn.
    rewrite !length_app, length_flat_map_const. cbn. lia.
  - destruct (decide (length waits = 0)) as [Hz|Hnz]; [by left|right].
    destruct (lookup_lt_is_Some_2 waits (length waits - 1)) as [r Hr]; [lia|].
    pose proof (paced_lookup startTime (waits ++ [last]) (length waits - 1) r
                  Hpaced) as Hclock.
    rewrite lookup_app_l in Hclock by lia. specialize (Hclock Hr).
    pose proof (proj1 (Forall_forall _ _) Hin r
                  (list_elem_of_lookup_2 _ _ _ Hr)) as Hlt.
    cbv beta in Hlt. lia.
Qed.

(** An instance of X20: the child of a [start] ignores SIGTERM; with a
    timeout of 200 ms the third test, at 203 ms, ends the wait. *)
Lemma stop_waits_before_force_kill_witness :
  let sp := {| keyExit := Some 0%Z; newPid := Some 4242%Z |} in
  let cfg := {| BINARY_PATH := "/app/binary"; SECRET_KEY := "DEEEP_NETWORK";
                STARTUP_GRACE_PERIOD := 5000; MAX_RESTART_ATTEMPTS := 3;
                RESTART_DELAY := 2000; AUTO_KEY_INJECTION := false;
                MAX_LOG_LINES := 1000; SHUTDOWN_TIMEOUT := 200;
                HEALTH_CACHE_TTL := 500 |} in
  let sys := (run_events cfg (initial_system cfg) [Start false 1000 sp]).1 in
  List.filter is_kill
    (stop_call_run cfg 2000 sys
       [ {| during := []; clock := 2000; answer := true |};
         {| during := []; clock := 2101; answer := true |};
         {| during := []; clock := 2203; answer := true |} ]).2
  = [Kill 0 SIGTERM; Kill 0 SIGKILL].
Proof.
  cbv zeta.
  destruct (stop_waits_before_force_kill
              {| BINARY_PATH := "/app/binary"; SECRET_KEY := "DEEEP_NETWORK";
                 STARTUP_GRACE_PERIOD := 5000; MAX_RESTART_ATTEMPTS := 3;
                 RESTART_DELAY := 2000; AUTO_KEY_INJECTION := false;
                 MAX_LOG_LINES := 1000; SHUTDOWN_TIMEOUT := 200;
                 HEALTH_CACHE_TTL := 500 |}
              (run_events
                 {| BINARY_PATH := "/app/binary"; SECRET_KEY := "DEEEP_NETWORK";
                    STARTUP_GRACE_PERIOD := 5000; MAX_RESTART_ATTEMPTS := 3;
                    RESTART_DELAY := 2000; AUTO_KEY_INJECTION := false;
                    MAX_LOG_LINES := 1000; SHUTDOWN_TIMEOUT := 200;
                    HEALTH_CACHE_TTL := 500 |}
                 (initial_system
                    {| BINARY_PATH := "/app/binary"; SECRET_KEY := "DEEEP_NETWORK";
                       STARTUP_GRACE_PERIOD := 5000; MAX_RESTART_ATTEMPTS := 3;
                       RESTART_DELAY := 2000; AUTO_KEY_INJECTION := false;
                       MAX_LOG_LINES := 1000; SHUTDOWN_TIMEOUT := 200;
                       HEALTH_CACHE_TTL := 500 |})
                 [Start false 1000 {| keyExit := Some 0%Z; newPid := Some 4242%Z |}]).1
              {| cid := 0; pid := Some 4242%Z |} 4242 2000
              [ {| during := []; clock := 2000; answer := true |};
                {| during := []; clock := 2101; answer := true |} ]
              {| during := []; clock := 2203; answer := true |})
    as [Hkills _].
  - reflexivity.
  - reflexivity.
  - repeat constructor.
  - repeat constructor.
  - repeat constructor.
  - cbn. lia.
  - cbn. lia.
  - exact Hkills.
Defined.

(** ** The one-piece [stop] is a call that nothing interrupts *)

Section OnePiece.
Variable CONFIG : Config.

(** From a test of the loop on: what [poll_shutdown] and the rest of the
    one-piece [stop] do is what the stretches do when they follow each
    other with no handler in between, the clock showing at each test what
    the sleeps and their overruns add up to. *)
Lemma polls_run_one_piece (env : StopEnv) (child : ChildProcess) (p : Z)
    (w : option string) (call : nat) (fuel i : nat) (elapsed : Z)
    (o : poll_outcome) (eff : list effect) (s : System) :
  truthy_pid child = Some p -> stop_pending s call 0 child w ->
  poll_shutdown CONFIG env child fuel i elapsed = Some (o, eff) ->
  exists rounds : list PollRound,
    Forall (fun r => during r = []) rounds /\
    let run := polls_run CONFIG call s rounds in
    let settled := step CONFIG run.1 (StopUnlinked call (unlink_ok env)) in
    run.2 ++ settled.2
    = eff ++ force_kill o child ++ cleanup_wrapper CONFIG w env
      ++ [Log Info "Binary service stopped successfully"] /\
    state settled.1 = reset_stopped (state s).
Proof.
  intros Hpid. revert i elapsed o eff s.
  induction fuel as [|fuel IH]; intros i elapsed o eff s Hpend Hrun;
    [discriminate|].
  destruct Hpend as (Hs & Hp & Hw).
  assert (Hlen : call < length (stops s)) by (by eapply lookup_lt_Some).
  cbn [poll_shutdown] in Hrun. rewrite Hpid in Hrun.
  (* a test that ends the loop *)
  assert (Hlast : forall (b : bool) (done forced : list effect),
            stop_poll CONFIG 0 elapsed (alive_at env i) w (state s)
            = (let '(r, st1, e) := stop_after_loop CONFIG b w (state s) in
               (r, st1, done ++ e)) ->
            (if b then Some [] else
               match process (state s) with
               | None => None
               | Some c =>
                   Some match truthy_pid c with
                        | Some _ => [Log Warn "Graceful shutdown timeout, forcing kill";
                                     Kill (cid c) SIGKILL]
                        | None => []
                        end
               end) = Some forced ->
            exists rounds : list PollRound,
              Forall (fun r => during r = []) rounds /\
              let run := polls_run CONFIG call s rounds in
              let settled := step CONFIG run.1 (StopUnlinked call (unlink_ok env)) in
              run.2 ++ settled.2
              = done ++ forced ++ cleanup_wrapper CONFIG w env
                ++ [Log Info "Binary service stopped successfully"] /\
              state settled.1 = reset_stopped (state s)).
  { intros b done forced Hpoll Hforced.
    exists [{| during := []; clock := elapsed; answer := alive_at env i |}].
    split; [by repeat constructor|]. cbv zeta.
    cbn [polls_run during clock answer run_events fst snd step].
    unfold stop_polls. rewrite Hs, Hw, Hpoll.
    unfold stop_after_loop, stop_returns. rewrite Hforced.
    unfold cleanup_wrapper, stop_unlinked.
    destruct w as [path|];
      [destruct (String.eqb path (BINARY_PATH CONFIG))|];
      cbn [fst snd stops state stop_suspend];
      rewrite list_lookup_insert_eq by done;
      unfold stop_after_unlink, stop_returns; cbn [fst snd state];
      rewrite ?app_nil_r; try (split; [by rewrite <- ?app_assoc | done]).
    destruct (unlink_ok env); cbn; (split; [|done]);
      by rewrite <- !app_assoc. }
  destruct (elapsed <? SHUTDOWN_TIMEOUT CONFIG)%Z eqn:Hlt.
  - destruct (alive_at env i) eqn:Halive.
    + (* the loop goes on *)
      destruct (poll_shutdown CONFIG env child fuel (S i) _) as [[o' eff']|] eqn:Hrec;
        [|discriminate].
      injection Hrun as <- <-.
      set (r0 := {| during := []; clock := elapsed; answer := true |}).
      assert (Hstep : step CONFIG s (StopPolls call elapsed true)
                      = ({| state := state s;
                            binaryWrapperPath := binaryWrapperPath s;
                            children := children s; timers := timers s;
                            startups := startups s;
                            stops := <[ call := Some (Polling 0) ]> (stops s) |},
                         [Probe p; Sleep 100])).
      { cbn [step]. unfold stop_polls. rewrite Hs.
        rewrite (stop_poll_continues CONFIG 0 r0 _ _ child p); try done.
        unfold continues, r0. cbn. by rewrite Z.sub_0_r, Hlt. }
      match type of Hstep with
      | _ = (?s1, _) =>
          assert (Hpend1 : stop_pending s1 call 0 child w);
            [|destruct (IH _ _ _ _ s1 Hpend1 Hrec) as (rounds & Hq & Heff & Hst)]
      end.
      { unfold stop_pending. cbn. split_and!; [|done|done].
        by apply list_lookup_insert_eq. }
      exists (r0 :: rounds). split; [by constructor|]. subst r0.
      cbv zeta in *. cbn [polls_run during clock answer run_events fst snd].
      rewrite Hstep. cbn [fst snd]. split; [|exact Hst].
      rewrite <- app_assoc, Heff. done.
    + (* the probe finds the child gone *)
      injection Hrun as <- <-.
      destruct (Hlast true [Probe p] []) as (rounds & Hq & Heff & Hst);
        [|done|].
      { unfold stop_poll. rewrite Z.sub_0_r, Hlt, Hp, Hpid.
        by destruct (stop_after_loop CONFIG true w (state s)) as [[r st1] e]. }
      exists rounds. split; [done|]. split; [|done].
      cbv zeta in *. by rewrite Heff.
  - (* the timeout *)
    injection Hrun as <- <-.
    destruct (Hlast false [] [Log Warn "Graceful shutdown timeout, forcing kill";
                              Kill (cid child) SIGKILL])
      as (rounds & Hq & Heff & Hst).
    { unfold stop_poll. rewrite Z.sub_0_r, Hlt.
      by destruct (stop_after_loop CONFIG false w (state s)) as [[r st1] e]. }
    { by rewrite Hp, Hpid. }
    exists rounds. split; [done|]. split; [|done].
    cbv zeta in *. rewrite Heff. unfold force_kill. by rewrite Hpid.
Qed.

(** The one-piece [stop] does, and leaves, what a call does whose
    stretches follow each other with no handler in between. *)
Lemma stop_one_piece (sys : System) (env : StopEnv) :
  exists rounds : list PollRound,
    Forall (fun r => during r = []) rounds /\
    let run := stop_call_run CONFIG 0 sys rounds in
    let settled :=
      step CONFIG run.1 (StopUnlinked (length (stops sys)) (unlink_ok env)) in
    (step CONFIG sys (Stop env)).2 = run.2 ++ settled.2 /\
    state (step CONFIG sys (Stop env)).1 = state settled.1.
Proof.
  cbn [step]. unfold stop.
  destruct (process (state sys)) as [child|] eqn:Hproc.
  2: { exists [{| during := []; clock := 0; answer := true |}].
       split; [by repeat constructor|]. cbv zeta.
       cbn [stop_call_run polls_run during clock answer run_events fst snd step].
       unfold stop_called, stop_call. rewrite Hproc.
       cbn [fst snd stops stop_suspend]. unfold stop_unlinked.
       cbn [stops]. by rewrite list_lookup_middle. }
  destruct (poll_shutdown_total CONFIG env child) as [[o polled] Hpoll].
  rewrite Hpoll. cbn [fst snd state with_state].
  destruct (poll_fuel CONFIG) as [|fuel]; [discriminate|].
  cbn [poll_shutdown] in Hpoll.
  (* a first test that ends the loop *)
  assert (Hlast : forall (b : bool) (done forced : list effect),
            stop_poll CONFIG 0 0 (alive_at env 0) (binaryWrapperPath sys) (state sys)
            = (let '(r, st1, e) :=
                 stop_after_loop CONFIG b (binaryWrapperPath sys) (state sys) in
               (r, st1, done ++ e)) ->
            (if b then Some [] else
               Some match truthy_pid child with
                    | Some _ => [Log Warn "Graceful shutdown timeout, forcing kill";
                                 Kill (cid child) SIGKILL]
                    | None => []
                    end) = Some forced ->
            exists rounds : list PollRound,
              Forall (fun r => during r = []) rounds /\
              let run := stop_call_run CONFIG 0 sys rounds in
              let settled :=
                step CONFIG run.1
                     (StopUnlinked (length (stops sys)) (unlink_ok env)) in
              [Log Info "Stopping binary service"; Kill (cid child) SIGTERM;
               Log Info "Sent SIGTERM to binary process"]
              ++ done ++ forced ++ cleanup_wrapper CONFIG (binaryWrapperPath sys) env
              ++ [Log Info "Binary service stopped successfully"]
              = run.2 ++ settled.2 /\
              reset_stopped (state sys) = state settled.1).
  { intros b done forced Hpoll0 Hforced.
    exists [{| during := []; clock := 0; answer := alive_at env 0 |}].
    split; [by repeat constructor|]. cbv zeta.
    cbn [stop_call_run polls_run during clock answer run_events fst snd step].
    unfold stop_called, stop_call. rewrite Hproc, Hpoll0.
    unfold stop_after_loop, stop_returns. rewrite Hproc.
    assert (Hf : (if b then Some [] else
                    Some match truthy_pid child with
                         | Some _ => [Log Warn "Graceful shutdown timeout, forcing kill";
                                      Kill (cid child) SIGKILL]
                         | None => []
                         end) = Some forced) by exact Hforced.
    rewrite Hf. unfold cleanup_wrapper, stop_unlinked.
    destruct (binaryWrapperPath sys) as [path|];
      [destruct (String.eqb path (BINARY_PATH CONFIG))|];
      cbn [fst snd stops state stop_suspend];
      rewrite list_lookup_middle by done;
      unfold stop_after_unlink, stop_returns; cbn [fst snd state app];
      rewrite ?app_nil_r; try (split; [by rewrite <- ?app_assoc | done]).
    destruct (unlink_ok env); cbn; (split; [|done]);
      by rewrite <- !app_assoc. }
  destruct (truthy_pid child) as [p|] eqn:Hpid.
  - destruct (0 <? SHUTDOWN_TIMEOUT CONFIG)%Z eqn:Hlt.
    + destruct (alive_at env 0) eqn:Halive.
      * (* the call is suspended in the loop *)
        destruct (poll_shutdown CONFIG env child fuel 1 _) as [[o' eff']|] eqn:Hrec;
          [|discriminate].
        injection Hpoll as <- <-.
        set (r0 := {| during := []; clock := 0; answer := true |}).
        assert (Hcalled :
          step CONFIG sys (StopCalled 0 0 true)
          = ({| state := state sys; binaryWrapperPath := binaryWrapperPath sys;
                children := children sys; timers := timers sys;
                startups := startups sys;
                stops := stops sys ++ [Some (Polling 0)] |},
             [Log Info "Stopping binary service"; Kill (cid child) SIGTERM;
              Log Info "Sent SIGTERM to binary process"] ++ [Probe p; Sleep 100])).
        { cbn [step]. unfold stop_called, stop_call. rewrite Hproc.
          rewrite (stop_poll_continues CONFIG 0 r0 _ _ child p); try done.
          unfold continues, r0. cbn [clock answer].
          change (0 - 0)%Z with 0%Z. by rewrite Hlt. }
        match type of Hcalled with
        | _ = (?s1, _) =>
            assert (Hpend1 : stop_pending s1 (length (stops sys)) 0 child
                               (binaryWrapperPath sys));
              [|destruct (polls_run_one_piece env child p _ _ _ _ _ _ _ s1
                            Hpid Hpend1 Hrec) as (rounds & Hq & Heff & Hst)]
        end.
        { unfold stop_pending. cbn. split_and!; [|done|done].
          by rewrite list_lookup_middle. }
        exists (r0 :: rounds). split; [by constructor|]. subst r0.
        cbv zeta in *.
        cbn [stop_call_run during clock answer run_events fst snd].
        rewrite Hcalled. cbn [fst snd]. split; [|exact (eq_sym Hst)].
        cbn [step] in Heff |- *. rewrite <- !app_assoc. rewrite Heff. done.
      * (* the first probe finds the child gone *)
        injection Hpoll as <- <-.
        destruct (Hlast true [Probe p] []) as (rounds & Hq & Heff & Hst);
          [|done|].
        { unfold stop_poll. change (0 - 0)%Z with 0%Z. rewrite Hlt, Hproc, Hpid.
          by destruct (stop_after_loop CONFIG true _ (state sys)) as [[r st1] e]. }
        exists rounds. split; [done|]. cbv zeta in *. split; [|done].
        etrans; [|exact Heff]. done.
    + (* the timeout has passed at the call *)
      injection Hpoll as <- <-.
      destruct (Hlast false [] [Log Warn "Graceful shutdown timeout, forcing kill";
                                Kill (cid child) SIGKILL])
        as (rounds & Hq & Heff & Hst); [|done|].
      { unfold stop_poll. change (0 - 0)%Z with 0%Z. rewrite Hlt.
        by destruct (stop_after_loop CONFIG false _ (state sys)) as [[r st1] e]. }
      exists rounds. split; [done|]. cbv zeta in *. split; [|done].
      etrans; [|exact Heff]. unfold force_kill. by rewrite Hpid.
  - (* a handle without a pid *)
    assert (Hnone : exists b : bool,
               o = (if b then ShutdownComplete else TimedOut) /\
                              polled = [] /\
                              b = (0 <? SHUTDOWN_TIMEOUT CONFIG)%Z).
    { destruct (0 <? SHUTDOWN_TIMEOUT CONFIG)%Z; injection Hpoll as <- <-;
        [by exists true | by exists false]. }
    destruct Hnone as (b & -> & -> & Hb).
    destruct (Hlast b [] []) as (rounds & Hq & Heff & Hst).
    { unfold stop_poll. change (0 - 0)%Z with 0%Z. rewrite <- Hb, Hproc, Hpid.
      destruct b; by destruct (stop_after_loop CONFIG _ _ (state sys)) as [[r st1] e]. }
    { by destruct b. }
    exists rounds. split; [done|]. cbv zeta in *. split; [|done].
    etrans; [|exact Heff]. unfold force_kill. rewrite Hpid. by destruct b.
Qed.

End OnePiece.
